(** * Jones: hierarchical service configuration over a ZooKeeper tree

    A shallow embedding of [jones/jones.py] (classes [ZNodeMap], [Env] and
    [Jones]) together with the properties stated about it.

    Modelling conventions.
    - Python [str]/[unicode] values and znode payloads are [string]s; a byte
      string and its UTF-8 decoding are identified.
    - The KazooClient [zk] is a finite map from absolute path strings to
      znodes (payload and version), plus the list of mutating requests sent
      to it so far.  A method of the source is a function from the store to
      a result and the store it leaves behind: an exception keeps whatever
      was written before it was raised.
    - The [json] module and [dict.update] on a non-mapping argument are
      library behaviour and are taken as an interface ([PyLib]). *)

From stdpp Require Import gmap strings list fin_maps pretty.
From Stdlib Require Import ZArith String Ascii.

Local Open Scope Z_scope.

(* ===================================================================== *)
(** ** Python strings *)
(* ===================================================================== *)

Module Str.

(** [sep in s] for byte strings. *)
Fixpoint contains (sep s : string) : bool :=
  match s with
  | EmptyString => String.prefix sep s
  | String _ s' => String.prefix sep s || contains sep s'
  end.

(** [s.split(sep)] for a non-empty [sep]: the pieces between the
    non-overlapping occurrences of [sep], scanning from the left.
    [skip] counts the characters of the occurrence still to pass. *)
Fixpoint split_go (sep : string) (skip : nat) (s : string) : list string :=
  match s with
  | EmptyString => [EmptyString]
  | String c s' =>
      match skip with
      | S k => split_go sep k s'
      | O =>
          if String.prefix sep s
          then EmptyString :: split_go sep (String.length sep - 1) s'
          else match split_go sep 0 s' with
               | h :: t => String c h :: t
               | [] => [String c EmptyString]
               end
      end
  end.

Definition split (sep s : string) : list string := split_go sep 0 s.

(** [sep.join(l)]. *)
Definition join (sep : string) (l : list string) : string :=
  String.concat sep l.

(** [s[n:]]. *)
Fixpoint drop (n : nat) (s : string) : string :=
  match n, s with
  | O, _ => s
  | S _, EmptyString => EmptyString
  | S k, String _ s' => drop k s'
  end.

End Str.

(* ===================================================================== *)
(** ** Exceptions and results *)
(* ===================================================================== *)

Inductive exn :=
| NoNodeError | NodeExistsError | BadVersionError | NotEmptyError
| ValueError | TypeError | KeyError | IndexError | AssertionError.

Inductive result (A : Type) :=
| Ok (a : A)
| Raise (e : exn).
Arguments Ok {A} a.
Arguments Raise {A} e.

(* ===================================================================== *)
(** ** class Env(unicode) *)
(* ===================================================================== *)

Record Env := mkEnv { env_str : string; _empty : bool }.

(** [Env.__new__(cls, name)]; [None] stands for Python's [None]. *)
Definition Env_new (name : option string) : result Env :=
  match name with
  | None => Ok (mkEnv "" true)
  | Some EmptyString => Ok (mkEnv "" true)
  | Some (String c _ as s) =>
      if Ascii.eqb c "/" then Raise AssertionError else Ok (mkEnv s false)
  end.

Definition is_root (e : Env) : bool := _empty e.

Definition components (e : Env) : list string :=
  if is_root e then [""] else Str.split "/" (env_str e).

(** [Env.Root = Env(None)] *)
Definition Env_Root : Env := mkEnv "" true.

(* ===================================================================== *)
(** ** Python values *)
(* ===================================================================== *)

(** Hashable dictionary keys of the model: strings and integers. *)
Inductive pykey :=
| KStr (s : string)
| KInt (n : Z).

Global Instance pykey_eq_dec : EqDecision pykey.
Proof. solve_decision. Defined.

Global Instance pykey_countable : Countable pykey.
Proof.
  refine (inj_countable'
            (λ k, match k with KStr s => inl s | KInt n => inr n end)
            (λ x, match x with inl s => KStr s | inr n => KInt n end) _).
  by intros [].
Defined.

#[warnings="-register-all"]
Inductive pyval :=
| PyNone
| PyBool (b : bool)
| PyInt (n : Z)
| PyStr (s : string)
| PyList (l : list pyval)
| PyDict (d : gmap pykey pyval).

Abbreviation pydict := (gmap pykey pyval).

(** [isinstance(v, collections.Mapping)] *)
Definition is_mapping (v : pyval) : bool :=
  match v with PyDict _ => true | _ => false end.

Definition pyval_of_key (k : pykey) : pyval :=
  match k with KStr s => PyStr s | KInt n => PyInt n end.

(** [v == s] for a string [s]. *)
Definition py_eq_str (v : pyval) (s : string) : bool :=
  match v with PyStr s' => bool_decide (s' = s) | _ => false end.

(** The library functions the source calls.
    - [json_dumps], [json_loads]: the [json] module; [json_loads] raises
      [ValueError] on a payload that is not JSON.
    - [dict_update_seq d x]: [d.update(x)] for an [x] that is not a mapping
      (Python then iterates [x] as a sequence of key/value pairs). *)
Class PyLib := {
  json_dumps : pyval → string;
  json_loads : string → result pyval;
  dict_update_seq : pydict → pyval → result pydict
}.

(** [data.update(config)]: the entries of [config] override those of
    [data]. *)
Definition dict_update `{PyLib} (data : pydict) (config : pyval) : result pydict :=
  match config with
  | PyDict c => Ok (c ∪ data)
  | _ => dict_update_seq data config
  end.

(* ===================================================================== *)
(** ** The ZooKeeper store behind KazooClient *)
(* ===================================================================== *)

Record znode := mkZnode { node_data : string; node_version : Z }.

(** The mutating calls made on the client, as issued. *)
Inductive request :=
| ReqEnsurePath (path : string)
| ReqCreate (path value : string)
| ReqSet (path value : string) (version : Z)
| ReqDelete (path : string) (version : Z).

Record zk := mkZk { nodes : gmap string znode; requests : list request }.

Definition sent (r : request) (s : zk) : zk :=
  mkZk (nodes s) (requests s ++ [r]).

Definition with_nodes (ns : gmap string znode) (s : zk) : zk :=
  mkZk ns (requests s).

(** The parent of a path: everything before its last separator; [""] for a
    child of the tree root. *)
Fixpoint dirname (p : string) : string :=
  match p with
  | EmptyString => EmptyString
  | String c p' => if Str.contains "/" p' then String c (dirname p') else EmptyString
  end.

Fixpoint path_chain_fuel (fuel : nat) (p : string) : list string :=
  match fuel with
  | O => []
  | S fuel' =>
      match p with
      | EmptyString => []
      | _ => p :: path_chain_fuel fuel' (dirname p)
      end
  end.

(** A path followed by its ancestors, deepest first. *)
Definition path_chain (p : string) : list string :=
  path_chain_fuel (String.length p) p.

Definition has_children (ns : gmap string znode) (p : string) : bool :=
  bool_decide (set_Exists (λ k, dirname k = p) (dom ns)).

(** [k] lies strictly below [p] in the tree. *)
Definition below (p k : string) : bool := String.prefix (p +:+ "/") k.

(** A version argument of [-1] matches every version. *)
Definition version_matches (expected actual : Z) : bool :=
  bool_decide (expected = -1) || bool_decide (expected = actual).

(** *** The state-and-exception monad of a method call *)

Definition M (A : Type) : Type := zk → result A * zk.

Definition ret {A} (a : A) : M A := λ s, (Ok a, s).
Definition raise {A} (e : exn) : M A := λ s, (Raise e, s).
Definition lift {A} (r : result A) : M A := λ s, (r, s).
Definition bind {A B} (m : M A) (f : A → M B) : M B :=
  λ s, match m s with
       | (Ok a, s') => f a s'
       | (Raise e, s') => (Raise e, s')
       end.

Notation "'let!' x ':=' m 'in' k" := (bind m (λ x, k))
  (at level 10, x pattern, m at level 100, k at level 200).

(** [for x in l: body(x)] *)
Fixpoint for_each {A} (l : list A) (body : A → M unit) : M unit :=
  match l with
  | [] => ret tt
  | x :: l' => let! _ := body x in for_each l' body
  end.

(** *** KazooClient methods *)

(** [zk.get(path)] returns the payload and the version of its stat. *)
Definition zk_get (path : string) : M (string * Z) := λ s,
  match nodes s !! path with
  | Some n => (Ok (node_data n, node_version n), s)
  | None => (Raise NoNodeError, s)
  end.

(** [zk.exists(path)] *)
Definition zk_exists (path : string) : M bool := λ s,
  (Ok (bool_decide (is_Some (nodes s !! path))), s).

(** [zk.set(path, value, version=-1)] *)
Definition zk_set (path value : string) (version : Z) : M unit := λ s,
  let s' := sent (ReqSet path value version) s in
  match nodes s !! path with
  | None => (Raise NoNodeError, s')
  | Some n =>
      if version_matches version (node_version n)
      then (Ok tt, with_nodes (<[path := mkZnode value (node_version n + 1)]> (nodes s)) s')
      else (Raise BadVersionError, s')
  end.

(** [zk.create(path, value)]: no [makepath], so the parent must exist. *)
Definition zk_create (path value : string) : M unit := λ s,
  let s' := sent (ReqCreate path value) s in
  if bool_decide (dirname path ≠ "" ∧ nodes s !! dirname path = None)
  then (Raise NoNodeError, s')
  else match nodes s !! path with
       | Some _ => (Raise NodeExistsError, s')
       | None => (Ok tt, with_nodes (<[path := mkZnode value 0]> (nodes s)) s')
       end.

(** [zk.delete(path, version=-1)], not recursive. *)
Definition zk_delete (path : string) (version : Z) : M unit := λ s,
  let s' := sent (ReqDelete path version) s in
  match nodes s !! path with
  | None => (Raise NoNodeError, s')
  | Some n =>
      if negb (version_matches version (node_version n))
      then (Raise BadVersionError, s')
      else if has_children (nodes s) path
      then (Raise NotEmptyError, s')
      else (Ok tt, with_nodes (delete path (nodes s)) s')
  end.

(** The recursion of [ensure_path]: a path that exists is left alone,
    otherwise its parent is ensured and the path is created empty. *)
Fixpoint ensure_chain (chain : list string) (ns : gmap string znode) : gmap string znode :=
  match chain with
  | [] => ns
  | p :: rest =>
      match ns !! p with
      | Some _ => ns
      | None => <[p := mkZnode "" 0]> (ensure_chain rest ns)
      end
  end.

(** [zk.ensure_path(path)] *)
Definition zk_ensure_path (path : string) : M unit := λ s,
  (Ok tt, with_nodes (ensure_chain (path_chain path) (nodes s)) (sent (ReqEnsurePath path) s)).

(** [zk.delete(path, recursive=True)]: the node goes with everything below
    it.  The client walks the children of the node first and takes a node
    that is missing as done, so a missing [path] is not an error. *)
Definition zk_delete_recursive (path : string) : M unit := λ s,
  let s' := sent (ReqDelete path (-1)) s in
  match nodes s !! path with
  | None => (Ok tt, s')
  | Some _ =>
      (Ok tt, with_nodes (filter (λ kv, kv.1 ≠ path ∧ below path kv.1 = false) (nodes s)) s')
  end.

(** Modelled from the spec: [zkutil.walk(zk, path)], which is not part of
    the sources at hand.  The spec gives it as the sequence of all paths of
    the subtree rooted at [path]; the subtree includes [path] itself, as
    "walking the conf subtree rooted at env" has it.  The order of the
    sequence is left open; here it is the order of the store's keys. *)
Definition zkutil_walk (path : string) : M (list string) := λ s,
  (Ok (filter (λ k, k = path ∨ below path k = true) (elements (dom (nodes s)))), s).

(* ===================================================================== *)
(** ** class ZNodeMap *)
(* ===================================================================== *)

Definition newline : string := String "010"%char EmptyString.

Module ZNodeMap.
Section with_lib.
Context `{lib : PyLib}.

Record t := mk { path : string }.

Definition OLD_SEPARATOR : string := " -> ".

(** [ZNodeMap.__init__] *)
Definition init (p : string) : M t :=
  let! _ := zk_ensure_path p in ret (mk p).

(** [dict(pairs)] for a sequence of lists of strings: every element must
    have exactly two items. *)
Fixpoint dict_of_pairs (pairs : list (list string)) (acc : pydict) : result pydict :=
  match pairs with
  | [] => Ok acc
  | [k; v] :: rest => dict_of_pairs rest (<[KStr k := PyStr v]> acc)
  | _ :: _ => Raise ValueError
  end.

(** The local [_deserialize] of [_get_old]. *)
Definition _deserialize (d : string) : result pydict :=
  if bool_decide (String.length d = 0%nat) then Ok ∅
  else dict_of_pairs (map (Str.split OLD_SEPARATOR) (Str.split newline d)) ∅.

Definition _get_old (self : t) : M (pyval * Z) :=
  let! (data, version) := zk_get (path self) in
  let! d := lift (_deserialize data) in
  ret (PyDict d, version).

Definition _get (self : t) : M (pyval * Z) :=
  let! (data, version) := zk_get (path self) in
  if bool_decide (String.length data = 0%nat) then ret (PyDict ∅, version)
  else if Str.contains OLD_SEPARATOR data then _get_old self
  else let! v := lift (json_loads data) in ret (v, version).

Definition _set (self : t) (data : pyval) (version : Z) : M unit :=
  zk_set (path self) (json_dumps data) version.

(** [zmap[name] = dest] *)
Definition setitem (zmap : pyval) (name dest : string) : result pyval :=
  match zmap with
  | PyDict d => Ok (PyDict (<[KStr name := PyStr dest]> d))
  | _ => Raise TypeError
  end.

(** [del zmap[name]] *)
Definition delitem (zmap : pyval) (name : string) : result pyval :=
  match zmap with
  | PyDict d =>
      match d !! KStr name with
      | Some _ => Ok (PyDict (delete (KStr name) d))
      | None => Raise KeyError
      end
  | _ => Raise TypeError
  end.

(** [zmap[name]] *)
Definition getitem (zmap : pyval) (name : string) : result pyval :=
  match zmap with
  | PyDict d =>
      match d !! KStr name with
      | Some v => Ok v
      | None => Raise KeyError
      end
  | _ => Raise TypeError
  end.

Definition set (self : t) (name dest : string) : M unit :=
  let! (zmap, version) := _get self in
  let! zmap' := lift (setitem zmap name dest) in
  _set self zmap' version.

Definition get_all (self : t) : M pyval :=
  let! (zmap, _) := _get self in ret zmap.

Definition get (self : t) (name : string) : M pyval :=
  let! zmap := get_all self in lift (getitem zmap name).

Definition delete (self : t) (name : string) : M unit :=
  let! (zmap, version) := _get self in
  let! zmap' := lift (delitem zmap name) in
  _set self zmap' version.

End with_lib.
End ZNodeMap.

(* ===================================================================== *)
(** ** class Jones *)
(* ===================================================================== *)

Record Jones := mkJones { service : string }.

Section jones.
Context `{lib : PyLib}.
Variable self : Jones.

Definition root : string := "/services/" +:+ service self.
Definition conf_path : string := root +:+ "/conf".
Definition view_path : string := root +:+ "/views".
Definition associations : ZNodeMap.t := ZNodeMap.mk (root +:+ "/nodemaps").

Definition _get_path_by_env (prefix : string) (env : Env) : string :=
  if is_root env then prefix else Str.join "/" [prefix; env_str env].

Definition _get_env_path : Env → string := _get_path_by_env conf_path.
Definition _get_view_path : Env → string := _get_path_by_env view_path.

Definition _get (path : string) : M (Z * pyval) :=
  let! (data, version) := zk_get path in
  let! v := lift (json_loads data) in
  ret (version, v).

(** [_set(path, data, *args)]: without a further argument the client's
    default [version=-1] applies. *)
Definition _set (path : string) (data : pyval) (args : option Z) : M unit :=
  zk_set path (json_dumps data) (default (-1) args).

Definition _create (path : string) (data : pyval) : M unit :=
  zk_create path (json_dumps data).

(** [nodes[:n] for n in xrange(len(nodes) + 1)] *)
Definition prefixes (nodes : list string) : list (list string) :=
  map (λ n, take n nodes) (seq 0 (List.length nodes + 1)).

(** [[Env('/'.join(p)) for p in path]] *)
Fixpoint envs_of (path : list (list string)) : result (list Env) :=
  match path with
  | [] => Ok []
  | p :: rest =>
      match Env_new (Some (Str.join "/" p)) with
      | Raise e => Raise e
      | Ok env =>
          match envs_of rest with
          | Raise e => Raise e
          | Ok envs => Ok (env :: envs)
          end
      end
  end.

(** The loop of [_flatten_from_root]. *)
Fixpoint flatten_loop (path : list string) (data : pydict) : M pydict :=
  match path with
  | [] => ret data
  | n :: rest =>
      let! (_, config) := _get n in
      let! data' := lift (dict_update data config) in
      flatten_loop rest data'
  end.

Definition _flatten_from_root (env : Env) : M pydict :=
  let nodes := components env in
  let path := prefixes nodes in
  let! envs := lift (envs_of path) in
  let path := map _get_env_path envs in
  flatten_loop path ∅.

Definition _update_view (env : Env) : M unit :=
  let dest := _get_view_path env in
  let! present := zk_exists dest in
  let! _ := (if present then ret tt else zk_ensure_path dest) in
  let! data := _flatten_from_root env in
  _set dest (PyDict data) None.

Definition create_config (env : Env) (conf : pyval) : M unit :=
  if negb (is_mapping conf) then raise ValueError
  else
    let! _ := zk_ensure_path view_path in
    let! _ := _create (_get_env_path env) conf in
    _update_view env.

Definition set_config (env : Env) (conf : pyval) (version : Z) : M unit :=
  if negb (is_mapping conf) then raise ValueError
  else
    let! _ := _set (_get_env_path env) conf (Some version) in
    let path := _get_env_path env in
    let! children := zkutil_walk path in
    for_each children (λ child,
      let! env' := lift (Env_new (Some (Str.drop (String.length conf_path + 1) child))) in
      _update_view env').

Definition delete_config (env : Env) (version : Z) : M unit :=
  let! _ := zk_delete (_get_env_path env) version in
  zk_delete (_get_view_path env) (-1).

Definition get_config_by_env (env : Env) : M (Z * pyval) :=
  _get (_get_env_path env).

Definition get_view_by_env (env : Env) : M pyval :=
  let! (_, data) := _get (_get_view_path env) in ret data.

Definition get_config (hostname : string) : M pyval :=
  let! dest := ZNodeMap.get associations hostname in
  match dest with
  | PyStr p => let! (_, config) := _get p in ret config
  | _ => raise TypeError
  end.

Definition assoc_host (hostname : string) (env : Env) : M unit :=
  let dest := _get_view_path env in
  ZNodeMap.set associations hostname dest.

(** [associations[assoc]] when [associations] is a list. *)
Definition list_item (l : list pyval) (assoc : pyval) : result pyval :=
  let at_index (i : Z) :=
    let n := Z.of_nat (List.length l) in
    let i' := if i <? 0 then n + i else i in
    if (0 <=? i') && (i' <? n)
    then match l !! Z.to_nat i' with Some v => Ok v | None => Raise IndexError end
    else Raise IndexError in
  match assoc with
  | PyInt i => at_index i
  | PyBool b => at_index (Z.b2z b)
  | _ => Raise TypeError
  end.

(** [[assoc for assoc in items if associations[assoc] == dest]] *)
Fixpoint select (items : list pyval) (item : pyval → result pyval) (dest : string)
  : result (list pyval) :=
  match items with
  | [] => Ok []
  | assoc :: rest =>
      match item assoc with
      | Raise e => Raise e
      | Ok v =>
          match select rest item dest with
          | Raise e => Raise e
          | Ok r => Ok (if py_eq_str v dest then assoc :: r else r)
          end
      end
  end.

Definition hosts_of (associations : pyval) (dest : string) : result (list pyval) :=
  match associations with
  | PyDict d =>
      Ok (map (λ kv, pyval_of_key kv.1)
            (filter (λ kv, py_eq_str kv.2 dest = true) (map_to_list d)))
  | PyList l => select l (list_item l) dest
  | PyStr EmptyString => Ok []
  | _ => Raise TypeError
  end.

Definition get_associations (env : Env) : M (option (list pyval)) :=
  if is_root env then ret None
  else
    let! associations := ZNodeMap.get_all associations in
    let! hosts := lift (hosts_of associations (_get_view_path env)) in
    ret (Some hosts).

Definition delete_association (hostname : string) : M unit :=
  ZNodeMap.delete associations hostname.

Definition exists_ : M bool := zk_exists (_get_env_path Env_Root).

Definition delete_all : M unit := zk_delete_recursive root.

Definition get_child_envs (env : Env) : M (list string) :=
  let prefix := _get_env_path env in
  let! envs := zkutil_walk prefix in
  ret (map (λ e, Str.drop (String.length prefix + 1) e) envs).

End jones.

(** [Jones.__init__] *)
Definition Jones_init `{PyLib} (service : string) : M Jones :=
  let self := mkJones service in
  let! _ := ZNodeMap.init (root self +:+ "/nodemaps") in
  ret self.

(* ===================================================================== *)
(** ** A concrete library instance for the examples *)
(* ===================================================================== *)

(** The theorems below hold for every [PyLib].  To run the model on concrete
    stores we fix one: a JSON printer with the layout of [json.dumps]
    (separators [", "] and [": "], integer keys printed as strings) and a
    recursive-descent JSON reader, both for payloads over strings without
    control characters, integers, booleans, [null], arrays and objects. *)
Module RefJson.

Definition quote : ascii := "034"%char.
Definition backslash : ascii := "\"%char.

Fixpoint escape (s : string) : string :=
  match s with
  | EmptyString => EmptyString
  | String c s' =>
      if Ascii.eqb c quote then String backslash (String quote (escape s'))
      else if Ascii.eqb c backslash then String backslash (String backslash (escape s'))
      else if Ascii.eqb c "010" then String backslash (String "n" (escape s'))
      else String c (escape s')
  end.

Definition quoted (s : string) : string :=
  String quote (escape s +:+ String quote EmptyString).

Definition key_text (k : pykey) : string :=
  match k with KStr s => s | KInt n => pretty n end.

Fixpoint dumps (v : pyval) : string :=
  match v with
  | PyNone => "null"
  | PyBool true => "true"
  | PyBool false => "false"
  | PyInt n => pretty n
  | PyStr s => quoted s
  | PyList l => "[" +:+ Str.join ", " (map dumps l) +:+ "]"
  | PyDict d =>
      "{" +:+ Str.join ", "
                (map_fold (λ k x acc, (quoted (key_text k) +:+ ": " +:+ dumps x) :: acc) [] d)
          +:+ "}"
  end.

Definition is_ws (c : ascii) : bool :=
  Ascii.eqb c " " || Ascii.eqb c "009" || Ascii.eqb c "010" || Ascii.eqb c "013".

Fixpoint skip_ws (s : string) : string :=
  match s with
  | String c s' => if is_ws c then skip_ws s' else s
  | EmptyString => s
  end.

(** The characters of a string literal after its opening quote. *)
Fixpoint str_body (s : string) : option (string * string) :=
  match s with
  | EmptyString => None
  | String c s' =>
      if Ascii.eqb c quote then Some (EmptyString, s')
      else if Ascii.eqb c backslash then
        match s' with
        | String e s'' =>
            let lit (x : ascii) :=
              match str_body s'' with
              | Some (r, rest) => Some (String x r, rest)
              | None => None
              end in
            if Ascii.eqb e "n" then lit "010"%char
            else if Ascii.eqb e "t" then lit "009"%char
            else if Ascii.eqb e quote || Ascii.eqb e backslash || Ascii.eqb e "/" then lit e
            else None
        | EmptyString => None
        end
      else match str_body s' with
           | Some (r, rest) => Some (String c r, rest)
           | None => None
           end
  end.

Fixpoint digits (s : string) (acc : Z) : Z * string :=
  match s with
  | String c s' =>
      match Ascii.is_nat c with
      | Some d => digits s' (10 * acc + Z.of_nat d)
      | None => (acc, s)
      end
  | EmptyString => (acc, s)
  end.

Definition number (s : string) : option (pyval * string) :=
  match s with
  | String "-" (String c _ as s') =>
      match Ascii.is_nat c with
      | Some _ => let '(n, rest) := digits s' 0 in Some (PyInt (- n), rest)
      | None => None
      end
  | String c _ =>
      match Ascii.is_nat c with
      | Some _ => let '(n, rest) := digits s 0 in Some (PyInt n, rest)
      | None => None
      end
  | EmptyString => None
  end.

Definition keyword (s : string) : option (pyval * string) :=
  if String.prefix "true" s then Some (PyBool true, Str.drop 4 s)
  else if String.prefix "false" s then Some (PyBool false, Str.drop 5 s)
  else if String.prefix "null" s then Some (PyNone, Str.drop 4 s)
  else number s.

Fixpoint value (fuel : nat) (s : string) : option (pyval * string) :=
  match fuel with
  | O => None
  | S f =>
      match skip_ws s with
      | String "{" r =>
          match skip_ws r with
          | String "}" r' => Some (PyDict ∅, r')
          | r' => members f r' ∅
          end
      | String "[" r =>
          match skip_ws r with
          | String "]" r' => Some (PyList [], r')
          | r' => items f r' []
          end
      | String "034" r =>
          match str_body r with
          | Some (x, r') => Some (PyStr x, r')
          | None => None
          end
      | s' => keyword s'
      end
  end
with members (fuel : nat) (s : string) (acc : pydict) : option (pyval * string) :=
  match fuel with
  | O => None
  | S f =>
      match skip_ws s with
      | String "034" r =>
          match str_body r with
          | Some (k, r1) =>
              match skip_ws r1 with
              | String ":" r2 =>
                  match value f r2 with
                  | Some (v, r3) =>
                      match skip_ws r3 with
                      | String "," r4 => members f r4 (<[KStr k := v]> acc)
                      | String "}" r4 => Some (PyDict (<[KStr k := v]> acc), r4)
                      | _ => None
                      end
                  | None => None
                  end
              | _ => None
              end
          | None => None
          end
      | _ => None
      end
  end
with items (fuel : nat) (s : string) (acc : list pyval) : option (pyval * string) :=
  match fuel with
  | O => None
  | S f =>
      match value f s with
      | Some (v, r) =>
          match skip_ws r with
          | String "," r' => items f r' (acc ++ [v])
          | String "]" r' => Some (PyList (acc ++ [v]), r')
          | _ => None
          end
      | None => None
      end
  end.

Definition loads (s : string) : result pyval :=
  match value (2 * String.length s + 2) s with
  | Some (v, rest) =>
      match skip_ws rest with
      | EmptyString => Ok v
      | _ => Raise ValueError
      end
  | None => Raise ValueError
  end.

(** [d.update(x)] for [x] a sequence of two-item lists with string or
    integer keys; an empty sequence or string changes nothing. *)
Fixpoint update_pairs (d : pydict) (l : list pyval) : result pydict :=
  match l with
  | [] => Ok d
  | PyList [PyStr k; v] :: rest => update_pairs (<[KStr k := v]> d) rest
  | PyList [PyInt k; v] :: rest => update_pairs (<[KInt k := v]> d) rest
  | PyList [_; _] :: _ => Raise TypeError
  | PyList _ :: _ => Raise ValueError
  | PyStr _ :: _ => Raise ValueError
  | PyDict _ :: _ => Raise ValueError
  | _ :: _ => Raise TypeError
  end.

Definition update_seq (d : pydict) (x : pyval) : result pydict :=
  match x with
  | PyList l => update_pairs d l
  | PyStr EmptyString => Ok d
  | PyStr _ => Raise ValueError
  | _ => Raise TypeError
  end.

Definition lib : PyLib :=
  {| json_dumps := dumps; json_loads := loads; dict_update_seq := update_seq |}.

End RefJson.

(** Payloads in the examples are written with ['] for the double quote. *)
Fixpoint js (s : string) : string :=
  match s with
  | EmptyString => EmptyString
  | String c s' => String (if Ascii.eqb c "'" then RefJson.quote else c) (js s')
  end.

(* ===================================================================== *)
(** ** Notions of the specification *)
(* ===================================================================== *)

Section notions.
Context `{lib : PyLib}.
Variable self : Jones.

(** The ancestor chain [c0 = root, c1, ..., cn = E] of an environment:
    the root, then the environments named by the first [1..n] components
    of [E]. *)
Definition ancestor_chain (e : Env) : list Env :=
  if is_root e then [Env_Root]
  else
    let cs := Str.split "/" (env_str e) in
    Env_Root :: map (λ n, mkEnv (Str.join "/" (take n cs)) false) (seq 1 (List.length cs)).

(** [merge(c0, ..., cn)]: the mappings laid over one another in order,
    a later one overriding the keys it shares with the earlier ones. *)
Definition overlay (cfgs : list pydict) : pydict :=
  foldl (λ acc c, c ∪ acc) ∅ cfgs.

(** The value of [k] in the deepest mapping of a chain that has [k]. *)
Fixpoint deepest (k : pykey) (cfgs : list pydict) : option pyval :=
  match cfgs with
  | [] => None
  | c :: rest =>
      match deepest k rest with
      | Some v => Some v
      | None => c !! k
      end
  end.

(** The ConfigNode of [e] exists in [s] and holds the mapping [cfg]. *)
Definition config_at (s : zk) (e : Env) (cfg : pydict) : Prop :=
  ∃ n, nodes s !! _get_env_path self e = Some n ∧
       json_loads (node_data n) = Ok (PyDict cfg).

(** [d] is [e] itself or lies below it in the conf subtree. *)
Definition in_subtree (e d : Env) : Prop :=
  _get_env_path self d = _get_env_path self e ∨
  below (_get_env_path self e) (_get_env_path self d) = true.

(** The view node of [d] holds the flattening of [d]'s chain as the store
    now has it: the view is up to date. *)
Definition view_current (s : zk) (d : Env) : Prop :=
  ∃ merged v,
    _flatten_from_root self d s = (Ok merged, s) ∧
    nodes s !! _get_view_path self d = Some (mkZnode (json_dumps (PyDict merged)) v).

(** The requests a view update may send for the view node at [dest]:
    ensuring its path, and a write that names no version. *)
Definition view_request (dest : string) (r : request) : Prop :=
  r = ReqEnsurePath dest ∨ ∃ value, r = ReqSet dest value (-1).

End notions.

(** The legacy plain-text pattern: newline-separated lines, each one a name,
    the separator and a destination. *)
Definition legacy_pattern (payload : string) : bool :=
  negb (bool_decide (payload = EmptyString)) &&
  forallb (λ l, bool_decide (List.length (Str.split ZNodeMap.OLD_SEPARATOR l) = 2%nat))
          (Str.split newline payload).

(** The wording of the statement on components: every component of a
    constructed environment is a non-empty string without a separator. *)
Definition components_nonempty_without_separator : Prop :=
  ∀ name e, Env_new name = Ok e →
    Forall (λ c, c ≠ EmptyString ∧ Str.contains "/" c = false) (components e).

(** The scenario of the specification: a service with the environments
    root, [prod] and [prod/us], built by the methods themselves. *)
Module Scenario.

#[local] Existing Instance RefJson.lib.

Definition svc : Jones := mkJones "svc".

Definition env (name : string) : Env :=
  match Env_new (Some name) with Ok e => e | Raise _ => Env_Root end.

Definition fresh : zk := mkZk ∅ [].

Definition run {A} (m : M A) (s : zk) : zk := (m s).2.

Definition after_init : zk := Eval vm_compute in run (Jones_init "svc") fresh.

Definition cfg_root : pydict := {[KStr "timeout" := PyInt 30]}.
Definition cfg_prod : pydict := <[KStr "timeout" := PyInt 10]> {[KStr "region" := PyStr "na"]}.
Definition cfg_prod_us : pydict := {[KStr "region" := PyStr "us-east"]}.

Definition configured : zk :=
  Eval vm_compute in
  run (let! _ := create_config svc Env_Root (PyDict cfg_root) in
       let! _ := create_config svc (env "prod") (PyDict cfg_prod) in
       create_config svc (env "prod/us") (PyDict cfg_prod_us))
      after_init.

(** [set_config] of [prod] on the scenario. *)
Definition cfg_prod_eu : pydict := {[KStr "region" := PyStr "eu"]}.

Definition reconfigured : zk :=
  Eval vm_compute in run (set_config svc (env "prod") (PyDict cfg_prod_eu) 0) configured.

(** [create_config] of [prod] before the root is configured. *)
Definition orphaned : zk :=
  Eval vm_compute in run (create_config svc (env "prod") (PyDict cfg_prod)) after_init.

(** A host whose name contains the legacy separator twice is associated
    with [prod]. *)
Definition arrows_host : string := "web -> 1 -> a".

Definition associated_arrows : zk :=
  Eval vm_compute in run (assoc_host svc arrows_host (env "prod")) configured.

(** The association map as another tool would leave it: the structured
    form, one entry per line. *)
Definition indented_payload : string :=
  "{" +:+ newline +:+ js "  'web -> 1': '/services/svc/views/prod'" +:+ newline +:+ "}".

Definition indented : zk :=
  Eval vm_compute in
  mkZk (<["/services/svc/nodemaps" := mkZnode indented_payload 3]> (nodes configured)) [].

(** A legacy association map. *)
Definition legacy_payload : string := "a -> b" +:+ newline +:+ "c -> d".

Definition legacy : zk :=
  Eval vm_compute in
  mkZk (<["/services/svc/nodemaps" := mkZnode legacy_payload 7]> (nodes configured)) [].

(** The root is associated with a host. *)
Definition associated_root : zk :=
  Eval vm_compute in run (assoc_host svc "h1" Env_Root) configured.

(** A mapping with an integer key. *)
Definition cfg_int_key : pydict := {[KInt 1 := PyInt 2]}.

Definition created_int_key : zk :=
  Eval vm_compute in run (create_config svc Env_Root (PyDict cfg_int_key)) after_init.

(** [delete_config] of [prod/us] at its version. *)
Definition deleted : zk :=
  Eval vm_compute in run (delete_config svc (env "prod/us") 0) configured.

(** The host [h1] is associated with [prod]. *)
Definition associated : zk :=
  Eval vm_compute in run (assoc_host svc "h1" (env "prod")) configured.

(** The root ConfigNode as another tool would leave it: a payload that is
    not structured data. *)
Definition unreadable_root : zk :=
  Eval vm_compute in
  mkZk (<["/services/svc/conf" := mkZnode "oops" 5]> (nodes configured)) [].

(** The view node of [prod/us] has been removed by hand. *)
Definition viewless : zk :=
  Eval vm_compute in
  mkZk (delete "/services/svc/views/prod/us" (nodes configured)) [].

(** The view nodes of [prod] and [prod/us] are missing. *)
Definition unviewed : zk :=
  Eval vm_compute in
  mkZk (delete "/services/svc/views/prod"
          (delete "/services/svc/views/prod/us" (nodes configured))) [].

(** [set_config] of [prod/us] on that store. *)
Definition cfg_prod_us_west : pydict := {[KStr "region" := PyStr "us-west"]}.

Definition reviewed : zk :=
  Eval vm_compute in run (set_config svc (env "prod/us") (PyDict cfg_prod_us_west) 0) unviewed.

(** The service has been removed with [delete_all]. *)
Definition wiped : zk :=
  Eval vm_compute in run (delete_all svc) configured.

(** One more view update of [prod] on the scenario. *)
Definition refreshed : zk :=
  Eval vm_compute in run (_update_view svc (env "prod")) configured.

End Scenario.

(** The wording of the statement on view writes: the write that a view
    update sends names, as expected version, the version the view node has
    in the store. *)
Definition view_writes_compare_and_set `{lib : PyLib} : Prop :=
  ∀ self e s s' n,
    _update_view self e s = (Ok tt, s') →
    nodes s !! _get_view_path self e = Some n →
    ∃ value, ReqSet (_get_view_path self e) value (node_version n) ∈ requests s'.

(** A mapping all of whose keys are strings. *)
Definition is_string_keyed_mapping (v : pyval) : bool :=
  match v with
  | PyDict d =>
      forallb (λ kv : pykey * pyval, match kv.1 with KStr _ => true | KInt _ => false end)
              (map_to_list d)
  | _ => false
  end.

(** The wording of the statement on the frame of [set_config]: the
    ConfigNode and the view node of every environment outside the subtree
    of the environment that was set are after the call what they were
    before it. *)
Definition set_config_leaves_outside_unchanged `{lib : PyLib} : Prop :=
  ∀ self nameE E conf version s s' nameF F,
    Env_new nameE = Ok E → Env_new nameF = Ok F →
    set_config self E conf version s = (Ok tt, s') →
    ¬ in_subtree self E F →
    nodes s' !! _get_env_path self F = nodes s !! _get_env_path self F ∧
    nodes s' !! _get_view_path self F = nodes s !! _get_view_path self F.

(** The wording of the statement on validation: a payload that is not a
    string-keyed mapping is refused by both methods, with the store as it
    was. *)
Definition non_string_keyed_conf_refused `{lib : PyLib} : Prop :=
  ∀ self env conf version s,
    is_string_keyed_mapping conf = false →
    create_config self env conf s = (Raise ValueError, s) ∧
    set_config self env conf version s = (Raise ValueError, s).

(** The wording of the statement on [create_config]: the paths the
    ConfigNode needs are made before it is written, so that the node is
    there after the call whenever the payload is a mapping and the node did
    not exist yet. *)
Definition create_config_makes_parents `{lib : PyLib} : Prop :=
  ∀ self name e conf s,
    Env_new name = Ok e → is_mapping conf = true →
    nodes s !! _get_env_path self e = None →
    (create_config self e conf s).1 ≠ Raise NoNodeError ∧
    is_Some (nodes (create_config self e conf s).2 !! _get_env_path self e).

Definition result_map {A B} (f : A → B) (r : result A) : result B :=
  match r with Ok a => Ok (f a) | Raise e => Raise e end.

(** What [ZNodeMap._get] makes of a payload: the decoding policy of the
    source as a function of the payload alone. *)
Definition read_policy `{lib : PyLib} (data : string) : result pyval :=
  if bool_decide (String.length data = 0%nat) then Ok (PyDict ∅)
  else if Str.contains ZNodeMap.OLD_SEPARATOR data
       then result_map PyDict (ZNodeMap._deserialize data)
       else json_loads data.

(** The decoding policy in the words of the specification: the empty
    payload is the empty map, a payload that matches the legacy pattern goes
    to the legacy parser, any other payload is structured data. *)
Definition read_policy_as_worded `{lib : PyLib} (data : string) : result pyval :=
  if bool_decide (data = EmptyString) then Ok (PyDict ∅)
  else if legacy_pattern data
       then result_map PyDict (ZNodeMap._deserialize data)
       else json_loads data.

(** The wording of the statement on reads of the association map. *)
Definition reads_follow_legacy_pattern `{lib : PyLib} : Prop :=
  ∀ self s n,
    nodes s !! ZNodeMap.path self = Some n →
    (ZNodeMap._get self s).1
    = result_map (λ v, (v, node_version n)) (read_policy_as_worded (node_data n)).

(** The structured form of [v] reads back as [v]: it is not empty, the
    legacy separator does not occur in it, and the [json] module decodes it
    to [v]. *)
Definition reads_back `{lib : PyLib} (v : pyval) : Prop :=
  json_dumps v ≠ EmptyString ∧
  Str.contains ZNodeMap.OLD_SEPARATOR (json_dumps v) = false ∧
  json_loads (json_dumps v) = Ok v.

(* ===================================================================== *)
(** ** The model on concrete inputs *)
(* ===================================================================== *)

Example split_path : Str.split "/" "dev/mwhooker" = ["dev"; "mwhooker"].
Proof. reflexivity. Qed.

Example split_old_separator : Str.split " -> " "a -> b" = ["a"; "b"].
Proof. reflexivity. Qed.

Example split_no_separator : Str.split " -> " "abc" = ["abc"].
Proof. reflexivity. Qed.

Example split_trailing : Str.split "/" "a/" = ["a"; ""].
Proof. reflexivity. Qed.

Example join_path : Str.join "/" ["/services/s/conf"; "dev"] = "/services/s/conf/dev".
Proof. reflexivity. Qed.

Example Env_Root_new : Env_new None = Ok Env_Root.
Proof. reflexivity. Qed.

Example dumps_view :
  RefJson.dumps (PyDict (<[KStr "timeout" := PyInt 10]> (<[KStr "region" := PyStr "us-east"]> ∅)))
  = js "{'region': 'us-east', 'timeout': 10}".
Proof. vm_compute. reflexivity. Qed.

Example loads_view :
  RefJson.loads (js "{'timeout': 10, 'region': 'us-east'}")
  = Ok (PyDict (<[KStr "timeout" := PyInt 10]> (<[KStr "region" := PyStr "us-east"]> ∅))).
Proof. vm_compute. reflexivity. Qed.

Example dumps_int_key :
  RefJson.dumps (PyDict {[KInt 1 := PyInt 2]}) = js "{'1': 2}".
Proof. vm_compute. reflexivity. Qed.

Example loads_nested :
  RefJson.loads (js "{'a': [1, -2, true, null], 'b': {'c': 'x\ny'}}")
  = Ok (PyDict (<[KStr "a" := PyList [PyInt 1; PyInt (-2); PyBool true; PyNone]]>
                 (<[KStr "b" := PyDict {[KStr "c" := PyStr ("x" +:+ newline +:+ "y")]}]> ∅))).
Proof. vm_compute. reflexivity. Qed.

Example loads_malformed : RefJson.loads "a -> b" = Raise ValueError.
Proof. vm_compute. reflexivity. Qed.

Example loads_empty : RefJson.loads "" = Raise ValueError.
Proof. vm_compute. reflexivity. Qed.

(** The end-to-end scenario of the specification: with
    [config(root) = {timeout: 30}], [config(prod) = {timeout: 10, region: na}]
    and [config(prod/us) = {region: us-east}] the views are as expected. *)
Example scenario_view_prod_us :
  result_map RefJson.dumps
    (get_view_by_env (lib := RefJson.lib) Scenario.svc (Scenario.env "prod/us")
                     Scenario.configured).1
  = Ok (js "{'region': 'us-east', 'timeout': 10}").
Proof. vm_compute. reflexivity. Qed.

Example scenario_view_prod :
  result_map RefJson.dumps
    (get_view_by_env (lib := RefJson.lib) Scenario.svc (Scenario.env "prod")
                     Scenario.configured).1
  = Ok (js "{'region': 'na', 'timeout': 10}").
Proof. vm_compute. reflexivity. Qed.

Example scenario_requests :
  requests Scenario.after_init = [ReqEnsurePath "/services/svc/nodemaps"].
Proof. reflexivity. Qed.

(* ===================================================================== *)
(** ** Facts about splitting and joining *)
(* ===================================================================== *)

Section strings.

Lemma prefix_char a c s :
  String.prefix (String a EmptyString) (String c s) = Ascii.eqb c a.
Proof.
  change (String.prefix (String a EmptyString) (String c s))
    with (if ascii_dec a c then String.prefix EmptyString s else false).
  destruct (ascii_dec a c) as [<-|Hne].
  - rewrite Ascii.eqb_refl. by destruct s.
  - symmetry. apply Ascii.eqb_neq. congruence.
Qed.

Lemma contains_char_cons a c s :
  Str.contains (String a EmptyString) (String c s)
  = Ascii.eqb c a || Str.contains (String a EmptyString) s.
Proof. cbn [Str.contains]. by rewrite prefix_char. Qed.

(** Splitting on a one-character separator, one character at a time. *)
Lemma split_char_cons a c s :
  Str.split (String a EmptyString) (String c s) =
    if Ascii.eqb c a then EmptyString :: Str.split (String a EmptyString) s
    else match Str.split (String a EmptyString) s with
         | h :: t => String c h :: t
         | [] => [String c EmptyString]
         end.
Proof.
  unfold Str.split. cbn [Str.split_go]. rewrite prefix_char.
  by destruct (Ascii.eqb c a).
Qed.

Lemma split_char_nonempty a s : Str.split (String a EmptyString) s ≠ [].
Proof.
  destruct s as [|c s]; [done|].
  rewrite split_char_cons.
  destruct (Ascii.eqb c a); [done|]. by destruct (Str.split _ s).
Qed.

(** No piece of a split on a one-character separator contains it. *)
Lemma split_char_no_separator a s :
  Forall (λ c, Str.contains (String a EmptyString) c = false)
         (Str.split (String a EmptyString) s).
Proof.
  induction s as [|c s IH]; [by repeat constructor|].
  rewrite split_char_cons.
  destruct (Ascii.eqb c a) eqn:Hc.
  - by constructor.
  - destruct (Str.split _ s) as [|h t];
      [by repeat (constructor; rewrite ?contains_char_cons, ?Hc)|].
    inversion IH; subst. constructor; [|done].
    by rewrite contains_char_cons, Hc.
Qed.

Lemma join_cons_char sep c h t :
  Str.join sep (String c h :: t) = String c (Str.join sep (h :: t)).
Proof. by destruct t. Qed.

(** Joining the pieces of a split gives the string back. *)
Lemma join_split_char a s :
  Str.join (String a EmptyString) (Str.split (String a EmptyString) s) = s.
Proof.
  induction s as [|c s IH]; [done|].
  rewrite split_char_cons.
  pose proof (split_char_nonempty a s).
  destruct (Ascii.eqb c a) eqn:Hc.
  - apply Ascii.eqb_eq in Hc as ->.
    destruct (Str.split _ s) as [|h t]; [done|].
    change (Str.join (String a EmptyString) (EmptyString :: h :: t))
      with (String a (Str.join (String a EmptyString) (h :: t))).
    by rewrite IH.
  - destruct (Str.split _ s) as [|h t]; [done|].
    by rewrite join_cons_char, IH.
Qed.

Lemma contains_slash_cons c s :
  Str.contains "/" (String c s) = Ascii.eqb c "/" || Str.contains "/" s.
Proof. apply (contains_char_cons "/"). Qed.

Lemma split_slash_cons c s :
  Str.split "/" (String c s) =
    if Ascii.eqb c "/" then EmptyString :: Str.split "/" s
    else match Str.split "/" s with
         | h :: t => String c h :: t
         | [] => [String c EmptyString]
         end.
Proof. apply (split_char_cons "/"). Qed.

Lemma split_slash_nonempty s : Str.split "/" s ≠ [].
Proof. apply (split_char_nonempty "/"). Qed.

Lemma split_slash_no_separator s :
  Forall (λ c, Str.contains "/" c = false) (Str.split "/" s).
Proof. apply (split_char_no_separator "/"). Qed.

Lemma join_split_slash s : Str.join "/" (Str.split "/" s) = s.
Proof. apply (join_split_char "/"). Qed.

Lemma app_String c s t : String c s +:+ t = String c (s +:+ t).
Proof. done. Qed.

Lemma app_empty_r' s : s +:+ EmptyString = s.
Proof. induction s as [|c s IH]; [done|]. by rewrite app_String, IH. Qed.

Lemma app_inv_head s t1 t2 : s +:+ t1 = s +:+ t2 → t1 = t2.
Proof.
  induction s as [|c s IH]; [done|].
  rewrite !app_String. intros [=]. auto.
Qed.

Lemma app_assoc' s t u : (s +:+ t) +:+ u = s +:+ t +:+ u.
Proof. induction s as [|c s IH]; [done|]. by rewrite !app_String, IH. Qed.

Lemma app_length' s t :
  String.length (s +:+ t) = (String.length s + String.length t)%nat.
Proof. induction s as [|c s IH]; [done|]. rewrite app_String. simpl. by rewrite IH. Qed.

Lemma drop_app s t : Str.drop (String.length s) (s +:+ t) = t.
Proof. induction s as [|c s IH]; [by destruct t|]. by rewrite app_String. Qed.

Lemma join_pair p e : Str.join "/" [p; e] = p +:+ "/" +:+ e.
Proof. done. Qed.

End strings.

(* ===================================================================== *)
(** ** Env *)
(* ===================================================================== *)

Section env.

Lemma Env_new_inv name e :
  Env_new name = Ok e →
  (e = Env_Root ∧ (name = None ∨ name = Some EmptyString)) ∨
  (∃ c s, name = Some (String c s) ∧ c ≠ "/"%char ∧ e = mkEnv (String c s) false).
Proof.
  destruct name as [[|c s]|]; simpl.
  - intros [= <-]. left. eauto.
  - destruct (Ascii.eqb c "/") eqn:Hc; [done|].
    intros [= <-]. right. exists c, s. split_and!; [done| |done].
    by apply Ascii.eqb_neq.
  - intros [= <-]. left. eauto.
Qed.

(** The flag of a constructed value says whether its string is empty. *)
Lemma Env_new_empty name e :
  Env_new name = Ok e → (is_root e = true ↔ env_str e = EmptyString).
Proof.
  intros [[-> _]|(c & s & _ & _ & ->)]%Env_new_inv; simpl; [done|].
  split; discriminate.
Qed.

End env.

(** C5, counterexample: the root value is constructed successfully and its
    components are the one-element list holding the empty string. *)
Lemma components_root_is_empty_string :
  Env_new None = Ok Env_Root ∧
  components Env_Root = [EmptyString] ∧
  ¬ components_nonempty_without_separator.
Proof.
  split_and!; [done..|].
  intros Hall. specialize (Hall None Env_Root eq_refl).
  apply Forall_inv in Hall as [Hne _]. by apply Hne.
Qed.

(** C5, as amended: for every successfully constructed environment no
    component contains the path separator; the root has the single
    component [""], and the first component of any other environment is
    non-empty (later ones are empty where the name doubles or ends with a
    separator). *)
Theorem components_without_separator name e :
  Env_new name = Ok e →
  Forall (λ c, Str.contains "/" c = false) (components e) ∧
  (is_root e = true → components e = [EmptyString]) ∧
  (is_root e = false →
     ∃ c cs, components e = c :: cs ∧ c ≠ EmptyString ∧
             Str.join "/" (c :: cs) = env_str e).
Proof.
  intros [[-> _]|(c & s & _ & Hc & ->)]%Env_new_inv.
  - split_and!; [by repeat constructor|done|done].
  - unfold components. simpl.
    split_and!; [apply split_slash_no_separator|done|].
    intros _. pose proof (join_split_slash (String c s)) as Hjoin.
    rewrite split_slash_cons in Hjoin |- *.
    apply Ascii.eqb_neq in Hc. rewrite Hc in Hjoin |- *.
    destruct (Str.split "/" s) as [|h t]; eauto.
Qed.

(** The theorem on the environment [prod/us]. *)
Lemma components_without_separator_witness :
  Env_new (Some "prod/us") = Ok (mkEnv "prod/us" false) ∧
  Forall (λ c, Str.contains "/" c = false) (components (mkEnv "prod/us" false)) ∧
  components (mkEnv "prod/us" false) = ["prod"; "us"].
Proof.
  split_and!; [reflexivity| |reflexivity].
  apply (components_without_separator (Some "prod/us") (mkEnv "prod/us" false)).
  reflexivity.
Defined.

(* ===================================================================== *)
(** ** The store *)
(* ===================================================================== *)

Section store.
Implicit Types (ns : gmap string znode) (p q : string) (s : zk).

(** [ensure_path] leaves every node that exists as it is. *)
Lemma ensure_chain_lookup_Some chain ns q n :
  ns !! q = Some n → ensure_chain chain ns !! q = Some n.
Proof.
  intros Hq. induction chain as [|p rest IH]; [done|].
  simpl. destruct (ns !! p) eqn:Hp; [done|].
  rewrite lookup_insert_ne; [done|]. congruence.
Qed.

(** A node that [ensure_path] adds lies on the chain and is empty. *)
Lemma ensure_chain_lookup_new chain ns q n :
  ensure_chain chain ns !! q = Some n →
  ns !! q = Some n ∨ (ns !! q = None ∧ q ∈ chain ∧ n = mkZnode EmptyString 0).
Proof.
  induction chain as [|p rest IH]; [by left|].
  simpl. destruct (ns !! p) eqn:Hp; [by left|].
  destruct (decide (p = q)) as [->|Hne].
  - rewrite lookup_insert_eq. intros [= <-]. right. split_and!; [done|left|done].
  - rewrite lookup_insert_ne by done. intros [?|(?&?&?)]%IH; [by left|].
    right. split_and!; [done|by right|done].
Qed.

Lemma ensure_chain_head p rest ns :
  is_Some (ensure_chain (p :: rest) ns !! p).
Proof.
  simpl. destruct (ns !! p) eqn:Hp; [by rewrite Hp|].
  by rewrite lookup_insert_eq.
Qed.

Lemma path_chain_head c p :
  ∃ rest, path_chain (String c p) = String c p :: rest.
Proof. unfold path_chain. simpl. eauto. Qed.

Lemma ensure_path_exists c p ns :
  is_Some (ensure_chain (path_chain (String c p)) ns !! String c p).
Proof.
  destruct (path_chain_head c p) as [rest ->]. apply ensure_chain_head.
Qed.

Lemma dirname_prefix p : ∃ t, p = dirname p +:+ t.
Proof.
  induction p as [|c p [t IH]]; [by exists EmptyString|].
  cbn [dirname]. destruct (Str.contains "/" p).
  - exists t. by rewrite app_String, <- IH.
  - by exists (String c p).
Qed.

Lemma path_chain_fuel_prefix fuel p q :
  q ∈ path_chain_fuel fuel p → ∃ t, p = q +:+ t.
Proof.
  revert p. induction fuel as [|fuel IH]; intros p; [by intros ?%elem_of_nil|].
  destruct p as [|c p]; [by intros ?%elem_of_nil|].
  cbn [path_chain_fuel]. intros [->|Hin]%elem_of_cons.
  - exists EmptyString. by rewrite app_empty_r'.
  - apply IH in Hin as [t Ht].
    destruct (dirname_prefix (String c p)) as [u Hu].
    exists (t +:+ u). by rewrite <- app_assoc', <- Ht.
Qed.

Lemma version_matches_any v : version_matches (-1) v = true.
Proof. done. Qed.

Lemma zk_set_any path value s n :
  nodes s !! path = Some n →
  zk_set path value (-1) s =
    (Ok tt, mkZk (<[path := mkZnode value (node_version n + 1)]> (nodes s))
                 (requests s ++ [ReqSet path value (-1)])).
Proof. intros Hn. unfold zk_set. by rewrite Hn. Qed.

End store.

(* ===================================================================== *)
(** ** Running a method *)
(* ===================================================================== *)

Section monad.
Context {A B : Type}.
Implicit Types (m : M A) (f : A → M B).

Lemma bind_inv m f s r s' :
  bind m f s = (r, s') →
  (∃ e, m s = (Raise e, s') ∧ r = Raise e) ∨
  (∃ a s1, m s = (Ok a, s1) ∧ f a s1 = (r, s')).
Proof.
  unfold bind. destruct (m s) as [[a|e] s1].
  - intros Hf. right. eauto.
  - intros [= <- <-]. left. eauto.
Qed.

Lemma bind_Ok_inv m f s b s' :
  bind m f s = (Ok b, s') →
  ∃ a s1, m s = (Ok a, s1) ∧ f a s1 = (Ok b, s').
Proof. intros [(e & _ & [=])|?]%bind_inv; done. Qed.

Lemma bind_Ok m f s a s1 :
  m s = (Ok a, s1) → bind m f s = f a s1.
Proof. unfold bind. by intros ->. Qed.

Lemma bind_Raise m f s e s1 :
  m s = (Raise e, s1) → bind m f s = (Raise e, s1).
Proof. unfold bind. by intros ->. Qed.

End monad.

(* ===================================================================== *)
(** ** Flattening from the root *)
(* ===================================================================== *)

Section flatten.
Context `{lib : PyLib}.
Variable self : Jones.
Implicit Types (s : zk) (e : Env) (cfg data : pydict).

Lemma overlay_from_lookup k cfgs data :
  foldl (λ acc c, c ∪ acc) data cfgs !! k =
    match deepest k cfgs with
    | Some v => Some v
    | None => data !! k
    end.
Proof.
  revert data. induction cfgs as [|c rest IH]; intros data; [done|].
  simpl. rewrite IH. destruct (deepest k rest); [done|].
  rewrite lookup_union. destruct (c !! k), (data !! k); done.
Qed.

(** A key is resolved in the deepest mapping of the chain that has it. *)
Lemma overlay_lookup k cfgs : overlay cfgs !! k = deepest k cfgs.
Proof.
  unfold overlay. rewrite overlay_from_lookup.
  by destruct (deepest k cfgs).
Qed.

Lemma overlay_twice cfg : overlay [cfg; cfg] = overlay [cfg].
Proof.
  apply map_eq. intros k. rewrite !overlay_lookup. simpl.
  by destruct (cfg !! k).
Qed.

Lemma get_readable s path n v :
  nodes s !! path = Some n → json_loads (node_data n) = Ok v →
  _get path s = (Ok (node_version n, v), s).
Proof.
  intros Hn Hv. unfold _get, bind, zk_get, lift, ret. by rewrite Hn, Hv.
Qed.

(** Reading never changes the store. *)
Lemma get_state path s : (_get path s).2 = s.
Proof.
  unfold _get, bind, zk_get, lift, ret.
  destruct (nodes s !! path) as [n|]; [|done].
  by destruct (json_loads (node_data n)).
Qed.

Lemma flatten_loop_state paths data s : (flatten_loop paths data s).2 = s.
Proof.
  revert data. induction paths as [|p rest IH]; intros data; [done|].
  cbn [flatten_loop]. unfold bind at 1.
  pose proof (get_state p s) as Hs.
  destruct (_get p s) as [[[v config]|e] s1]; simpl in Hs; subst s1; [|done].
  unfold bind, lift. destruct (dict_update data config); [apply IH|done].
Qed.

Lemma flatten_loop_overlay paths cfgs data s :
  Forall2 (λ p cfg, ∃ n, nodes s !! p = Some n ∧
                         json_loads (node_data n) = Ok (PyDict cfg)) paths cfgs →
  flatten_loop paths data s = (Ok (foldl (λ acc c, c ∪ acc) data cfgs), s).
Proof.
  intros Hall. revert data.
  induction Hall as [|p cfg paths cfgs (n & Hn & Hv) _ IH]; intros data; [done|].
  cbn [flatten_loop]. erewrite bind_Ok by (by eapply get_readable).
  unfold bind at 1, lift. cbn [dict_update]. apply IH.
Qed.

Lemma envs_of_map (f : nat → list string) (g : nat → Env) l :
  (∀ n, n ∈ l → Env_new (Some (Str.join "/" (f n))) = Ok (g n)) →
  envs_of (map f l) = Ok (map g l).
Proof.
  induction l as [|n l IH]; intros Hl; [done|].
  cbn [envs_of map]. rewrite Hl by left. rewrite IH; [done|].
  intros m Hm. apply Hl. by right.
Qed.

Lemma prefixes_cons (nodes : list string) :
  prefixes nodes = [] :: map (λ n, take n nodes) (seq 1 (List.length nodes)).
Proof. unfold prefixes. by rewrite Nat.add_1_r. Qed.

(** The environments [_flatten_from_root] reads for an environment other
    than the root are those of its ancestor chain. *)
Lemma envs_of_components c str :
  c ≠ "/"%char →
  envs_of (prefixes (components (mkEnv (String c str) false))) =
    Ok (ancestor_chain (mkEnv (String c str) false)).
Proof.
  intros Hc. unfold components, ancestor_chain. simpl.
  rewrite prefixes_cons. simpl.
  erewrite envs_of_map; [done|].
  intros n [Hn _]%elem_of_seq. destruct n as [|k]; [lia|].
  rewrite split_slash_cons.
  apply Ascii.eqb_neq in Hc. rewrite Hc.
  pose proof (split_slash_nonempty str).
  destruct (Str.split "/" str) as [|h t]; [done|].
  rewrite firstn_cons, join_cons_char. simpl. by rewrite Hc.
Qed.

Lemma envs_of_components_root :
  envs_of (prefixes (components Env_Root)) = Ok [Env_Root; Env_Root].
Proof. reflexivity. Qed.

Lemma ancestor_chain_head e : head (ancestor_chain e) = Some Env_Root.
Proof. unfold ancestor_chain. by destruct (is_root e). Qed.

Lemma ancestor_chain_last name e :
  Env_new name = Ok e → last (ancestor_chain e) = Some e.
Proof.
  intros [[-> _]|(c & str & _ & Hc & ->)]%Env_new_inv; [done|].
  unfold ancestor_chain. simpl.
  pose proof (split_slash_nonempty (String c str)) as Hne.
  pose proof (join_split_slash (String c str)) as Hjoin.
  destruct (Str.split "/" (String c str)) as [|h t] eqn:Hsplit; [done|].
  cbn [List.length]. rewrite seq_S, map_app. cbn [map].
  rewrite last_cons, last_snoc.
  change (1 + List.length t)%nat with (List.length (h :: t)).
  by rewrite firstn_all, Hjoin.
Qed.

(** [_flatten_from_root] on the ancestor chain of a constructed
    environment whose ConfigNodes all hold mappings. *)
Lemma flatten_from_root_overlay name e s cfgs :
  Env_new name = Ok e →
  Forall2 (config_at self s) (ancestor_chain e) cfgs →
  _flatten_from_root self e s = (Ok (overlay cfgs), s).
Proof.
  intros [[-> _]|(c & str & _ & Hc & ->)]%Env_new_inv Hall.
  - unfold _flatten_from_root. rewrite envs_of_components_root.
    apply Forall2_cons_inv_l in Hall as (cfg & rest & Hcfg & Hrest & ->).
    apply Forall2_nil_inv_l in Hrest as ->.
    rewrite <- overlay_twice.
    apply flatten_loop_overlay. by repeat constructor.
  - unfold _flatten_from_root. rewrite envs_of_components by done.
    apply flatten_loop_overlay.
    by apply Forall2_fmap_l.
Qed.

End flatten.

(* ===================================================================== *)
(** ** Paths of the conf and view subtrees *)
(* ===================================================================== *)

Section paths.
Variable self : Jones.
Implicit Types (e d : Env).

Lemma conf_views_distinct x y : "/conf" +:+ x ≠ "/views" +:+ y.
Proof. intros H. cbv [String.append] in H. discriminate. Qed.

(** A conf path is never a view path. *)
Lemma env_path_not_view_path e d :
  _get_env_path self e ≠ _get_view_path self d.
Proof.
  unfold _get_env_path, _get_view_path, _get_path_by_env, conf_path, view_path.
  rewrite !join_pair.
  destruct (is_root e), (is_root d); rewrite ?app_assoc';
    intros H%app_inv_head;
    [ apply (conf_views_distinct EmptyString EmptyString)
    | apply (conf_views_distinct EmptyString ("/" +:+ env_str d))
    | apply (conf_views_distinct ("/" +:+ env_str e) EmptyString)
    | apply (conf_views_distinct ("/" +:+ env_str e) ("/" +:+ env_str d)) ];
    exact H.
Qed.

(** No conf path lies on the way from the tree root to a view node. *)
Lemma env_path_not_on_view_chain e d :
  _get_env_path self e ∉ path_chain (_get_view_path self d).
Proof.
  intros [t Ht]%path_chain_fuel_prefix. revert Ht.
  unfold _get_env_path, _get_view_path, _get_path_by_env, conf_path, view_path.
  rewrite !join_pair.
  destruct (is_root e), (is_root d); rewrite ?app_assoc';
    intros Ht%app_inv_head; symmetry in Ht; by apply conf_views_distinct in Ht.
Qed.

Lemma app_nonempty_neq p x : p ≠ p +:+ "/" +:+ x.
Proof.
  intros H. apply (f_equal String.length) in H.
  rewrite !app_length' in H. simpl in H. lia.
Qed.

(** Two constructed environments with the same path under a prefix are
    the same environment. *)
Lemma path_by_env_inj prefix name1 name2 e d :
  Env_new name1 = Ok e → Env_new name2 = Ok d →
  _get_path_by_env prefix e = _get_path_by_env prefix d → e = d.
Proof.
  intros [[-> _]|(c1 & s1 & _ & _ & ->)]%Env_new_inv
         [[-> _]|(c2 & s2 & _ & _ & ->)]%Env_new_inv;
    unfold _get_path_by_env; simpl; rewrite ?join_pair; [done| | |].
  - by intros ?%app_nonempty_neq.
  - by intros ?%eq_sym%app_nonempty_neq.
  - by intros [= -> ->]%app_inv_head.
Qed.

Lemma view_path_cons e : ∃ c p, _get_view_path self e = String c p.
Proof.
  unfold _get_view_path, _get_path_by_env, view_path, root.
  destruct (is_root e); eexists _, _; reflexivity.
Qed.

Lemma drop_all_plus s n : Str.drop (String.length s + S n) s = EmptyString.
Proof. induction s as [|c s IH]; [done|]. apply IH. Qed.

Lemma drop_app_plus s t n :
  Str.drop (String.length s + n) (s +:+ t) = Str.drop n t.
Proof. induction s as [|c s IH]; [done|]. apply IH. Qed.

(** [Env(child[len(self.conf_path)+1:])] recovers an environment from
    its conf path. *)
Lemma env_of_env_path name e :
  Env_new name = Ok e →
  Env_new (Some (Str.drop (String.length (conf_path self) + 1) (_get_env_path self e))) = Ok e.
Proof.
  intros [[-> _]|(c & s & _ & Hc & ->)]%Env_new_inv;
    unfold _get_env_path, _get_path_by_env; cbn [is_root _empty env_str Env_Root].
  - by rewrite drop_all_plus.
  - rewrite join_pair, drop_app_plus.
    change (Str.drop 1 ("/" +:+ String c s)) with (String c s).
    cbn [Env_new]. apply Ascii.eqb_neq in Hc. by rewrite Hc.
Qed.

Lemma prefix_app a k : String.prefix a k = true → ∃ t, k = a +:+ t.
Proof.
  revert k. induction a as [|c a IH]; intros k; [by exists k|].
  destruct k as [|c' k]; [done|].
  cbn [String.prefix]. destruct (ascii_dec c c') as [<-|]; [|done].
  intros [t ->]%IH. by exists t.
Qed.

Lemma below_app p k : below p k = true → ∃ t, k = p +:+ "/" +:+ t.
Proof.
  unfold below. intros [t ->]%prefix_app. exists t. by rewrite app_assoc'.
Qed.

Lemma prefix_app_true a t : String.prefix a (a +:+ t) = true.
Proof.
  induction a as [|c a IH]; [by destruct t|].
  rewrite app_String. cbn [String.prefix].
  by destruct (ascii_dec c c).
Qed.

Lemma below_app_true p t : below p (p +:+ "/" +:+ t) = true.
Proof. unfold below. rewrite <- app_assoc'. apply prefix_app_true. Qed.

(** The environment the cascade builds for a path of the walk lies in the
    subtree of the environment that was set. *)
Lemma env_of_walked_in_subtree name e k d :
  Env_new name = Ok e →
  k = _get_env_path self e ∨ below (_get_env_path self e) k = true →
  Env_new (Some (Str.drop (String.length (conf_path self) + 1) k)) = Ok d →
  in_subtree self e d.
Proof.
  intros He [->|[t ->]%below_app] Hd.
  - rewrite (env_of_env_path _ _ He) in Hd. injection Hd as <-. by left.
  - destruct (Env_new_inv _ _ He) as [[-> _]|(c & s & _ & Hc & ->)];
      unfold in_subtree, _get_env_path, _get_path_by_env in *;
      cbn [is_root _empty env_str Env_Root] in *.
    + rewrite drop_app_plus in Hd.
      change (Str.drop 1 ("/" +:+ t)) with t in Hd.
      destruct t as [|c t]; cbn [Env_new] in Hd.
      * injection Hd as <-. by left.
      * destruct (Ascii.eqb c "/"); [done|]. injection Hd as <-.
        right. cbn [is_root _empty env_str]. rewrite join_pair.
        apply below_app_true.
    + rewrite join_pair in *. rewrite !app_assoc', drop_app_plus in Hd.
      change (Str.drop 1 ("/" +:+ String c s +:+ "/" +:+ t))
        with (String c (s +:+ "/" +:+ t)) in Hd.
      cbn [Env_new] in Hd. apply Ascii.eqb_neq in Hc. rewrite Hc in Hd.
      injection Hd as <-. right. cbn [is_root _empty env_str].
      rewrite join_pair.
      replace (conf_path self +:+ "/" +:+ String c (s +:+ "/" +:+ t))
        with ((conf_path self +:+ "/" +:+ String c s) +:+ "/" +:+ t)
        by (by rewrite !app_assoc').
      apply below_app_true.
Qed.

End paths.

(* ===================================================================== *)
(** ** Updating one view *)
(* ===================================================================== *)

Section update_view.
Context `{lib : PyLib}.
Variable self : Jones.
Implicit Types (s : zk) (e d : Env) (merged : pydict).

Lemma get_inv path s ver v s1 :
  _get path s = (Ok (ver, v), s1) →
  s1 = s ∧ ∃ n, nodes s !! path = Some n ∧ node_version n = ver ∧
                json_loads (node_data n) = Ok v.
Proof.
  unfold _get, bind, zk_get, lift, ret.
  destruct (nodes s !! path) as [n|]; [|done].
  destruct (json_loads (node_data n)) as [v'|] eqn:Hloads; [|done].
  intros [= <- <- <-]. split; [done|]. by exists n.
Qed.

Lemma flatten_loop_mono paths data s s' merged :
  flatten_loop paths data s = (Ok merged, s) →
  (∀ p n, p ∈ paths → nodes s !! p = Some n → nodes s' !! p = Some n) →
  flatten_loop paths data s' = (Ok merged, s').
Proof.
  revert data. induction paths as [|p rest IH]; intros data Hrun Hkeep.
  - by injection Hrun as ->.
  - cbn [flatten_loop] in *.
    apply bind_Ok_inv in Hrun as ([ver config] & s1 & Hget & Hrun).
    apply get_inv in Hget as (-> & n & Hn & Hver & Hloads).
    erewrite bind_Ok
      by (eapply get_readable; [apply Hkeep; [left|exact Hn]|exact Hloads]).
    apply bind_Ok_inv in Hrun as (data' & s1 & Hupd & Hrun).
    unfold lift in Hupd. injection Hupd as Hupd <-.
    unfold bind at 1, lift. rewrite Hupd.
    apply IH; [done|]. intros q m Hq. apply Hkeep. by right.
Qed.

Lemma flatten_from_root_state e s : (_flatten_from_root self e s).2 = s.
Proof.
  unfold _flatten_from_root, bind, lift.
  destruct (envs_of (prefixes (components e))); [|done].
  apply flatten_loop_state.
Qed.

(** [_flatten_from_root] reads ConfigNodes only: it gives the same result
    in any store that keeps the ConfigNodes that exist. *)
Lemma flatten_from_root_mono e s s' merged :
  _flatten_from_root self e s = (Ok merged, s) →
  (∀ d n, nodes s !! _get_env_path self d = Some n →
          nodes s' !! _get_env_path self d = Some n) →
  _flatten_from_root self e s' = (Ok merged, s').
Proof.
  unfold _flatten_from_root. intros Hrun Hkeep.
  apply bind_Ok_inv in Hrun as (envs & s1 & Henvs & Hrun).
  unfold lift in Henvs. injection Henvs as Henvs <-.
  unfold bind, lift. rewrite Henvs.
  eapply flatten_loop_mono; [done|].
  intros p n (d & -> & _)%list_elem_of_fmap. apply Hkeep.
Qed.

(** What a successful [_update_view] did. *)
Lemma update_view_inv e s s' :
  _update_view self e s = (Ok tt, s') →
  let dest := _get_view_path self e in
  ∃ s1 merged n,
    ((s1 = s ∧ is_Some (nodes s !! dest)) ∨
     (s1 = mkZk (ensure_chain (path_chain dest) (nodes s))
                (requests s ++ [ReqEnsurePath dest]) ∧
      nodes s !! dest = None)) ∧
    _flatten_from_root self e s1 = (Ok merged, s1) ∧
    nodes s1 !! dest = Some n ∧
    s' = mkZk (<[dest := mkZnode (json_dumps (PyDict merged)) (node_version n + 1)]> (nodes s1))
              (requests s1 ++ [ReqSet dest (json_dumps (PyDict merged)) (-1)]).
Proof.
  intros Hrun dest. unfold _update_view in Hrun. fold dest in Hrun.
  apply bind_Ok_inv in Hrun as (present & s0 & Hex & Hrun).
  unfold zk_exists in Hex. injection Hex as <- <-.
  apply bind_Ok_inv in Hrun as ([] & s1 & Hens & Hrun).
  apply bind_Ok_inv in Hrun as (merged & s2 & Hflat & Hrun).
  pose proof (flatten_from_root_state e s1) as Hs2.
  rewrite Hflat in Hs2. simpl in Hs2. subst s2.
  unfold _set, zk_set in Hrun. simpl in Hrun.
  destruct (nodes s1 !! dest) as [n|] eqn:Hn; [|done].
  injection Hrun as <-.
  exists s1, merged, n. split_and!; [|done..].
  case_bool_decide as Hdest.
  - injection Hens as <-. by left.
  - injection Hens as <-. right. split; [done|].
    by apply eq_None_not_Some.
Qed.

(** Every node that exists, other than the view node itself, is kept. *)
Lemma update_view_keeps e s s' p n :
  _update_view self e s = (Ok tt, s') →
  nodes s !! p = Some n → p ≠ _get_view_path self e →
  nodes s' !! p = Some n.
Proof.
  intros (s1 & merged & n1 & Hs1 & _ & _ & ->)%update_view_inv Hp Hne.
  simpl. rewrite lookup_insert_ne by done.
  destruct Hs1 as [[-> _]|[-> _]]; [done|].
  by apply ensure_chain_lookup_Some.
Qed.

Lemma update_view_keeps_some e s s' p :
  _update_view self e s = (Ok tt, s') →
  is_Some (nodes s !! p) → is_Some (nodes s' !! p).
Proof.
  intros Hrun [n Hn].
  destruct (decide (p = _get_view_path self e)) as [->|Hne].
  - apply update_view_inv in Hrun as (s1 & merged & n1 & _ & _ & _ & ->).
    simpl. by rewrite lookup_insert_eq.
  - exists n. by eapply update_view_keeps.
Qed.

(** A node that a view update adds lies on the way from the tree root to
    the view node. *)
Lemma update_view_new e s s' p :
  _update_view self e s = (Ok tt, s') →
  nodes s !! p = None → is_Some (nodes s' !! p) →
  p ∈ path_chain (_get_view_path self e).
Proof.
  intros (s1 & merged & n1 & Hs1 & _ & _ & ->)%update_view_inv Hp [m Hm].
  destruct (view_path_cons self e) as (c & r & Hcr).
  destruct (path_chain_head c r) as [rest Hchain].
  simpl in Hm. destruct (decide (_get_view_path self e = p)) as [<-|Hne].
  - rewrite Hcr, Hchain. by left.
  - rewrite lookup_insert_ne in Hm by done.
    destruct Hs1 as [[-> _]|[-> _]]; [congruence|]. simpl in Hm.
    by apply ensure_chain_lookup_new in Hm as [Hm|(_ & Hin & _)]; [congruence|].
Qed.

(** The result of flattening any environment survives a view update. *)
Lemma update_view_keeps_flatten e s s' d merged :
  _update_view self e s = (Ok tt, s') →
  _flatten_from_root self d s = (Ok merged, s) →
  _flatten_from_root self d s' = (Ok merged, s').
Proof.
  intros Hrun Hflat. eapply flatten_from_root_mono; [done|].
  intros d' n Hn. eapply update_view_keeps; [done..|].
  apply env_path_not_view_path.
Qed.

(** After the update the view node holds the flattened mapping. *)
Lemma update_view_writes e s s' :
  _update_view self e s = (Ok tt, s') →
  ∃ merged v,
    _flatten_from_root self e s' = (Ok merged, s') ∧
    nodes s' !! _get_view_path self e = Some (mkZnode (json_dumps (PyDict merged)) v).
Proof.
  intros Hrun.
  destruct (update_view_inv _ _ _ Hrun) as (s1 & merged & n1 & Hs1 & Hflat & Hn1 & Hs').
  exists merged, (node_version n1 + 1). split.
  - eapply flatten_from_root_mono; [done|].
    intros d n Hn. subst s'. simpl.
    rewrite lookup_insert_ne; [done|].
    intros Heq. by apply (env_path_not_view_path self d e).
  - subst s'. simpl. by rewrite lookup_insert_eq.
Qed.

(** The requests of a view update: at most an [ensure_path] and then one
    write, both for the view node, the write naming no version. *)
Lemma update_view_requests e s s' :
  _update_view self e s = (Ok tt, s') →
  ∃ reqs value,
    requests s' = requests s ++ reqs ++ [ReqSet (_get_view_path self e) value (-1)] ∧
    (reqs = [] ∨ reqs = [ReqEnsurePath (_get_view_path self e)]).
Proof.
  intros (s1 & merged & n1 & Hs1 & _ & _ & ->)%update_view_inv. simpl.
  destruct Hs1 as [[-> _]|[-> _]]; simpl.
  - exists [], (json_dumps (PyDict merged)). split; [done|by left].
  - exists [ReqEnsurePath (_get_view_path self e)], (json_dumps (PyDict merged)).
    split; [by rewrite <- app_assoc|by right].
Qed.

End update_view.

(* ===================================================================== *)
(** ** The view of one environment *)
(* ===================================================================== *)

Section view.
Context `{lib : PyLib}.
Variable self : Jones.
Implicit Types (s : zk) (e : Env).

Lemma config_at_nodes s s' e cfg :
  (∀ p n, nodes s !! p = Some n → nodes s' !! p = Some n) →
  config_at self s e cfg → config_at self s' e cfg.
Proof. intros Hkeep (n & Hn & Hloads). exists n. eauto. Qed.

(** [_update_view] on an environment whose ancestor chain is configured:
    the view node is created if need be and then written, whatever its
    version. *)
Lemma update_view_run name e s cfgs :
  Env_new name = Ok e →
  Forall2 (config_at self s) (ancestor_chain e) cfgs →
  let dest := _get_view_path self e in
  let payload := json_dumps (PyDict (overlay cfgs)) in
  _update_view self e s =
    (Ok tt,
     match nodes s !! dest with
     | Some n =>
         mkZk (<[dest := mkZnode payload (node_version n + 1)]> (nodes s))
              (requests s ++ [ReqSet dest payload (-1)])
     | None =>
         mkZk (<[dest := mkZnode payload 1]> (ensure_chain (path_chain dest) (nodes s)))
              (requests s ++ [ReqEnsurePath dest; ReqSet dest payload (-1)])
     end).
Proof.
  intros He Hall dest payload. unfold _update_view. fold dest.
  unfold bind at 1, zk_exists.
  destruct (nodes s !! dest) as [n|] eqn:Hdest.
  - rewrite bool_decide_true by eauto.
    unfold bind at 1, ret.
    erewrite bind_Ok by (by eapply flatten_from_root_overlay).
    unfold _set. simpl. by erewrite zk_set_any.
  - rewrite bool_decide_false by (by intros [? [=]]).
    unfold bind at 1, zk_ensure_path.
    set (s1 := with_nodes _ _).
    assert (Forall2 (config_at self s1) (ancestor_chain e) cfgs) as Hall1.
    { eapply Forall2_impl; [exact Hall|]. intros d cfg.
      apply config_at_nodes. intros p n. apply ensure_chain_lookup_Some. }
    erewrite bind_Ok by (by eapply flatten_from_root_overlay).
    destruct (view_path_cons self e) as (c & p & Hcp). fold dest in Hcp.
    assert (nodes s1 !! dest = Some (mkZnode EmptyString 0)) as Hnew.
    { subst s1. simpl. rewrite Hcp.
      destruct (ensure_path_exists c p (nodes s)) as [n Hn].
      rewrite Hn. f_equal.
      apply ensure_chain_lookup_new in Hn as [Hn|(_ & _ & ->)]; [|done].
      rewrite <- Hcp in Hn. congruence. }
    unfold _set. simpl. erewrite zk_set_any by done.
    subst s1. simpl. by rewrite <- app_assoc.
Qed.

End view.

(** C1: for a constructed environment [E] whose ancestor chain
    [c0 = root, ..., cn = E] has ConfigNodes holding the mappings [cfgs],
    [_flatten_from_root] returns their overlay in root-to-leaf order, and
    [_update_view] writes exactly that overlay to the view node of [E].  In
    the overlay a key has the value given by the deepest environment of the
    chain that specifies it, so deeper values override shallower ones and
    keys not specified again are inherited. *)
Theorem view_is_overlay_of_ancestor_chain `{lib : PyLib} self name E s cfgs :
  Env_new name = Ok E →
  Forall2 (config_at self s) (ancestor_chain E) cfgs →
  head (ancestor_chain E) = Some Env_Root ∧
  last (ancestor_chain E) = Some E ∧
  _flatten_from_root self E s = (Ok (overlay cfgs), s) ∧
  (∀ k, overlay cfgs !! k = deepest k cfgs) ∧
  ∃ s' v,
    _update_view self E s = (Ok tt, s') ∧
    nodes s' !! _get_view_path self E =
      Some (mkZnode (json_dumps (PyDict (overlay cfgs))) v) ∧
    (json_loads (json_dumps (PyDict (overlay cfgs))) = Ok (PyDict (overlay cfgs)) →
     get_view_by_env self E s' = (Ok (PyDict (overlay cfgs)), s')).
Proof.
  intros He Hall. split_and!.
  - apply ancestor_chain_head.
  - by eapply ancestor_chain_last.
  - by eapply flatten_from_root_overlay.
  - intros k. apply overlay_lookup.
  - pose proof (update_view_run self name E s cfgs He Hall) as Hrun.
    simpl in Hrun.
    assert (∀ s' n, nodes s' !! _get_view_path self E = Some n →
              json_loads (node_data n) = Ok (PyDict (overlay cfgs)) →
              get_view_by_env self E s' = (Ok (PyDict (overlay cfgs)), s')) as Hread.
    { intros s' n Hn Hloads. unfold get_view_by_env.
      by erewrite bind_Ok by (by eapply get_readable). }
    destruct (nodes s !! _get_view_path self E) as [n|];
      (eexists _, _; split; [exact Hrun|]; simpl;
       rewrite lookup_insert_eq; split; [done|]; intros Hloads;
       eapply Hread; [apply lookup_insert_eq|done]).
Qed.

(** The theorem on [prod/us] of the scenario: the chain is root, [prod],
    [prod/us] and the view is [{region: us-east, timeout: 10}]. *)
Lemma view_is_overlay_of_ancestor_chain_witness :
  let E := Scenario.env "prod/us" in
  let cfgs := [Scenario.cfg_root; Scenario.cfg_prod; Scenario.cfg_prod_us] in
  Env_new (Some "prod/us") = Ok E ∧
  Forall2 (config_at (lib := RefJson.lib) Scenario.svc Scenario.configured)
          (ancestor_chain E) cfgs ∧
  _flatten_from_root (lib := RefJson.lib) Scenario.svc E Scenario.configured
    = (Ok (overlay cfgs), Scenario.configured) ∧
  RefJson.dumps (PyDict (overlay cfgs)) = js "{'region': 'us-east', 'timeout': 10}".
Proof.
  intros E cfgs.
  assert (Env_new (Some "prod/us") = Ok E) as HE by reflexivity.
  assert (Forall2 (config_at (lib := RefJson.lib) Scenario.svc Scenario.configured)
            (ancestor_chain E) cfgs) as Hall.
  { assert (ancestor_chain E = [Env_Root; Scenario.env "prod"; E]) as ->
      by (vm_compute; reflexivity).
    constructor; [|constructor; [|constructor; [|constructor]]];
      (eexists; split; [vm_compute; reflexivity|]; vm_compute; reflexivity). }
  split_and!; [exact HE|exact Hall| |vm_compute; reflexivity].
  apply (view_is_overlay_of_ancestor_chain (lib := RefJson.lib)
           Scenario.svc (Some "prod/us") E Scenario.configured cfgs HE Hall).
Defined.

(* ===================================================================== *)
(** ** The cascade of set_config *)
(* ===================================================================== *)

Section cascade.
Context `{lib : PyLib}.
Variable self : Jones.
Implicit Types (s a b : zk) (e d : Env) (l : list string).

Local Abbreviation env_of child :=
  (Env_new (Some (Str.drop (String.length (conf_path self) + 1) child))).

Local Abbreviation cascade_body :=
  (λ child : string, let! env' := lift (env_of child) in _update_view self env').

Lemma cascade_body_inv child a a1 :
  cascade_body child a = (Ok tt, a1) →
  ∃ d, env_of child = Ok d ∧ _update_view self d a = (Ok tt, a1).
Proof.
  intros (d & a0 & Hd & Hrun)%bind_Ok_inv.
  unfold lift in Hd. injection Hd as Hd <-. eauto.
Qed.

Lemma for_each_cons_inv {A} (x : A) (xs : list A) body a b :
  for_each (x :: xs) body a = (Ok tt, b) →
  ∃ a1, body x a = (Ok tt, a1) ∧ for_each xs body a1 = (Ok tt, b).
Proof. intros ([] & a1 & Hx & Hxs)%bind_Ok_inv. eauto. Qed.

(** A view that is up to date stays so when another view is updated. *)
Lemma update_view_keeps_current name1 name2 e d s s' :
  Env_new name1 = Ok e → Env_new name2 = Ok d →
  _update_view self e s = (Ok tt, s') →
  view_current self s d → view_current self s' d.
Proof.
  intros He Hd Hrun (merged & v & Hflat & Hview).
  destruct (decide (_get_view_path self d = _get_view_path self e)) as [Heq|Hne].
  - apply (path_by_env_inj _ _ _ _ _ Hd He) in Heq as ->.
    by eapply update_view_writes.
  - exists merged, v. split.
    + by eapply update_view_keeps_flatten.
    + by eapply update_view_keeps.
Qed.

Lemma cascade_keeps_current l a b name d :
  for_each l cascade_body a = (Ok tt, b) →
  Env_new name = Ok d →
  view_current self a d → view_current self b d.
Proof.
  revert a. induction l as [|k l IH]; intros a Hrun Hd Hcur.
  - by injection Hrun as <-.
  - apply for_each_cons_inv in Hrun as (a1 & Hk & Hrun).
    apply cascade_body_inv in Hk as (e & He & Hk).
    eapply IH; [exact Hrun|exact Hd|].
    eapply update_view_keeps_current; [exact He|exact Hd|exact Hk|exact Hcur].
Qed.

(** After the cascade every walked environment has an up-to-date view. *)
Lemma cascade_updates l a b k :
  for_each l cascade_body a = (Ok tt, b) →
  k ∈ l →
  ∃ d, env_of k = Ok d ∧ view_current self b d.
Proof.
  revert a. induction l as [|x l IH]; intros a Hrun Hin; [by apply elem_of_nil in Hin|].
  apply for_each_cons_inv in Hrun as (a1 & Hx & Hrun).
  apply elem_of_cons in Hin as [->|Hin]; [|eapply IH; [exact Hrun|exact Hin]].
  apply cascade_body_inv in Hx as (d & Hd & Hx).
  exists d. split; [done|].
  eapply cascade_keeps_current; [exact Hrun|exact Hd|].
  eapply update_view_writes. exact Hx.
Qed.

(** The cascade keeps every node that is not the view node of a walked
    environment. *)
Lemma cascade_keeps l a b p n :
  for_each l cascade_body a = (Ok tt, b) →
  nodes a !! p = Some n →
  (∀ k d, k ∈ l → env_of k = Ok d → p ≠ _get_view_path self d) →
  nodes b !! p = Some n.
Proof.
  revert a. induction l as [|x l IH]; intros a Hrun Hp Hne.
  - by injection Hrun as <-.
  - apply for_each_cons_inv in Hrun as (a1 & Hx & Hrun).
    apply cascade_body_inv in Hx as (d & Hd & Hx).
    eapply IH; [exact Hrun| |].
    + eapply update_view_keeps; [exact Hx|exact Hp|]. eapply Hne; [left|exact Hd].
    + intros k d' Hk. apply Hne. by right.
Qed.

Lemma cascade_keeps_some l a b p :
  for_each l cascade_body a = (Ok tt, b) →
  is_Some (nodes a !! p) → is_Some (nodes b !! p).
Proof.
  revert a. induction l as [|x l IH]; intros a Hrun Hp.
  - by injection Hrun as <-.
  - apply for_each_cons_inv in Hrun as (a1 & Hx & Hrun).
    apply cascade_body_inv in Hx as (d & Hd & Hx).
    eapply IH; [exact Hrun|].
    eapply update_view_keeps_some; [exact Hx|exact Hp].
Qed.

(** A node that the cascade adds lies on the way to the view node of a
    walked environment. *)
Lemma cascade_new l a b p :
  for_each l cascade_body a = (Ok tt, b) →
  nodes a !! p = None → is_Some (nodes b !! p) →
  ∃ k d, k ∈ l ∧ env_of k = Ok d ∧ p ∈ path_chain (_get_view_path self d).
Proof.
  revert a. induction l as [|x l IH]; intros a Hrun Hp Hnew.
  - injection Hrun as <-. rewrite Hp in Hnew. by destruct Hnew.
  - apply for_each_cons_inv in Hrun as (a1 & Hx & Hrun).
    apply cascade_body_inv in Hx as (d & Hd & Hx).
    destruct (nodes a1 !! p) as [m|] eqn:Hp1.
    + exists x, d. split_and!; [left|exact Hd|].
      eapply update_view_new; [exact Hx|exact Hp|by eexists].
    + destruct (IH a1 Hrun Hp1 Hnew) as (k & d' & Hk & Hd' & Hin).
      exists k, d'. split_and!; [by right|done..].
Qed.

(** The requests of the cascade: for each walked environment at most an
    [ensure_path] and one write without a version. *)
Lemma cascade_requests l a b :
  for_each l cascade_body a = (Ok tt, b) →
  ∃ reqs, requests b = requests a ++ reqs ∧
          Forall (λ r, ∃ dest, view_request dest r) reqs.
Proof.
  revert a. induction l as [|x l IH]; intros a Hrun.
  - injection Hrun as <-. exists []. by rewrite app_nil_r.
  - apply for_each_cons_inv in Hrun as (a1 & Hx & Hrun).
    apply cascade_body_inv in Hx as (d & Hd & Hx).
    apply update_view_requests in Hx as (r1 & value & Hr1 & Hens).
    apply IH in Hrun as (r2 & Hr2 & Hall).
    exists ((r1 ++ [ReqSet (_get_view_path self d) value (-1)]) ++ r2). split.
    + by rewrite Hr2, Hr1, !app_assoc.
    + apply Forall_app. split; [|done].
      apply Forall_app. split.
      * destruct Hens as [->| ->]; repeat constructor.
        exists (_get_view_path self d). by left.
      * repeat constructor. exists (_get_view_path self d). right. eauto.
Qed.

(** What a successful [set_config] starts with: the conditional write of
    the ConfigNode, then the cascade over the walk of its subtree. *)
Lemma set_config_inv e conf version s s' :
  set_config self e conf version s = (Ok tt, s') →
  let path := _get_env_path self e in
  ∃ n s0,
    is_mapping conf = true ∧
    nodes s !! path = Some n ∧
    s0 = mkZk (<[path := mkZnode (json_dumps conf) (node_version n + 1)]> (nodes s))
              (requests s ++ [ReqSet path (json_dumps conf) version]) ∧
    for_each (filter (λ k, k = path ∨ below path k = true) (elements (dom (nodes s0))))
             cascade_body s0 = (Ok tt, s').
Proof.
  intros Hrun path. unfold set_config in Hrun. fold path in Hrun.
  destruct (is_mapping conf) eqn:Hmap; [|done]. simpl in Hrun.
  apply bind_Ok_inv in Hrun as ([] & s0 & Hset & Hrun).
  unfold _set, zk_set in Hset. simpl in Hset.
  destruct (nodes s !! path) as [n|] eqn:Hn; [|done].
  destruct (version_matches version (node_version n)); [|done].
  injection Hset as <-.
  exists n. eexists. split_and!; [done..|].
  apply bind_Ok_inv in Hrun as (children & s1 & Hwalk & Hrun).
  unfold zkutil_walk in Hwalk. injection Hwalk as <- <-. exact Hrun.
Qed.

End cascade.

(** What the cascade of [set_config] makes and writes. *)
Section frame.
Context `{lib : PyLib} (self : Jones).
Implicit Types (s a b : zk) (e d : Env) (l : list string) (p : string).

Local Abbreviation env_of child :=
  (Env_new (Some (Str.drop (String.length (conf_path self) + 1) child))).

Local Abbreviation cascade_body :=
  (λ child : string, let! env' := lift (env_of child) in _update_view self env').

(** A node that a view update makes, other than the view node it writes,
    is an empty node that [ensure_path] created. *)
Lemma update_view_new_empty e s s' p m :
  _update_view self e s = (Ok tt, s') →
  nodes s !! p = None → nodes s' !! p = Some m → p ≠ _get_view_path self e →
  m = mkZnode EmptyString 0.
Proof.
  intros Hrun Hp Hm Hne.
  destruct (update_view_inv _ _ _ _ Hrun) as (s1 & merged & n & Hs1 & _ & _ & ->).
  cbn [nodes] in Hm. rewrite lookup_insert_ne in Hm by done.
  destruct Hs1 as [[-> _]|[-> _]]; [congruence|].
  cbn [nodes] in Hm.
  apply ensure_chain_lookup_new in Hm as [?|(_ & _ & ->)]; [congruence|done].
Qed.

Lemma cascade_new_empty l a b p m :
  for_each l cascade_body a = (Ok tt, b) →
  nodes a !! p = None → nodes b !! p = Some m →
  (∀ k d, k ∈ l → env_of k = Ok d → p ≠ _get_view_path self d) →
  m = mkZnode EmptyString 0.
Proof.
  revert a. induction l as [|x l IH]; intros a Hrun Hp Hm Hne.
  - injection Hrun as <-. congruence.
  - apply for_each_cons_inv in Hrun as (a1 & Hx & Hrun).
    apply cascade_body_inv in Hx as (d & Hd & Hx).
    assert (p ≠ _get_view_path self d) as Hpd by (eapply Hne; [left|exact Hd]).
    assert (∀ k d', k ∈ l → env_of k = Ok d' → p ≠ _get_view_path self d') as Hrest
      by (intros k d' Hk; apply Hne; by right).
    destruct (nodes a1 !! p) as [m1|] eqn:Hm1.
    + pose proof (update_view_new_empty _ _ _ _ _ Hx Hp Hm1 Hpd) as ->.
      pose proof (cascade_keeps self _ _ _ _ _ Hrun Hm1 Hrest) as Hb. congruence.
    + by eapply IH.
Qed.

(** Every walked environment has had its view written. *)
Lemma cascade_writes l a b k :
  for_each l cascade_body a = (Ok tt, b) → k ∈ l →
  ∃ d value, env_of k = Ok d ∧
             ReqSet (_get_view_path self d) value (-1) ∈ requests b.
Proof.
  revert a. induction l as [|x l IH]; intros a Hrun Hin; [by apply elem_of_nil in Hin|].
  apply for_each_cons_inv in Hrun as (a1 & Hx & Hrun).
  apply elem_of_cons in Hin as [->|Hin]; [|eapply IH; [exact Hrun|exact Hin]].
  apply cascade_body_inv in Hx as (d & Hd & Hx).
  destruct (update_view_requests _ _ _ _ Hx) as (reqs & value & Hreq & _).
  destruct (cascade_requests self _ _ _ Hrun) as (reqs' & Hreq' & _).
  exists d, value. split; [done|].
  rewrite Hreq', Hreq. set_solver.
Qed.

End frame.

(** C2, counterexample: on a store in which [prod] and [prod/us] are
    configured and their view nodes are missing, [set_config] of [prod/us]
    succeeds.  The environment [prod] is outside the subtree of [prod/us];
    its view node did not exist before the call and exists after it, empty:
    [ensure_path] made it on the way to the view node of [prod/us]. *)
Lemma set_config_creates_outside_view_node :
  set_config (lib := RefJson.lib) Scenario.svc (Scenario.env "prod/us")
             (PyDict Scenario.cfg_prod_us_west) 0 Scenario.unviewed
    = (Ok tt, Scenario.reviewed) ∧
  ¬ in_subtree Scenario.svc (Scenario.env "prod/us") (Scenario.env "prod") ∧
  nodes Scenario.unviewed !! "/services/svc/conf/prod"
    = Some (mkZnode (js "{'region': 'na', 'timeout': 10}") 0) ∧
  nodes Scenario.unviewed !! "/services/svc/views/prod" = None ∧
  nodes Scenario.reviewed !! "/services/svc/views/prod" = Some (mkZnode EmptyString 0) ∧
  ¬ set_config_leaves_outside_unchanged (lib := RefJson.lib).
Proof.
  assert (set_config (lib := RefJson.lib) Scenario.svc (Scenario.env "prod/us")
            (PyDict Scenario.cfg_prod_us_west) 0 Scenario.unviewed
          = (Ok tt, Scenario.reviewed)) as Hrun by (vm_compute; reflexivity).
  assert (¬ in_subtree Scenario.svc (Scenario.env "prod/us") (Scenario.env "prod")) as Hout
    by (intros [H|H]; vm_compute in H; discriminate).
  split_and!; [exact Hrun|exact Hout|vm_compute; reflexivity..|].
  intros Hclaim.
  destruct (Hclaim Scenario.svc (Some "prod/us") (Scenario.env "prod/us")
              (PyDict Scenario.cfg_prod_us_west) 0 Scenario.unviewed Scenario.reviewed
              (Some "prod") (Scenario.env "prod") eq_refl eq_refl Hrun Hout) as [_ Hview].
  vm_compute in Hview. discriminate.
Qed.

(** C2, as amended: a successful [set_config(E, conf, version)] leaves
    [conf] in the ConfigNode of [E]; for [E] and every environment with a
    ConfigNode below [E] the view is recomputed from the ConfigNodes as
    they now are and written: a write of the view node is sent, and the
    node holds the overlay, root first, of the mappings of the ancestor
    chain of that environment.  No other ConfigNode is touched or made, and
    no node is removed.  Every node that existed and is neither the
    ConfigNode of [E] nor the view node of an environment of the subtree is
    as before, the view nodes of the environments outside the subtree among
    them.  A node that was absent and now exists lies on the way from the
    tree root to a view node that was written, and unless it is a view node
    of the subtree it is empty, at version 0: the view node of an
    environment outside the subtree that was missing can be made in this
    way, by [ensure_path]. *)
Theorem set_config_updates_subtree_views `{lib : PyLib} self name E conf version s s' :
  Env_new name = Ok E →
  set_config self E conf version s = (Ok tt, s') →
  (∃ v, nodes s' !! _get_env_path self E = Some (mkZnode (json_dumps conf) v)) ∧
  (∀ nameD D, Env_new nameD = Ok D → in_subtree self E D →
     is_Some (nodes s !! _get_env_path self D) →
     view_current self s' D ∧
     (∃ value, ReqSet (_get_view_path self D) value (-1) ∈ requests s') ∧
     (∀ cfgs, Forall2 (config_at self s') (ancestor_chain D) cfgs →
        ∃ v, nodes s' !! _get_view_path self D
             = Some (mkZnode (json_dumps (PyDict (overlay cfgs))) v))) ∧
  (∀ d, _get_env_path self d ≠ _get_env_path self E →
     nodes s' !! _get_env_path self d = nodes s !! _get_env_path self d) ∧
  (∀ nameF F n, Env_new nameF = Ok F → ¬ in_subtree self E F →
     nodes s !! _get_view_path self F = Some n →
     nodes s' !! _get_view_path self F = Some n) ∧
  (∀ nameF F n, Env_new nameF = Ok F → ¬ in_subtree self E F →
     nodes s !! _get_view_path self F = None →
     nodes s' !! _get_view_path self F = Some n →
     n = mkZnode EmptyString 0 ∧
     ∃ nameD D, Env_new nameD = Ok D ∧ in_subtree self E D ∧
                _get_view_path self F ∈ path_chain (_get_view_path self D)) ∧
  (∀ p n, nodes s !! p = Some n → p ≠ _get_env_path self E →
     (∀ nameD D, Env_new nameD = Ok D → in_subtree self E D →
        p ≠ _get_view_path self D) →
     nodes s' !! p = Some n) ∧
  (∀ p, is_Some (nodes s !! p) → is_Some (nodes s' !! p)) ∧
  (∀ p n, nodes s !! p = None → nodes s' !! p = Some n →
     (∃ nameD D, Env_new nameD = Ok D ∧ in_subtree self E D ∧
                 p ∈ path_chain (_get_view_path self D)) ∧
     ((∀ nameD D, Env_new nameD = Ok D → in_subtree self E D →
         p ≠ _get_view_path self D) →
      n = mkZnode EmptyString 0)).
Proof.
  intros HE Hrun.
  destruct (set_config_inv _ _ _ _ _ _ Hrun) as (n & s0 & _ & Hn & Hs0 & Hloop).
  set (path := _get_env_path self E) in *.
  assert (∀ k d, k ∈ filter (λ k, k = path ∨ below path k = true)
                          (elements (dom (nodes s0))) →
            Env_new (Some (Str.drop (String.length (conf_path self) + 1) k)) = Ok d →
            in_subtree self E d) as Hsub.
  { intros k d [Hk _]%list_elem_of_filter Hd.
    by eapply env_of_walked_in_subtree. }
  assert (∀ nameD D, Env_new nameD = Ok D → in_subtree self E D →
            is_Some (nodes s !! _get_env_path self D) →
            _get_env_path self D ∈ filter (λ k, k = path ∨ below path k = true)
                                     (elements (dom (nodes s0)))) as Hwalked.
  { intros nameD D HD Hin HsomeD.
    apply list_elem_of_filter. split; [exact Hin|].
    apply elem_of_elements, elem_of_dom. subst s0. simpl.
    destruct (decide (path = _get_env_path self D)) as [<-|Hne].
    - by rewrite lookup_insert_eq.
    - by rewrite lookup_insert_ne. }
  assert (∀ p m, nodes s !! p = Some m → p ≠ path →
     (∀ nameD D, Env_new nameD = Ok D → in_subtree self E D →
        p ≠ _get_view_path self D) →
     nodes s' !! p = Some m) as Hframe.
  { intros p m Hp Hne Hview.
    eapply cascade_keeps; [exact Hloop| |].
    - subst s0. simpl. by rewrite lookup_insert_ne.
    - intros k d Hk Hd. eapply Hview; [exact Hd|]. by eapply Hsub. }
  assert (∀ p, nodes s !! p = None → is_Some (nodes s' !! p) →
     ∃ nameD D, Env_new nameD = Ok D ∧ in_subtree self E D ∧
                p ∈ path_chain (_get_view_path self D)) as Hnew.
  { intros p Hp Hsome.
    destruct (cascade_new self _ _ _ p Hloop) as (k & d & Hk & Hd & Hin); [|done|].
    - subst s0. simpl. rewrite lookup_insert_ne; [done|]. congruence.
    - eexists _, d. split_and!; [exact Hd|by eapply Hsub|done]. }
  assert (∀ p m, nodes s !! p = None → nodes s' !! p = Some m →
     (∀ nameD D, Env_new nameD = Ok D → in_subtree self E D →
        p ≠ _get_view_path self D) →
     m = mkZnode EmptyString 0) as Hempty.
  { intros p m Hp Hm Hview.
    eapply (cascade_new_empty self _ s0 s' p m Hloop); [|exact Hm|].
    - subst s0. simpl. rewrite lookup_insert_ne; [done|]. congruence.
    - intros k d Hk Hd. eapply Hview; [exact Hd|]. by eapply Hsub. }
  assert (∀ nameF F nameD D, Env_new nameF = Ok F → ¬ in_subtree self E F →
            Env_new nameD = Ok D → in_subtree self E D →
            _get_view_path self F ≠ _get_view_path self D) as Hout.
  { intros nameF F nameD D HF HoutF HD Hin Heq.
    apply (path_by_env_inj _ _ _ _ _ HF HD) in Heq as ->. by apply HoutF. }
  split_and!.
  - exists (node_version n + 1).
    eapply cascade_keeps; [exact Hloop| |].
    + subst s0. simpl. by rewrite lookup_insert_eq.
    + intros k d _ _. apply env_path_not_view_path.
  - intros nameD D HD Hin HsomeD.
    pose proof (Hwalked _ _ HD Hin HsomeD) as Hk.
    assert (view_current self s' D) as Hcur.
    { destruct (cascade_updates self _ _ _ _ Hloop Hk) as (d & Hd & Hcur).
      rewrite (env_of_env_path _ _ _ HD) in Hd. by injection Hd as <-. }
    split_and!; [exact Hcur| |].
    + destruct (cascade_writes self _ _ _ _ Hloop Hk) as (d & value & Hd & Hreq).
      rewrite (env_of_env_path _ _ _ HD) in Hd. injection Hd as <-. by exists value.
    + intros cfgs Hcfgs. destruct Hcur as (merged & v & Hflat & Hview).
      rewrite (flatten_from_root_overlay self _ _ _ _ HD Hcfgs) in Hflat.
      injection Hflat as <-. by exists v.
  - intros d Hd.
    destruct (nodes s !! _get_env_path self d) as [m|] eqn:Hm.
    + eapply Hframe; [exact Hm|exact Hd|].
      intros nameD D _ _. apply env_path_not_view_path.
    + destruct (nodes s' !! _get_env_path self d) as [m|] eqn:Hm'; [|done].
      destruct (Hnew _ Hm (mk_is_Some _ _ Hm')) as (nameD & D & _ & _ & Hin).
      by apply env_path_not_on_view_chain in Hin.
  - intros nameF F m HF HoutF Hm.
    eapply Hframe; [exact Hm| |].
    + intros Heq. by apply (env_path_not_view_path self E F).
    + intros nameD D HD Hin. by eapply Hout.
  - intros nameF F m HF HoutF Hnone Hm. split.
    + eapply Hempty; [exact Hnone|exact Hm|].
      intros nameD D HD Hin. by eapply Hout.
    + apply Hnew; [exact Hnone|by rewrite Hm].
  - exact Hframe.
  - intros p Hp. eapply cascade_keeps_some; [exact Hloop|].
    subst s0. simpl. destruct (decide (path = p)) as [<-|Hne].
    + by rewrite lookup_insert_eq.
    + by rewrite lookup_insert_ne.
  - intros p m Hp Hm. split.
    + apply Hnew; [exact Hp|by rewrite Hm].
    + by apply Hempty.
Qed.

(** The theorem on [set_config(prod, {region: eu}, 0)] in the scenario: the
    view of [prod/us] is recomputed, the view of the root is as before. *)
Lemma set_config_updates_subtree_views_witness :
  let E := Scenario.env "prod" in
  Env_new (Some "prod") = Ok E ∧
  set_config (lib := RefJson.lib) Scenario.svc E (PyDict Scenario.cfg_prod_eu) 0
             Scenario.configured = (Ok tt, Scenario.reconfigured) ∧
  view_current (lib := RefJson.lib) Scenario.svc Scenario.reconfigured (Scenario.env "prod/us") ∧
  nodes Scenario.reconfigured !! "/services/svc/views/prod/us"
    = Some (mkZnode (js "{'region': 'us-east', 'timeout': 30}") 2) ∧
  nodes Scenario.reconfigured !! "/services/svc/views"
    = nodes Scenario.configured !! "/services/svc/views".
Proof.
  intros E.
  assert (Env_new (Some "prod") = Ok E) as HE by reflexivity.
  assert (set_config (lib := RefJson.lib) Scenario.svc E (PyDict Scenario.cfg_prod_eu) 0
            Scenario.configured = (Ok tt, Scenario.reconfigured)) as Hrun
    by (vm_compute; reflexivity).
  split_and!; [exact HE|exact Hrun| |vm_compute; reflexivity|vm_compute; reflexivity].
  destruct (set_config_updates_subtree_views (lib := RefJson.lib) Scenario.svc (Some "prod") E
              (PyDict Scenario.cfg_prod_eu) 0 Scenario.configured Scenario.reconfigured
              HE Hrun) as (_ & Hviews & _).
  apply (Hviews (Some "prod/us") (Scenario.env "prod/us")); [reflexivity| |].
  - right. vm_compute. reflexivity.
  - eexists. vm_compute. reflexivity.
Defined.

(** C3, counterexample: in the scenario the view node of [prod] has
    version [1]; updating the view succeeds, and the only request sent is a
    write with version [-1], the client's "any version", not a write that
    names the node's version. *)
Lemma update_view_write_names_no_version :
  _update_view (lib := RefJson.lib) Scenario.svc (Scenario.env "prod") Scenario.configured
    = (Ok tt, Scenario.refreshed) ∧
  nodes Scenario.configured !! "/services/svc/views/prod"
    = Some (mkZnode (js "{'region': 'na', 'timeout': 10}") 1) ∧
  requests Scenario.refreshed
    = requests Scenario.configured ++
      [ReqSet "/services/svc/views/prod" (js "{'region': 'na', 'timeout': 10}") (-1)] ∧
  ¬ view_writes_compare_and_set (lib := RefJson.lib).
Proof.
  assert (_update_view (lib := RefJson.lib) Scenario.svc (Scenario.env "prod")
            Scenario.configured = (Ok tt, Scenario.refreshed)) as Hrun
    by (vm_compute; reflexivity).
  split_and!; [exact Hrun|vm_compute; reflexivity..|].
  intros Hcas.
  destruct (Hcas Scenario.svc (Scenario.env "prod") Scenario.configured Scenario.refreshed
              (mkZnode (js "{'region': 'na', 'timeout': 10}") 1) Hrun)
    as [value Hin]; [vm_compute; reflexivity|].
  apply list_elem_of_In in Hin. vm_compute in Hin.
  intuition congruence.
Qed.

(** C3, as amended: the write of a view update names no expected version;
    it is sent with the client's default [-1], which matches every version.
    For an environment whose ancestor chain is configured the update
    succeeds whatever the version of the view node is (there is no version
    conflict), sends exactly one write, and leaves the node one version
    further.  In a successful [set_config] every request after the
    conditional write of the ConfigNode is such a write, or the
    [ensure_path] of a view node. *)
Theorem view_writes_are_unconditional `{lib : PyLib} self name E s cfgs :
  Env_new name = Ok E →
  Forall2 (config_at self s) (ancestor_chain E) cfgs →
  let dest := _get_view_path self E in
  let payload := json_dumps (PyDict (overlay cfgs)) in
  (∃ s' reqs,
     _update_view self E s = (Ok tt, s') ∧
     requests s' = requests s ++ reqs ++ [ReqSet dest payload (-1)] ∧
     (reqs = [] ∨ reqs = [ReqEnsurePath dest]) ∧
     ∀ n, nodes s !! dest = Some n →
          nodes s' !! dest = Some (mkZnode payload (node_version n + 1))) ∧
  (∀ conf version s2,
     set_config self E conf version s = (Ok tt, s2) →
     ∃ reqs,
       requests s2 =
         requests s ++ ReqSet (_get_env_path self E) (json_dumps conf) version :: reqs ∧
       Forall (λ r, ∃ d, view_request d r) reqs).
Proof.
  intros HE Hall dest payload. split.
  - pose proof (update_view_run self name E s cfgs HE Hall) as Hrun.
    simpl in Hrun. fold dest payload in Hrun.
    destruct (nodes s !! dest) as [n|] eqn:Hdest.
    + eexists _, []. split_and!; [exact Hrun|done|by left|].
      intros m [= <-]. simpl. by rewrite lookup_insert_eq.
    + eexists _, [ReqEnsurePath dest]. split_and!; [exact Hrun|done|by right|done].
  - intros conf version s2 Hset.
    destruct (set_config_inv _ _ _ _ _ _ Hset) as (n & s0 & _ & _ & Hs0 & Hloop).
    apply cascade_requests in Hloop as (reqs & Hreqs & Hview).
    exists reqs. split; [|done].
    rewrite Hreqs. subst s0. simpl. by rewrite <- app_assoc.
Qed.

(** The theorem on the view of [prod] in the scenario. *)
Lemma view_writes_are_unconditional_witness :
  let E := Scenario.env "prod" in
  let cfgs := [Scenario.cfg_root; Scenario.cfg_prod] in
  Env_new (Some "prod") = Ok E ∧
  Forall2 (config_at (lib := RefJson.lib) Scenario.svc Scenario.configured)
          (ancestor_chain E) cfgs ∧
  ∃ s' reqs,
    _update_view (lib := RefJson.lib) Scenario.svc E Scenario.configured = (Ok tt, s') ∧
    requests s' = requests Scenario.configured ++ reqs ++
      [ReqSet (_get_view_path Scenario.svc E)
              (RefJson.dumps (PyDict (overlay cfgs))) (-1)].
Proof.
  intros E cfgs.
  assert (Env_new (Some "prod") = Ok E) as HE by reflexivity.
  assert (Forall2 (config_at (lib := RefJson.lib) Scenario.svc Scenario.configured)
            (ancestor_chain E) cfgs) as Hall.
  { assert (ancestor_chain E = [Env_Root; E]) as -> by (vm_compute; reflexivity).
    constructor; [|constructor; [|constructor]];
      (eexists; split; [vm_compute; reflexivity|]; vm_compute; reflexivity). }
  split_and!; [exact HE|exact Hall|].
  destruct (view_writes_are_unconditional (lib := RefJson.lib)
              Scenario.svc (Some "prod") E Scenario.configured cfgs HE Hall)
    as [(s' & reqs & Hrun & Hreqs & _) _].
  exists s', reqs. split; [exact Hrun|exact Hreqs].
Defined.

(* ===================================================================== *)
(** ** Validation of the payload *)
(* ===================================================================== *)

(** C6, counterexample: the mapping [{1: 2}] is not string-keyed, yet
    [create_config] accepts it: the ConfigNode of the root is created with
    the payload [{"1": 2}]. *)
Lemma create_config_accepts_integer_keys :
  is_string_keyed_mapping (PyDict Scenario.cfg_int_key) = false ∧
  create_config (lib := RefJson.lib) Scenario.svc Env_Root (PyDict Scenario.cfg_int_key)
                Scenario.after_init = (Ok tt, Scenario.created_int_key) ∧
  nodes Scenario.created_int_key !! "/services/svc/conf" = Some (mkZnode (js "{'1': 2}") 0) ∧
  ¬ non_string_keyed_conf_refused (lib := RefJson.lib).
Proof.
  assert (create_config (lib := RefJson.lib) Scenario.svc Env_Root
            (PyDict Scenario.cfg_int_key) Scenario.after_init
          = (Ok tt, Scenario.created_int_key)) as Hrun by (vm_compute; reflexivity).
  split_and!; [vm_compute; reflexivity|exact Hrun|vm_compute; reflexivity|].
  intros Hclaim.
  destruct (Hclaim Scenario.svc Env_Root (PyDict Scenario.cfg_int_key) 0 Scenario.after_init)
    as [Hcreate _]; [vm_compute; reflexivity|].
  rewrite Hrun in Hcreate. discriminate Hcreate.
Qed.

(** C6, as amended: for every environment and every payload that is not a
    mapping, [create_config] and [set_config] raise [ValueError] before any
    request is sent: the store, nodes and requests, is as it was.  (The
    check is [isinstance(conf, Mapping)]: the keys are not looked at.) *)
Theorem non_mapping_conf_refused `{lib : PyLib} self env conf version s :
  is_mapping conf = false →
  create_config self env conf s = (Raise ValueError, s) ∧
  set_config self env conf version s = (Raise ValueError, s).
Proof.
  intros Hconf. unfold create_config, set_config. by rewrite Hconf.
Qed.

(** The theorem on a list payload. *)
Lemma non_mapping_conf_refused_witness :
  is_mapping (PyList [PyStr "timeout"; PyInt 30]) = false ∧
  create_config (lib := RefJson.lib) Scenario.svc (Scenario.env "prod")
                (PyList [PyStr "timeout"; PyInt 30]) Scenario.configured
    = (Raise ValueError, Scenario.configured) ∧
  set_config (lib := RefJson.lib) Scenario.svc (Scenario.env "prod")
             (PyList [PyStr "timeout"; PyInt 30]) 0 Scenario.configured
    = (Raise ValueError, Scenario.configured).
Proof.
  split; [reflexivity|].
  apply (non_mapping_conf_refused (lib := RefJson.lib)). reflexivity.
Defined.

(* ===================================================================== *)
(** ** delete_config *)
(* ===================================================================== *)

Section delete.
Implicit Types (s : zk) (e : exn).

Lemma zk_delete_Raise path version s e s1 :
  zk_delete path version s = (Raise e, s1) →
  s1 = mkZk (nodes s) (requests s ++ [ReqDelete path version]).
Proof.
  unfold zk_delete. destruct (nodes s !! path) as [n|]; [|by intros [= _ <-]].
  destruct (negb _); [by intros [= _ <-]|].
  destruct (has_children _ _); [by intros [= _ <-]|done].
Qed.

Lemma zk_delete_Ok path version s s1 :
  zk_delete path version s = (Ok tt, s1) →
  (∃ n, nodes s !! path = Some n ∧ version_matches version (node_version n) = true) ∧
  has_children (nodes s) path = false ∧
  s1 = mkZk (delete path (nodes s)) (requests s ++ [ReqDelete path version]).
Proof.
  unfold zk_delete. destruct (nodes s !! path) as [n|]; [|done].
  destruct (version_matches version (node_version n)) eqn:Hv; [|done].
  destruct (has_children _ _); [done|]. simpl. intros [= <-]. eauto.
Qed.

End delete.

(** C10: [delete_config] sends the delete of the ConfigNode first.  When
    that delete fails, whatever the reason (the node is missing, its
    version is not the expected one, it has children), the call fails with
    the same error, the delete of the view node is never sent, and no node
    of the store, the view node included, is touched. *)
Theorem delete_config_fails_before_view_delete self env version s :
  let path := _get_env_path self env in
  (∀ e s1, zk_delete path version s = (Raise e, s1) →
     delete_config self env version s = (Raise e, s1) ∧
     nodes s1 = nodes s ∧
     requests s1 = requests s ++ [ReqDelete path version] ∧
     nodes s1 !! _get_view_path self env = nodes s !! _get_view_path self env) ∧
  (nodes s !! path = None →
     delete_config self env version s =
       (Raise NoNodeError, mkZk (nodes s) (requests s ++ [ReqDelete path version]))) ∧
  (∀ n, nodes s !! path = Some n → version_matches version (node_version n) = false →
     delete_config self env version s =
       (Raise BadVersionError, mkZk (nodes s) (requests s ++ [ReqDelete path version]))).
Proof.
  intros path. split_and!.
  - intros e s1 Hdel. pose proof (zk_delete_Raise _ _ _ _ _ Hdel) as ->.
    unfold delete_config. fold path. by erewrite bind_Raise.
  - intros Hnone. unfold delete_config, bind, zk_delete. fold path. by rewrite Hnone.
  - intros n Hn Hver. unfold delete_config, bind, zk_delete. fold path.
    by rewrite Hn, Hver.
Qed.

(** C8: a successful [delete_config(E, version)] found the ConfigNode of
    [E] at the expected version, sent its delete and then the delete of
    the view node, and left the store without either node, so that
    [get_config_by_env(E)] now fails with [NoNodeError].  Nothing else is
    deleted or changed: every other node, the ConfigNodes and view nodes of
    all other environments among them, is as before. *)
Theorem delete_config_removes_config_and_view `{lib : PyLib} self name E version s s' :
  Env_new name = Ok E →
  delete_config self E version s = (Ok tt, s') →
  let path := _get_env_path self E in
  let view := _get_view_path self E in
  (∃ n, nodes s !! path = Some n ∧ version_matches version (node_version n) = true) ∧
  requests s' = requests s ++ [ReqDelete path version; ReqDelete view (-1)] ∧
  nodes s' = delete view (delete path (nodes s)) ∧
  nodes s' !! path = None ∧
  nodes s' !! view = None ∧
  get_config_by_env self E s' = (Raise NoNodeError, s') ∧
  (∀ p, p ≠ path → p ≠ view → nodes s' !! p = nodes s !! p) ∧
  (∀ nameD D, Env_new nameD = Ok D → D ≠ E →
     nodes s' !! _get_env_path self D = nodes s !! _get_env_path self D ∧
     nodes s' !! _get_view_path self D = nodes s !! _get_view_path self D).
Proof.
  intros HE Hrun path view. unfold delete_config in Hrun. fold path view in Hrun.
  apply bind_Ok_inv in Hrun as ([] & s1 & Hconf & Hview).
  apply zk_delete_Ok in Hconf as (Hn & _ & ->).
  apply zk_delete_Ok in Hview as (_ & _ & ->). simpl.
  assert (path ≠ view) as Hpv by apply env_path_not_view_path.
  assert (∀ p, p ≠ path → p ≠ view →
            delete view (delete path (nodes s)) !! p = nodes s !! p) as Hframe.
  { intros p Hp1 Hp2. by rewrite !lookup_delete_ne. }
  split_and!; [done|by rewrite <- app_assoc|done| | | |exact Hframe|].
  - by rewrite lookup_delete_ne, lookup_delete_eq.
  - by rewrite lookup_delete_eq.
  - unfold get_config_by_env, _get, bind, zk_get. fold path. simpl.
    by rewrite lookup_delete_ne, lookup_delete_eq.
  - intros nameD D HD Hne. split; apply Hframe.
    + intros Heq. apply Hne. by eapply path_by_env_inj.
    + apply env_path_not_view_path.
    + intros Heq. by apply (env_path_not_view_path self E D).
    + intros Heq. apply Hne. by eapply path_by_env_inj.
Qed.

(** The theorem on a stale version and on an environment without a
    ConfigNode. *)
Lemma delete_config_fails_before_view_delete_witness :
  delete_config Scenario.svc (Scenario.env "prod/us") 5 Scenario.configured
    = (Raise BadVersionError,
       mkZk (nodes Scenario.configured)
            (requests Scenario.configured ++ [ReqDelete "/services/svc/conf/prod/us" 5])) ∧
  delete_config Scenario.svc (Scenario.env "staging") 0 Scenario.configured
    = (Raise NoNodeError,
       mkZk (nodes Scenario.configured)
            (requests Scenario.configured ++ [ReqDelete "/services/svc/conf/staging" 0])).
Proof.
  split.
  - destruct (delete_config_fails_before_view_delete
                Scenario.svc (Scenario.env "prod/us") 5 Scenario.configured)
      as (_ & _ & Hbad).
    apply (Hbad (mkZnode (js "{'region': 'us-east'}") 0)); vm_compute; reflexivity.
  - destruct (delete_config_fails_before_view_delete
                Scenario.svc (Scenario.env "staging") 0 Scenario.configured)
      as (_ & Hnone & _).
    apply Hnone. vm_compute. reflexivity.
Defined.

(** The theorem on [delete_config(prod/us, 0)] in the scenario. *)
Lemma delete_config_removes_config_and_view_witness :
  let E := Scenario.env "prod/us" in
  Env_new (Some "prod/us") = Ok E ∧
  delete_config Scenario.svc E 0 Scenario.configured = (Ok tt, Scenario.deleted) ∧
  get_config_by_env (lib := RefJson.lib) Scenario.svc E Scenario.deleted
    = (Raise NoNodeError, Scenario.deleted) ∧
  nodes Scenario.deleted !! _get_view_path Scenario.svc E = None.
Proof.
  intros E.
  assert (Env_new (Some "prod/us") = Ok E) as HE by reflexivity.
  assert (delete_config Scenario.svc E 0 Scenario.configured = (Ok tt, Scenario.deleted))
    as Hrun by (vm_compute; reflexivity).
  destruct (delete_config_removes_config_and_view (lib := RefJson.lib)
              Scenario.svc (Some "prod/us") E 0 Scenario.configured Scenario.deleted HE Hrun)
    as (_ & _ & _ & _ & Hview & Hget & _).
  split_and!; [exact HE|exact Hrun|exact Hget|exact Hview].
Defined.

(* ===================================================================== *)
(** ** create_config *)
(* ===================================================================== *)

Section create.
Context `{lib : PyLib}.
Variable self : Jones.
Implicit Types (s : zk) (e d : Env) (p q : string).

Lemma contains_app_slash p x : Str.contains "/" (p +:+ "/" +:+ x) = true.
Proof.
  induction p as [|c p IH].
  - change (EmptyString +:+ "/" +:+ x) with (String "/" x).
    by rewrite contains_slash_cons.
  - rewrite app_String, contains_slash_cons, IH. apply orb_true_r.
Qed.

(** The parent of a path with one more segment. *)
Lemma dirname_app p x :
  dirname (p +:+ "/" +:+ x) =
    if Str.contains "/" x then p +:+ "/" +:+ dirname x else p.
Proof.
  induction p as [|c p IH].
  - change (EmptyString +:+ "/" +:+ x) with (String "/" x). cbn [dirname].
    by destruct (Str.contains "/" x).
  - rewrite app_String. cbn [dirname]. rewrite contains_app_slash, IH.
    by destruct (Str.contains "/" x).
Qed.

(** Ensuring the root of the view subtree creates nothing in the conf
    subtree. *)
Lemma ensure_view_root_keeps_conf ns d :
  ensure_chain (path_chain (view_path self)) ns !! _get_env_path self d
  = ns !! _get_env_path self d.
Proof.
  destruct (ensure_chain (path_chain (view_path self)) ns !! _get_env_path self d)
    as [n|] eqn:Hn.
  - apply ensure_chain_lookup_new in Hn as [Hn|(_ & Hin & _)]; [done|].
    exfalso. apply path_chain_fuel_prefix in Hin as [t Ht].
    revert Ht. unfold _get_env_path, _get_path_by_env, view_path, conf_path.
    rewrite join_pair. destruct (is_root d); rewrite ?app_assoc';
      intros Ht%app_inv_head; symmetry in Ht; by apply conf_views_distinct in Ht.
  - destruct (ns !! _get_env_path self d) as [n|] eqn:Hn'; [|done].
    by rewrite (ensure_chain_lookup_Some _ _ _ _ Hn') in Hn.
Qed.

(** The parent of the ConfigNode of an environment other than the root is
    the ConfigNode path of another environment. *)
Lemma dirname_env_path name e :
  Env_new name = Ok e → is_root e = false →
  dirname (_get_env_path self e) ≠ EmptyString ∧
  ∃ d, dirname (_get_env_path self e) = _get_env_path self d.
Proof.
  intros [[-> _]|(c & str & _ & _ & ->)]%Env_new_inv; [done|]. intros _.
  unfold _get_env_path, _get_path_by_env. cbn [is_root _empty env_str].
  rewrite join_pair, dirname_app.
  assert (∀ x, conf_path self +:+ x ≠ EmptyString) as Hne.
  { intros x H. apply (f_equal String.length) in H.
    unfold conf_path in H. rewrite !app_length' in H. simpl in H. lia. }
  destruct (Str.contains "/" (String c str)).
  - split; [apply Hne|]. by exists (mkEnv (dirname (String c str)) false).
  - split; [|by exists Env_Root].
    intros H. apply (Hne EmptyString). by rewrite app_empty_r'.
Qed.

(** Whatever its outcome, a view update keeps every node that exists other
    than the view node. *)
Lemma update_view_keeps_any e s r s' p n :
  _update_view self e s = (r, s') →
  nodes s !! p = Some n → p ≠ _get_view_path self e →
  nodes s' !! p = Some n.
Proof.
  intros Hrun Hp Hne. unfold _update_view in Hrun.
  set (dest := _get_view_path self e) in *.
  unfold bind at 1, zk_exists in Hrun.
  set (s1 := if bool_decide (is_Some (nodes s !! dest)) then s
             else with_nodes (ensure_chain (path_chain dest) (nodes s))
                             (sent (ReqEnsurePath dest) s)).
  assert (nodes s1 !! p = Some n) as Hp1.
  { subst s1. case_bool_decide; [done|]. simpl. by apply ensure_chain_lookup_Some. }
  assert (bind (_flatten_from_root self e) (λ data, _set dest (PyDict data) None) s1
          = (r, s')) as Hrest.
  { subst s1. revert Hrun. unfold bind at 1. case_bool_decide; simpl; done. }
  clear Hrun. unfold bind in Hrest.
  pose proof (flatten_from_root_state self e s1) as Hstate.
  destruct (_flatten_from_root self e s1) as [[data|err] s2];
    simpl in Hstate; subst s2; [|by injection Hrest as _ <-].
  unfold _set, zk_set in Hrest. simpl in Hrest.
  destruct (nodes s1 !! dest) as [m|]; [|by injection Hrest as _ <-].
  injection Hrest as _ <-. simpl. by rewrite lookup_insert_ne.
Qed.

End create.

Lemma update_view_requests_any `{lib : PyLib} self e s r s' :
  _update_view self e s = (r, s') → ∃ rest, requests s' = requests s ++ rest.
Proof.
  intros Hrun. unfold _update_view in Hrun.
  set (dest := _get_view_path self e) in *.
  unfold bind at 1, zk_exists in Hrun.
  set (s1 := if bool_decide (is_Some (nodes s !! dest)) then s
             else with_nodes (ensure_chain (path_chain dest) (nodes s))
                             (sent (ReqEnsurePath dest) s)).
  assert (∃ rest, requests s1 = requests s ++ rest) as [r1 Hr1].
  { subst s1. case_bool_decide; [exists []; by rewrite app_nil_r|]. simpl. eauto. }
  assert (bind (_flatten_from_root self e) (λ data, _set dest (PyDict data) None) s1
          = (r, s')) as Hrest.
  { subst s1. revert Hrun. unfold bind at 1. case_bool_decide; simpl; done. }
  clear Hrun. unfold bind in Hrest.
  pose proof (flatten_from_root_state self e s1) as Hstate.
  destruct (_flatten_from_root self e s1) as [[data|err] s2];
    simpl in Hstate; subst s2; [|injection Hrest as _ <-; eauto].
  unfold _set, zk_set in Hrest. simpl in Hrest.
  destruct (nodes s1 !! dest) as [m|]; injection Hrest as _ <-; simpl;
    rewrite Hr1, <- app_assoc; eauto.
Qed.

(** The parent of the ConfigNode of the root. *)
Section root_parent.
Context `{lib : PyLib} (self : Jones).
Implicit Types (s : zk) (ns : gmap string znode).

(** The parent of the ConfigNode of the root, and of the root of the view
    subtree, is the node of the service. *)
Lemma dirname_conf_path : dirname (conf_path self) = root self.
Proof. apply (dirname_app (root self) "conf"). Qed.

Lemma dirname_view_path : dirname (view_path self) = root self.
Proof. apply (dirname_app (root self) "views"). Qed.

Lemma path_chain_second c c' r d q :
  dirname (String c (String c' r)) = String d q →
  ∃ rest, path_chain (String c (String c' r))
          = String c (String c' r) :: String d q :: rest.
Proof.
  intros Hdir. unfold path_chain. cbn [String.length path_chain_fuel].
  rewrite Hdir. eexists. reflexivity.
Qed.

(** Ensuring the root of the view subtree, when it is missing, makes sure
    of the node of the service. *)
Lemma ensure_view_root_makes_service_node ns :
  ns !! view_path self = None →
  is_Some (ensure_chain (path_chain (view_path self)) ns !! root self).
Proof.
  intros Hview.
  assert (∃ r, view_path self = String "/" (String "s" r)) as [r Hr]
    by (unfold view_path, root; rewrite app_assoc'; eexists; reflexivity).
  assert (∃ q, root self = String "/" q) as [q Hq]
    by (unfold root; eexists; reflexivity).
  pose proof dirname_view_path as Hdir. rewrite Hr, Hq in Hdir.
  destruct (path_chain_second _ _ _ _ _ Hdir) as [rest Hchain].
  pose proof (app_nonempty_neq (root self) "views") as Hne.
  change (root self +:+ "/" +:+ "views") with (view_path self) in Hne.
  rewrite Hr, Hq in *. rewrite Hchain.
  cbn [ensure_chain]. rewrite Hview.
  rewrite lookup_insert_ne by done.
  apply ensure_chain_head.
Qed.

End root_parent.

(** C4, counterexample: on a fresh service, where the root has no
    ConfigNode yet, [create_config] of [prod] ensures the root of the view
    subtree and then sends the create of [conf/prod]; the parent [conf] is
    absent, the create fails with [NoNodeError] and no ConfigNode is
    written. *)
Lemma create_config_fails_on_missing_parent :
  create_config (lib := RefJson.lib) Scenario.svc (Scenario.env "prod")
                (PyDict Scenario.cfg_prod) Scenario.after_init
    = (Raise NoNodeError, Scenario.orphaned) ∧
  nodes Scenario.after_init !! "/services/svc/conf" = None ∧
  nodes Scenario.orphaned !! "/services/svc/conf/prod" = None ∧
  requests Scenario.orphaned
    = [ReqEnsurePath "/services/svc/nodemaps";
       ReqEnsurePath "/services/svc/views";
       ReqCreate "/services/svc/conf/prod" (js "{'region': 'na', 'timeout': 10}")] ∧
  ¬ create_config_makes_parents (lib := RefJson.lib).
Proof.
  assert (create_config (lib := RefJson.lib) Scenario.svc (Scenario.env "prod")
            (PyDict Scenario.cfg_prod) Scenario.after_init
          = (Raise NoNodeError, Scenario.orphaned)) as Hrun by (vm_compute; reflexivity).
  split_and!; [exact Hrun|vm_compute; reflexivity..|].
  intros Hclaim.
  destruct (Hclaim Scenario.svc (Some "prod") (Scenario.env "prod")
              (PyDict Scenario.cfg_prod) Scenario.after_init)
    as [Hok _]; [reflexivity|reflexivity|vm_compute; reflexivity|].
  apply Hok. by rewrite Hrun.
Qed.

(** C4, as amended: for a mapping [conf], [create_config(env, conf)]
    ensures one path before it writes, the root of the view subtree, and
    that creates no node of the conf subtree; then it sends the create of
    the ConfigNode.  Missing parents of [conf/<env>] are not created: when
    the parent of the ConfigNode of an environment other than the root is
    absent the create fails with [NoNodeError] and nothing but the view
    root has been made.  The parent of the ConfigNode of the root is the
    node of the service, which lies on the way to the view root: when the
    view root is missing, ensuring it makes the node of the service, and
    the ConfigNode of the root is then created even on a store that did not
    have its parent.  Whenever the parent exists and the ConfigNode does
    not, the ConfigNode is created with [conf] at version 0. *)
Theorem create_config_needs_parent `{lib : PyLib} self name E conf s :
  Env_new name = Ok E →
  is_mapping conf = true →
  let path := _get_env_path self E in
  let s1 := mkZk (ensure_chain (path_chain (view_path self)) (nodes s))
                 (requests s ++ [ReqEnsurePath (view_path self)]) in
  (∃ rest, requests (create_config self E conf s).2 =
             requests s ++ ReqEnsurePath (view_path self)
                        :: ReqCreate path (json_dumps conf) :: rest) ∧
  (∀ d, nodes s1 !! _get_env_path self d = nodes s !! _get_env_path self d) ∧
  (is_root E = false → nodes s !! dirname path = None →
     create_config self E conf s =
       (Raise NoNodeError,
        mkZk (nodes s1) (requests s1 ++ [ReqCreate path (json_dumps conf)]))) ∧
  (is_Some (nodes s !! dirname path) → nodes s !! path = None →
     nodes (create_config self E conf s).2 !! path = Some (mkZnode (json_dumps conf) 0)) ∧
  (is_root E = true →
     dirname path = root self ∧
     (nodes s !! view_path self = None → nodes s !! path = None →
        is_Some (nodes s1 !! dirname path) ∧
        nodes (create_config self E conf s).2 !! path
        = Some (mkZnode (json_dumps conf) 0))).
Proof.
  intros HE Hmap path s1.
  assert (∀ d, nodes s1 !! _get_env_path self d = nodes s !! _get_env_path self d) as Hconf.
  { intros d. apply ensure_view_root_keeps_conf. }
  assert (create_config self E conf s =
          bind (zk_create path (json_dumps conf)) (λ _, _update_view self E) s1) as Hunfold.
  { unfold create_config. by rewrite Hmap. }
  assert (is_Some (nodes s1 !! dirname path) → nodes s !! path = None →
          nodes (create_config self E conf s).2 !! path
          = Some (mkZnode (json_dumps conf) 0)) as Hcreated.
  { intros Hparent Habsent. rewrite Hunfold. unfold bind, zk_create.
    rewrite bool_decide_false.
    2:{ intros [_ Hnone]. rewrite Hnone in Hparent. by destruct Hparent. }
    assert (nodes s1 !! path = None) as -> by (unfold path; by rewrite Hconf).
    destruct (_update_view self E _) as [r s3] eqn:Hview.
    cbn [snd].
    eapply update_view_keeps_any; [exact Hview| |apply env_path_not_view_path].
    cbn [with_nodes nodes]. by rewrite lookup_insert_eq. }
  split_and!.
  - rewrite Hunfold. unfold bind, zk_create.
    assert (requests s1 = requests s ++ [ReqEnsurePath (view_path self)]) as Hreq by done.
    destruct (bool_decide _);
      [cbn [snd sent requests]; rewrite Hreq; exists []; by rewrite <- app_assoc|].
    destruct (nodes s1 !! path);
      [cbn [snd sent requests]; rewrite Hreq; exists []; by rewrite <- app_assoc|].
    destruct (_update_view self E _) as [r s3] eqn:Hview.
    apply update_view_requests_any in Hview as [rest Hrest].
    exists rest. cbn [snd]. rewrite Hrest. cbn [with_nodes sent requests].
    rewrite Hreq. by rewrite <- !app_assoc.
  - exact Hconf.
  - intros Hroot Hparent. rewrite Hunfold.
    destruct (dirname_env_path self name E HE Hroot) as (Hne & d & Hd).
    fold path in Hne, Hd.
    unfold bind, zk_create.
    rewrite bool_decide_true; [done|].
    split; [done|]. by rewrite Hd, Hconf, <- Hd.
  - intros [m Hparent] Habsent. apply Hcreated; [|exact Habsent].
    exists m. unfold s1. cbn [nodes]. by apply ensure_chain_lookup_Some.
  - intros Hroot.
    assert (dirname path = root self) as Hdir.
    { unfold path, _get_env_path, _get_path_by_env. rewrite Hroot.
      apply dirname_conf_path. }
    split; [exact Hdir|]. intros Hview Habsent.
    assert (is_Some (nodes s1 !! dirname path)) as Hparent.
    { rewrite Hdir. unfold s1. cbn [nodes].
      by apply ensure_view_root_makes_service_node. }
    split; [exact Hparent|]. by apply Hcreated.
Qed.

(** The theorem on [create_config(prod, conf)] on a fresh service, and on
    [create_config(root, conf)] after the service has been removed. *)
Lemma create_config_needs_parent_witness :
  let E := Scenario.env "prod" in
  Env_new (Some "prod") = Ok E ∧
  is_mapping (PyDict Scenario.cfg_prod) = true ∧
  nodes Scenario.after_init !! dirname (_get_env_path Scenario.svc E) = None ∧
  (create_config (lib := RefJson.lib) Scenario.svc E (PyDict Scenario.cfg_prod)
                 Scenario.after_init).1 = Raise NoNodeError ∧
  nodes Scenario.wiped !! dirname (_get_env_path Scenario.svc Env_Root) = None ∧
  nodes (create_config (lib := RefJson.lib) Scenario.svc Env_Root (PyDict Scenario.cfg_root)
           Scenario.wiped).2 !! _get_env_path Scenario.svc Env_Root
  = Some (mkZnode (js "{'timeout': 30}") 0).
Proof.
  intros E.
  assert (Env_new (Some "prod") = Ok E) as HE by reflexivity.
  assert (nodes Scenario.after_init !! dirname (_get_env_path Scenario.svc E) = None)
    as Hparent by (vm_compute; reflexivity).
  destruct (create_config_needs_parent (lib := RefJson.lib) Scenario.svc (Some "prod") E
              (PyDict Scenario.cfg_prod) Scenario.after_init HE eq_refl)
    as (_ & _ & Hfails & _).
  destruct (create_config_needs_parent (lib := RefJson.lib) Scenario.svc None Env_Root
              (PyDict Scenario.cfg_root) Scenario.wiped eq_refl eq_refl)
    as (_ & _ & _ & _ & Hroot).
  destruct (Hroot eq_refl) as [_ Hmade].
  split_and!; [exact HE|reflexivity|exact Hparent| |vm_compute; reflexivity|].
  - by rewrite (Hfails eq_refl Hparent).
  - apply Hmade; vm_compute; reflexivity.
Defined.

(* ===================================================================== *)
(** ** The association map *)
(* ===================================================================== *)

Section znodemap.
Context `{lib : PyLib}.
Implicit Types (self : ZNodeMap.t) (s : zk) (n : znode) (sep : string).

Lemma prefix_app_l sep a b :
  String.prefix sep a = true → String.prefix sep (a +:+ b) = true.
Proof. intros [t ->]%prefix_app. rewrite app_assoc'. apply prefix_app_true. Qed.

Lemma contains_app_l sep a b :
  Str.contains sep a = true → Str.contains sep (a +:+ b) = true.
Proof.
  induction a as [|c a IH].
  - cbn [Str.contains]. intros Hp. destruct sep; [|done].
    by destruct b.
  - rewrite app_String. cbn [Str.contains].
    intros [Hp|Hc]%orb_true_iff; apply orb_true_iff.
    + left. by apply (prefix_app_l sep (String c a) b).
    + right. by apply IH.
Qed.

Lemma contains_app_r sep a b :
  Str.contains sep b = true → Str.contains sep (a +:+ b) = true.
Proof.
  intros Hb. induction a as [|c a IH]; [done|].
  rewrite app_String. cbn [Str.contains]. rewrite IH. apply orb_true_r.
Qed.

Lemma contains_join sep d l x :
  x ∈ l → Str.contains sep x = true → Str.contains sep (Str.join d l) = true.
Proof.
  intros Hin Hx. induction l as [|y l IH]; [by apply elem_of_nil in Hin|].
  apply elem_of_cons in Hin as [<-|Hin].
  - destruct l as [|z l]; [done|].
    change (Str.join d (x :: z :: l)) with (x +:+ d +:+ Str.join d (z :: l)).
    by apply contains_app_l.
  - destruct l as [|z l]; [by apply elem_of_nil in Hin|].
    change (Str.join d (y :: z :: l)) with (y +:+ d +:+ Str.join d (z :: l)).
    apply contains_app_r, contains_app_r. by apply IH.
Qed.

(** A string that splits into two pieces or more contains the separator. *)
Lemma split_go_contains sep skip str :
  (2 ≤ List.length (Str.split_go sep skip str))%nat → Str.contains sep str = true.
Proof.
  revert skip. induction str as [|c str IH]; intros skip; [simpl; lia|].
  cbn [Str.split_go Str.contains]. destruct skip as [|k].
  - destruct (String.prefix sep (String c str)); [done|]. simpl.
    intros Hlen. apply (IH 0%nat).
    destruct (Str.split_go sep 0 str); simpl in *; lia.
  - intros Hlen. rewrite (IH k Hlen). apply orb_true_r.
Qed.

Lemma dict_of_pairs_total pairs acc :
  Forall (λ l : list string, List.length l = 2%nat) pairs →
  ∃ d, ZNodeMap.dict_of_pairs pairs acc = Ok d.
Proof.
  intros Hall. revert acc. induction Hall as [|l pairs Hl _ IH]; intros acc; [by eexists|].
  destruct l as [|k [|v [|]]]; try done. apply IH.
Qed.

(** A payload of the legacy pattern contains the separator, and the legacy
    parser accepts it. *)
Lemma legacy_pattern_read data :
  legacy_pattern data = true →
  data ≠ EmptyString ∧
  Str.contains ZNodeMap.OLD_SEPARATOR data = true ∧
  ∃ d, ZNodeMap._deserialize data = Ok d.
Proof.
  unfold legacy_pattern. intros [Hne Hall]%andb_true_iff.
  apply negb_true_iff, bool_decide_eq_false in Hne.
  rewrite forallb_forall in Hall. split_and!; [done| |].
  - pose proof (split_char_nonempty "010" data) as Hlines.
    pose proof (join_split_char "010" data) as Hjoin.
    fold newline in Hlines, Hjoin.
    destruct (Str.split newline data) as [|l lines] eqn:Hsplit; [done|].
    rewrite <- Hjoin. apply (contains_join _ _ _ l); [left|].
    apply (split_go_contains _ 0%nat).
    specialize (Hall l (or_introl eq_refl)).
    apply bool_decide_eq_true in Hall. unfold Str.split in Hall. lia.
  - unfold ZNodeMap._deserialize. case_bool_decide; [by eexists|].
    apply dict_of_pairs_total, Forall_fmap, Forall_forall.
    intros l Hl%list_elem_of_In. apply Hall in Hl.
    by apply bool_decide_eq_true in Hl.
Qed.

(** [_get] applies the reading policy to the payload of the node. *)
Lemma znodemap_get_policy self s n :
  nodes s !! ZNodeMap.path self = Some n →
  ZNodeMap._get self s
  = (result_map (λ v, (v, node_version n)) (read_policy (node_data n)), s).
Proof.
  intros Hn. unfold ZNodeMap._get, read_policy, bind at 1, zk_get. rewrite Hn.
  case_bool_decide; [done|].
  destruct (Str.contains ZNodeMap.OLD_SEPARATOR (node_data n)).
  - unfold ZNodeMap._get_old, bind, zk_get, lift, ret. rewrite Hn.
    by destruct (ZNodeMap._deserialize (node_data n)).
  - unfold bind, lift, ret. by destruct (json_loads (node_data n)).
Qed.

(** Reading leaves the store as it is. *)
Lemma znodemap_get_state self s : (ZNodeMap._get self s).2 = s.
Proof.
  destruct (nodes s !! ZNodeMap.path self) as [n|] eqn:Hn.
  - by rewrite (znodemap_get_policy _ _ _ Hn).
  - unfold ZNodeMap._get, bind, zk_get. by rewrite Hn.
Qed.

Lemma version_matches_refl v : version_matches v v = true.
Proof. unfold version_matches. rewrite (bool_decide_true (v = v)) by done. apply orb_true_r. Qed.

(** A write of the map: the structured form of the changed mapping, at
    the version that was read. *)
Lemma znodemap_write self s n zmap :
  nodes s !! ZNodeMap.path self = Some n →
  ZNodeMap._set self zmap (node_version n) s
  = (Ok tt,
     mkZk (<[ZNodeMap.path self := mkZnode (json_dumps zmap) (node_version n + 1)]> (nodes s))
          (requests s ++ [ReqSet (ZNodeMap.path self) (json_dumps zmap) (node_version n)])).
Proof.
  intros Hn. unfold ZNodeMap._set, zk_set. by rewrite Hn, version_matches_refl.
Qed.

Lemma znodemap_set_run self s n zmap name dest :
  nodes s !! ZNodeMap.path self = Some n →
  read_policy (node_data n) = Ok (PyDict zmap) →
  let zmap' := PyDict (<[KStr name := PyStr dest]> zmap) in
  ZNodeMap.set self name dest s
  = (Ok tt,
     mkZk (<[ZNodeMap.path self := mkZnode (json_dumps zmap') (node_version n + 1)]> (nodes s))
          (requests s ++ [ReqSet (ZNodeMap.path self) (json_dumps zmap') (node_version n)])).
Proof.
  intros Hn Hread zmap'. unfold ZNodeMap.set.
  erewrite bind_Ok by (rewrite (znodemap_get_policy _ _ _ Hn), Hread; reflexivity).
  unfold bind, lift. cbn [ZNodeMap.setitem]. by apply znodemap_write.
Qed.

Lemma znodemap_set_inv self s n name dest s' :
  nodes s !! ZNodeMap.path self = Some n →
  ZNodeMap.set self name dest s = (Ok tt, s') →
  ∃ zmap, read_policy (node_data n) = Ok (PyDict zmap) ∧
    let zmap' := PyDict (<[KStr name := PyStr dest]> zmap) in
    s' = mkZk (<[ZNodeMap.path self := mkZnode (json_dumps zmap') (node_version n + 1)]> (nodes s))
              (requests s ++ [ReqSet (ZNodeMap.path self) (json_dumps zmap') (node_version n)]).
Proof.
  intros Hn Hrun. unfold ZNodeMap.set in Hrun.
  apply bind_Ok_inv in Hrun as ([zmap version] & s1 & Hget & Hrun).
  rewrite (znodemap_get_policy _ _ _ Hn) in Hget.
  destruct (read_policy (node_data n)) as [v|] eqn:Hread; [|done].
  injection Hget as <- <- <-.
  apply bind_Ok_inv in Hrun as (zmap' & s1 & Hitem & Hrun).
  unfold lift in Hitem. injection Hitem as Hitem <-.
  destruct v as [| | | | |zmap]; try done.
  injection Hitem as <-. exists zmap. split; [done|].
  rewrite (znodemap_write _ _ _ _ Hn) in Hrun. by injection Hrun as <-.
Qed.

Lemma znodemap_delete_inv self s n name s' :
  nodes s !! ZNodeMap.path self = Some n →
  ZNodeMap.delete self name s = (Ok tt, s') →
  ∃ zmap, read_policy (node_data n) = Ok (PyDict zmap) ∧
    is_Some (zmap !! KStr name) ∧
    let zmap' := PyDict (delete (KStr name) zmap) in
    s' = mkZk (<[ZNodeMap.path self := mkZnode (json_dumps zmap') (node_version n + 1)]> (nodes s))
              (requests s ++ [ReqSet (ZNodeMap.path self) (json_dumps zmap') (node_version n)]).
Proof.
  intros Hn Hrun. unfold ZNodeMap.delete in Hrun.
  apply bind_Ok_inv in Hrun as ([zmap version] & s1 & Hget & Hrun).
  rewrite (znodemap_get_policy _ _ _ Hn) in Hget.
  destruct (read_policy (node_data n)) as [v|] eqn:Hread; [|done].
  injection Hget as <- <- <-.
  apply bind_Ok_inv in Hrun as (zmap' & s1 & Hitem & Hrun).
  unfold lift in Hitem. injection Hitem as Hitem <-.
  destruct v as [| | | | |zmap]; try done. cbn [ZNodeMap.delitem] in Hitem.
  destruct (zmap !! KStr name) as [v|] eqn:Hname; [|done].
  injection Hitem as <-. exists zmap. split_and!; [done|by eexists|].
  rewrite (znodemap_write _ _ _ _ Hn) in Hrun. by injection Hrun as <-.
Qed.

Lemma znodemap_get_all_state self s : (ZNodeMap.get_all self s).2 = s.
Proof.
  unfold ZNodeMap.get_all, bind. pose proof (znodemap_get_state self s) as Hs.
  by destruct (ZNodeMap._get self s) as [[[zmap v]|e] s1].
Qed.

Lemma znodemap_get_name_state self name s : (ZNodeMap.get self name s).2 = s.
Proof.
  unfold ZNodeMap.get, bind. pose proof (znodemap_get_all_state self s) as Hs.
  destruct (ZNodeMap.get_all self s) as [[zmap|e] s1]; [|done].
  unfold lift. by simpl in *.
Qed.

End znodemap.

Lemma legacy_example_read `{lib : PyLib} :
  legacy_pattern Scenario.legacy_payload = true ∧
  read_policy Scenario.legacy_payload
  = Ok (PyDict (<[KStr "a" := PyStr "b"]> {[KStr "c" := PyStr "d"]})).
Proof. split; vm_compute; reflexivity. Qed.

(** C7, counterexample: two payloads that are structured data, do not match
    the legacy pattern, and are nevertheless handed to the legacy parser
    because the separator occurs in them.  The first is what [assoc_host]
    itself writes for a host name with two separators; the second is the
    structured form with one entry per line, whose first line holds no
    separator at all.  Reading either fails with [ValueError]. *)
Lemma association_map_read_by_substring :
  let written := js "{'web -> 1 -> a': '/services/svc/views/prod'}" in
  nodes Scenario.associated_arrows !! "/services/svc/nodemaps" = Some (mkZnode written 1) ∧
  legacy_pattern written = false ∧
  RefJson.loads written
    = Ok (PyDict {[KStr "web -> 1 -> a" := PyStr "/services/svc/views/prod"]}) ∧
  ZNodeMap._get (lib := RefJson.lib) (associations Scenario.svc) Scenario.associated_arrows
    = (Raise ValueError, Scenario.associated_arrows) ∧
  nodes Scenario.indented !! "/services/svc/nodemaps"
    = Some (mkZnode Scenario.indented_payload 3) ∧
  legacy_pattern Scenario.indented_payload = false ∧
  RefJson.loads Scenario.indented_payload
    = Ok (PyDict {[KStr "web -> 1" := PyStr "/services/svc/views/prod"]}) ∧
  ZNodeMap._get (lib := RefJson.lib) (associations Scenario.svc) Scenario.indented
    = (Raise ValueError, Scenario.indented) ∧
  ¬ reads_follow_legacy_pattern (lib := RefJson.lib).
Proof.
  intros written.
  assert (ZNodeMap._get (lib := RefJson.lib) (associations Scenario.svc) Scenario.indented
          = (Raise ValueError, Scenario.indented)) as Hget by (vm_compute; reflexivity).
  split_and!; [vm_compute; reflexivity..|exact Hget|].
  intros Hclaim.
  specialize (Hclaim (associations Scenario.svc) Scenario.indented
                (mkZnode Scenario.indented_payload 3)).
  rewrite Hget in Hclaim.
  assert (read_policy_as_worded (lib := RefJson.lib) Scenario.indented_payload
          = Ok (PyDict {[KStr "web -> 1" := PyStr "/services/svc/views/prod"]})) as Hworded
    by (vm_compute; reflexivity).
  cbn [node_data] in Hclaim. rewrite Hworded in Hclaim.
  discriminate Hclaim. vm_compute. reflexivity.
Qed.

(** C7, as amended: a read of the association map decodes the empty
    payload as the empty map, a payload of the legacy pattern with the
    legacy parser (which accepts it; ["a -> b\nc -> d"] gives
    [{a: b, c: d}]), and a non-empty payload in which the legacy separator
    does not occur as structured data.  Every successful [set] or [delete]
    writes the structured form of the changed mapping at the version that
    was read, so the first modification migrates a legacy node; [get] and
    [get_all] never write. *)
Theorem association_map_read_write `{lib : PyLib} self s n :
  nodes s !! ZNodeMap.path self = Some n →
  let data := node_data n in
  let version := node_version n in
  let path := ZNodeMap.path self in
  ZNodeMap._get self s = (result_map (λ v, (v, version)) (read_policy data), s) ∧
  (data = EmptyString → read_policy data = Ok (PyDict ∅)) ∧
  (legacy_pattern data = true →
     ∃ d, read_policy data = Ok (PyDict d) ∧ ZNodeMap._deserialize data = Ok d) ∧
  (legacy_pattern Scenario.legacy_payload = true ∧
   read_policy Scenario.legacy_payload
   = Ok (PyDict (<[KStr "a" := PyStr "b"]> {[KStr "c" := PyStr "d"]}))) ∧
  (data ≠ EmptyString → Str.contains ZNodeMap.OLD_SEPARATOR data = false →
     read_policy data = json_loads data) ∧
  (∀ name dest s', ZNodeMap.set self name dest s = (Ok tt, s') →
     ∃ zmap, read_policy data = Ok (PyDict zmap) ∧
       let zmap' := PyDict (<[KStr name := PyStr dest]> zmap) in
       s' = mkZk (<[path := mkZnode (json_dumps zmap') (version + 1)]> (nodes s))
                 (requests s ++ [ReqSet path (json_dumps zmap') version])) ∧
  (∀ name s', ZNodeMap.delete self name s = (Ok tt, s') →
     ∃ zmap, read_policy data = Ok (PyDict zmap) ∧ is_Some (zmap !! KStr name) ∧
       let zmap' := PyDict (delete (KStr name) zmap) in
       s' = mkZk (<[path := mkZnode (json_dumps zmap') (version + 1)]> (nodes s))
                 (requests s ++ [ReqSet path (json_dumps zmap') version])) ∧
  (∀ name, (ZNodeMap.get self name s).2 = s) ∧
  (ZNodeMap.get_all self s).2 = s.
Proof.
  intros Hn data version path.
  assert (∀ d : string, d ≠ EmptyString → String.length d ≠ 0%nat) as Hlen
    by (by intros [|c d]).
  split_and!.
  - by apply znodemap_get_policy.
  - intros Hdata. unfold read_policy. by rewrite Hdata.
  - intros (Hdata & Hsep & d & Hd)%legacy_pattern_read. exists d. split; [|done].
    unfold read_policy. by rewrite bool_decide_false, Hsep, Hd by by apply Hlen.
  - apply legacy_example_read.
  - apply legacy_example_read.
  - intros Hdata Hsep. unfold read_policy.
    by rewrite bool_decide_false, Hsep by by apply Hlen.
  - intros name dest s' Hset. by eapply znodemap_set_inv.
  - intros name s' Hdel. by eapply znodemap_delete_inv.
  - intros name. apply znodemap_get_name_state.
  - apply znodemap_get_all_state.
Qed.

(** The theorem on a legacy node. *)
Lemma association_map_read_write_witness :
  nodes Scenario.legacy !! ZNodeMap.path (associations Scenario.svc)
    = Some (mkZnode Scenario.legacy_payload 7) ∧
  ZNodeMap._get (lib := RefJson.lib) (associations Scenario.svc) Scenario.legacy
    = (result_map (λ v, (v, 7)) (read_policy (lib := RefJson.lib) Scenario.legacy_payload),
       Scenario.legacy).
Proof.
  assert (nodes Scenario.legacy !! ZNodeMap.path (associations Scenario.svc)
          = Some (mkZnode Scenario.legacy_payload 7)) as Hn by (vm_compute; reflexivity).
  split; [exact Hn|].
  apply (association_map_read_write (lib := RefJson.lib)
           (associations Scenario.svc) Scenario.legacy _ Hn).
Defined.

(* ===================================================================== *)
(** ** Associations of the root *)
(* ===================================================================== *)

(** C9: [assoc_host(h, root)] is the map's [set(h, view_path)] and nothing
    else; no check precedes it, so it succeeds whenever the association
    map can be read as a mapping, and leaves [h] mapped to the root of the
    view subtree in the node.  [get_associations(root)] returns [None]
    without reading the store, and for every other environment the hosts it
    returns are those mapped to a path strictly below the view root: in no
    store whose map sends [h] to the view root does [get_associations]
    return [h]. *)
Theorem assoc_host_root_is_unobservable `{lib : PyLib} self h s :
  assoc_host self h Env_Root s = ZNodeMap.set (associations self) h (view_path self) s ∧
  (∀ n zmap,
     nodes s !! ZNodeMap.path (associations self) = Some n →
     read_policy (node_data n) = Ok (PyDict zmap) →
     let zmap' := PyDict (<[KStr h := PyStr (view_path self)]> zmap) in
     assoc_host self h Env_Root s =
       (Ok tt,
        mkZk (<[ZNodeMap.path (associations self) :=
                  mkZnode (json_dumps zmap') (node_version n + 1)]> (nodes s))
             (requests s ++ [ReqSet (ZNodeMap.path (associations self))
                                    (json_dumps zmap') (node_version n)]))) ∧
  (∀ s2, get_associations self Env_Root s2 = (Ok None, s2)) ∧
  (∀ e s2 zmap hosts,
     (ZNodeMap.get_all (associations self) s2).1 = Ok (PyDict zmap) →
     zmap !! KStr h = Some (PyStr (view_path self)) →
     (get_associations self e s2).1 = Ok (Some hosts) →
     PyStr h ∉ hosts).
Proof.
  split_and!.
  - done.
  - intros n zmap Hn Hread zmap'. unfold assoc_host.
    by apply znodemap_set_run.
  - done.
  - intros e s2 zmap hosts Hall Hh Hget Hin.
    unfold get_associations in Hget.
    destruct (is_root e) eqn:Hroot; [done|].
    unfold bind in Hget.
    destruct (ZNodeMap.get_all (associations self) s2) as [[v|err] s3]; [|done].
    simpl in Hall. injection Hall as ->.
    unfold lift, hosts_of, ret in Hget. simpl in Hget. injection Hget as <-.
    apply list_elem_of_fmap in Hin as ([k v] & Hk & Hkv).
    apply list_elem_of_filter in Hkv as [Heq Hkv].
    apply elem_of_map_to_list in Hkv. simpl in Hk, Heq.
    destruct k as [k|k]; [|done]. injection Hk as ->.
    rewrite Hh in Hkv. injection Hkv as <-.
    simpl in Heq. apply bool_decide_eq_true in Heq.
    unfold _get_view_path, _get_path_by_env in Heq. rewrite Hroot, join_pair in Heq.
    by apply app_nonempty_neq in Heq.
Qed.

(** The theorem on [assoc_host(h1, root)] in the scenario. *)
Lemma assoc_host_root_is_unobservable_witness :
  nodes Scenario.configured !! ZNodeMap.path (associations Scenario.svc)
    = Some (mkZnode EmptyString 0) ∧
  assoc_host (lib := RefJson.lib) Scenario.svc "h1" Env_Root Scenario.configured
    = (Ok tt, Scenario.associated_root) ∧
  nodes Scenario.associated_root !! "/services/svc/nodemaps"
    = Some (mkZnode (js "{'h1': '/services/svc/views'}") 1) ∧
  get_associations (lib := RefJson.lib) Scenario.svc Env_Root Scenario.associated_root
    = (Ok None, Scenario.associated_root) ∧
  get_associations (lib := RefJson.lib) Scenario.svc (Scenario.env "prod")
                   Scenario.associated_root
    = (Ok (Some []), Scenario.associated_root).
Proof.
  assert (nodes Scenario.configured !! ZNodeMap.path (associations Scenario.svc)
          = Some (mkZnode EmptyString 0)) as Hn by (vm_compute; reflexivity).
  destruct (assoc_host_root_is_unobservable (lib := RefJson.lib)
              Scenario.svc "h1" Scenario.configured) as (_ & Hrun & Hroot & _).
  specialize (Hrun _ ∅ Hn eq_refl).
  split_and!; [exact Hn| |vm_compute; reflexivity|apply Hroot|vm_compute; reflexivity].
  rewrite Hrun. vm_compute. reflexivity.
Defined.

(* ===================================================================== *)
(** * Further properties of the code *)
(* ===================================================================== *)

(** ** Environments and the layout of the store *)

(** X1: [Env(name)] raises, and then an [AssertionError], exactly when
    [name] starts with the separator.  Otherwise the value holds the name
    as given ([None] as the empty string), its root flag says whether that
    string is empty, the string has no leading separator, and the value is
    the root exactly for [None] and the empty name. *)
Theorem Env_new_refuses_leading_separator name :
  (Env_new name = Raise AssertionError ↔ ∃ s, name = Some (String "/" s)) ∧
  (∀ err, Env_new name = Raise err → err = AssertionError) ∧
  (∀ e, Env_new name = Ok e →
     env_str e = default EmptyString name ∧
     (is_root e = true ↔ env_str e = EmptyString) ∧
     String.prefix "/" (env_str e) = false ∧
     (e = Env_Root ↔ name = None ∨ name = Some EmptyString)).
Proof.
  destruct name as [[|c s]|]; simpl.
  - split_and!; [split; [done|by intros [? [=]]]|done|].
    intros e [= <-]. split_and!; [done|done|done|]. split; eauto.
  - destruct (Ascii.eqb c "/") eqn:Hc.
    + apply Ascii.eqb_eq in Hc as ->.
      split_and!; [split; eauto|by intros ? [= <-]|done].
    + split_and!; [split; [done|]|done|].
      * intros [s' [= -> _]]. by rewrite Ascii.eqb_refl in Hc.
      * intros e [= <-]. cbn [env_str is_root _empty default].
        split_and!; [done|split; discriminate| |].
        -- rewrite prefix_char. exact Hc.
        -- split; [discriminate|]. by intros [|].
  - split_and!; [split; [done|by intros [? [=]]]|done|].
    intros e [= <-]. split_and!; [done|done|done|]. split; eauto.
Qed.

(** X2: the layout has no collisions.  Two constructed environments with
    the same conf path, or the same view path, are the same environment; a
    conf path is never a view path; neither is the path of the association
    map; and every such path lies below the root path of the service. *)
Theorem layout_has_no_collisions self name1 name2 e d :
  Env_new name1 = Ok e → Env_new name2 = Ok d →
  (_get_env_path self e = _get_env_path self d → e = d) ∧
  (_get_view_path self e = _get_view_path self d → e = d) ∧
  _get_env_path self e ≠ _get_view_path self d ∧
  _get_env_path self e ≠ ZNodeMap.path (associations self) ∧
  _get_view_path self e ≠ ZNodeMap.path (associations self) ∧
  below (root self) (_get_env_path self e) = true ∧
  below (root self) (_get_view_path self e) = true ∧
  below (root self) (ZNodeMap.path (associations self)) = true.
Proof.
  intros He Hd.
  assert (∀ x y, "/conf" +:+ x ≠ "/nodemaps" +:+ y) as Hconf
    by (intros x y H; cbv [String.append] in H; discriminate).
  assert (∀ x y, "/views" +:+ x ≠ "/nodemaps" +:+ y) as Hview
    by (intros x y H; cbv [String.append] in H; discriminate).
  change (ZNodeMap.path (associations self)) with (root self +:+ "/nodemaps").
  split_and!.
  - by apply (path_by_env_inj _ _ _ _ _ He Hd).
  - by apply (path_by_env_inj _ _ _ _ _ He Hd).
  - apply env_path_not_view_path.
  - unfold _get_env_path, _get_path_by_env, conf_path. rewrite join_pair.
    destruct (is_root e); rewrite ?app_assoc'; intros H%app_inv_head.
    + by apply (Hconf EmptyString EmptyString).
    + by apply (Hconf ("/" +:+ env_str e) EmptyString).
  - unfold _get_view_path, _get_path_by_env, view_path. rewrite join_pair.
    destruct (is_root e); rewrite ?app_assoc'; intros H%app_inv_head.
    + by apply (Hview EmptyString EmptyString).
    + by apply (Hview ("/" +:+ env_str e) EmptyString).
  - unfold _get_env_path, _get_path_by_env, conf_path. rewrite join_pair.
    destruct (is_root e); rewrite ?app_assoc'.
    + apply (below_app_true (root self) "conf").
    + apply (below_app_true (root self) ("conf" +:+ "/" +:+ env_str e)).
  - unfold _get_view_path, _get_path_by_env, view_path. rewrite join_pair.
    destruct (is_root e); rewrite ?app_assoc'.
    + apply (below_app_true (root self) "views").
    + apply (below_app_true (root self) ("views" +:+ "/" +:+ env_str e)).
  - apply (below_app_true (root self) "nodemaps").
Qed.

(** The theorem on [prod] and [prod/us]. *)
Lemma layout_has_no_collisions_witness :
  Env_new (Some "prod") = Ok (Scenario.env "prod") ∧
  Env_new (Some "prod/us") = Ok (Scenario.env "prod/us") ∧
  _get_env_path Scenario.svc (Scenario.env "prod")
    ≠ _get_view_path Scenario.svc (Scenario.env "prod/us") ∧
  below (root Scenario.svc) (_get_view_path Scenario.svc (Scenario.env "prod")) = true.
Proof.
  destruct (layout_has_no_collisions Scenario.svc (Some "prod") (Some "prod/us")
              (Scenario.env "prod") (Scenario.env "prod/us") eq_refl eq_refl)
    as (_ & _ & Hne & _ & _ & _ & Hbelow & _).
  split_and!; [reflexivity|reflexivity|exact Hne|exact Hbelow].
Defined.

(** ** The association map: round trips and missing names *)

Section association.
Context `{lib : PyLib}.
Implicit Types (self : ZNodeMap.t) (s : zk) (n : znode) (zmap : pydict).

Lemma reads_back_policy v : reads_back v → read_policy (json_dumps v) = Ok v.
Proof.
  intros (Hne & Hsep & Hloads). unfold read_policy.
  rewrite bool_decide_false, Hsep; [done|].
  by destruct (json_dumps v).
Qed.

Lemma znodemap_get_all_run self s n v :
  nodes s !! ZNodeMap.path self = Some n →
  read_policy (node_data n) = Ok v →
  ZNodeMap.get_all self s = (Ok v, s).
Proof.
  intros Hn Hread. unfold ZNodeMap.get_all.
  by erewrite bind_Ok by (rewrite (znodemap_get_policy _ _ _ Hn), Hread; reflexivity).
Qed.

Lemma znodemap_get_run self s n v name :
  nodes s !! ZNodeMap.path self = Some n →
  read_policy (node_data n) = Ok v →
  ZNodeMap.get self name s = (ZNodeMap.getitem v name, s).
Proof.
  intros Hn Hread. unfold ZNodeMap.get.
  by erewrite bind_Ok by (by eapply znodemap_get_all_run).
Qed.

Lemma znodemap_delete_run self s n zmap name :
  nodes s !! ZNodeMap.path self = Some n →
  read_policy (node_data n) = Ok (PyDict zmap) →
  is_Some (zmap !! KStr name) →
  let zmap' := PyDict (delete (KStr name) zmap) in
  ZNodeMap.delete self name s
  = (Ok tt,
     mkZk (<[ZNodeMap.path self := mkZnode (json_dumps zmap') (node_version n + 1)]> (nodes s))
          (requests s ++ [ReqSet (ZNodeMap.path self) (json_dumps zmap') (node_version n)])).
Proof.
  intros Hn Hread [v Hv] zmap'. unfold ZNodeMap.delete.
  erewrite bind_Ok by (rewrite (znodemap_get_policy _ _ _ Hn), Hread; reflexivity).
  unfold bind, lift. cbn [ZNodeMap.delitem]. rewrite Hv. by apply znodemap_write.
Qed.

Lemma get_fst_nodes path s s' :
  nodes s' !! path = nodes s !! path → (_get path s').1 = (_get path s).1.
Proof.
  intros H. unfold _get, bind, zk_get. rewrite H.
  destruct (nodes s !! path) as [m|]; [|done].
  unfold lift. by destruct (json_loads (node_data m)).
Qed.

Lemma get_view_state (self : Jones) e s : (get_view_by_env self e s).2 = s.
Proof.
  unfold get_view_by_env, bind.
  pose proof (get_state (_get_view_path self e) s) as Hst.
  by destruct (_get (_get_view_path self e) s) as [[[ver v]|err] s1].
Qed.

Lemma get_view_fst_nodes (self : Jones) e s s' :
  nodes s' !! _get_view_path self e = nodes s !! _get_view_path self e →
  (get_view_by_env self e s').1 = (get_view_by_env self e s).1.
Proof.
  intros H%get_fst_nodes. unfold get_view_by_env, bind.
  destruct (_get (_get_view_path self e) s') as [[[ver v]|err] s1],
           (_get (_get_view_path self e) s) as [[[ver2 v2]|err2] s2];
    simpl in *; congruence.
Qed.

Lemma znodemap_get_missing_node self s :
  nodes s !! ZNodeMap.path self = None →
  ZNodeMap._get self s = (Raise NoNodeError, s).
Proof. intros Hn. unfold ZNodeMap._get, bind, zk_get. by rewrite Hn. Qed.

(** X3: a [set] on a map that reads as a mapping succeeds, and when the
    structured form of the changed mapping reads back, [get] of the name
    then gives the destination, [get_all] gives the changed mapping, [get]
    of every other name answers as before the [set], and no node other than
    the map's is touched. *)
Theorem znodemap_set_then_get self s n zmap name dest :
  nodes s !! ZNodeMap.path self = Some n →
  read_policy (node_data n) = Ok (PyDict zmap) →
  reads_back (PyDict (<[KStr name := PyStr dest]> zmap)) →
  ∃ s', ZNodeMap.set self name dest s = (Ok tt, s') ∧
    ZNodeMap.get self name s' = (Ok (PyStr dest), s') ∧
    ZNodeMap.get_all self s' = (Ok (PyDict (<[KStr name := PyStr dest]> zmap)), s') ∧
    (∀ other, other ≠ name →
       (ZNodeMap.get self other s').1 = (ZNodeMap.get self other s).1) ∧
    (∀ p, p ≠ ZNodeMap.path self → nodes s' !! p = nodes s !! p).
Proof.
  intros Hn Hread Hback%reads_back_policy.
  eexists. split; [by apply znodemap_set_run|].
  set (n' := mkZnode _ _). set (s' := mkZk _ _).
  assert (nodes s' !! ZNodeMap.path self = Some n') as Hn' by apply lookup_insert_eq.
  split_and!.
  - rewrite (znodemap_get_run _ _ _ _ _ Hn' Hback). cbn [ZNodeMap.getitem].
    by rewrite lookup_insert_eq.
  - by apply (znodemap_get_all_run _ _ _ _ Hn' Hback).
  - intros other Hne.
    rewrite (znodemap_get_run _ _ _ _ _ Hn' Hback), (znodemap_get_run _ _ _ _ _ Hn Hread).
    cbn [fst ZNodeMap.getitem]. rewrite lookup_insert_ne; [done|congruence].
  - intros p Hp. subst s'. cbn [nodes]. by rewrite lookup_insert_ne.
Qed.

End association.

Section hosts.
Context `{lib : PyLib}.
Implicit Types (self : Jones) (amap : ZNodeMap.t) (s : zk) (e d : Env) (zmap : pydict).

(** X4: on a map that reads as a mapping without the name, [get] and
    [delete] raise [KeyError], and so do [get_config] and
    [delete_association] for that host; nothing is written and no request
    is sent.  When the map's node is missing, every operation on the map
    raises [NoNodeError]: the reads leave the store as it is, and the
    writes do not get as far as a request. *)
Theorem missing_association_is_a_key_error self host s :
  let amap := associations self in
  (∀ n zmap,
     nodes s !! ZNodeMap.path amap = Some n →
     read_policy (node_data n) = Ok (PyDict zmap) →
     zmap !! KStr host = None →
     ZNodeMap.get amap host s = (Raise KeyError, s) ∧
     ZNodeMap.delete amap host s = (Raise KeyError, s) ∧
     get_config self host s = (Raise KeyError, s) ∧
     delete_association self host s = (Raise KeyError, s)) ∧
  (nodes s !! ZNodeMap.path amap = None →
     ZNodeMap.get_all amap s = (Raise NoNodeError, s) ∧
     ZNodeMap.get amap host s = (Raise NoNodeError, s) ∧
     get_config self host s = (Raise NoNodeError, s) ∧
     (∀ e, assoc_host self host e s = (Raise NoNodeError, s)) ∧
     delete_association self host s = (Raise NoNodeError, s)).
Proof.
  intros amap. split.
  - intros n zmap Hn Hread Hhost.
    assert (ZNodeMap.get amap host s = (Raise KeyError, s)) as Hget.
    { rewrite (znodemap_get_run _ _ _ _ _ Hn Hread). cbn [ZNodeMap.getitem].
      by rewrite Hhost. }
    assert (ZNodeMap.delete amap host s = (Raise KeyError, s)) as Hdel.
    { unfold ZNodeMap.delete.
      erewrite bind_Ok by (rewrite (znodemap_get_policy _ _ _ Hn), Hread; reflexivity).
      unfold bind, lift. cbn [ZNodeMap.delitem]. by rewrite Hhost. }
    split_and!; [done|done| |done].
    unfold get_config. by erewrite bind_Raise by exact Hget.
  - intros Hn. pose proof (znodemap_get_missing_node _ _ Hn) as Hget.
    assert (ZNodeMap.get_all amap s = (Raise NoNodeError, s)) as Hall
      by (unfold ZNodeMap.get_all; by erewrite bind_Raise by exact Hget).
    assert (ZNodeMap.get amap host s = (Raise NoNodeError, s)) as Hname
      by (unfold ZNodeMap.get; by erewrite bind_Raise by exact Hall).
    split_and!; [done|done| | |].
    + unfold get_config. by erewrite bind_Raise by exact Hname.
    + intros e. unfold assoc_host, ZNodeMap.set. by erewrite bind_Raise by exact Hget.
    + unfold delete_association, ZNodeMap.delete. by erewrite bind_Raise by exact Hget.
Qed.

(** X5: a [delete_association] of a host the map holds succeeds, and when
    the structured form of the remaining mapping reads back, the map then
    is the mapping without the host, [get_config] of the host raises
    [KeyError], a second [delete_association] raises [KeyError] and leaves
    the store alone, and the other hosts keep their destinations. *)
Theorem delete_association_forgets_host self host s n zmap :
  let amap := associations self in
  nodes s !! ZNodeMap.path amap = Some n →
  read_policy (node_data n) = Ok (PyDict zmap) →
  is_Some (zmap !! KStr host) →
  reads_back (PyDict (delete (KStr host) zmap)) →
  ∃ s', delete_association self host s = (Ok tt, s') ∧
    ZNodeMap.get_all amap s' = (Ok (PyDict (delete (KStr host) zmap)), s') ∧
    get_config self host s' = (Raise KeyError, s') ∧
    delete_association self host s' = (Raise KeyError, s') ∧
    (∀ other, other ≠ host →
       (ZNodeMap.get amap other s').1 = (ZNodeMap.get amap other s).1) ∧
    (∀ p, p ≠ ZNodeMap.path amap → nodes s' !! p = nodes s !! p).
Proof.
  intros amap Hn Hread Hhost Hback%reads_back_policy.
  eexists. split; [by apply znodemap_delete_run|].
  set (n' := mkZnode _ _). set (s' := mkZk _ _).
  assert (nodes s' !! ZNodeMap.path amap = Some n') as Hn' by apply lookup_insert_eq.
  assert (ZNodeMap.get amap host s' = (Raise KeyError, s')) as Hget.
  { rewrite (znodemap_get_run _ _ _ _ _ Hn' Hback). cbn [ZNodeMap.getitem].
    by rewrite lookup_delete_eq. }
  split_and!.
  - by apply (znodemap_get_all_run _ _ _ _ Hn' Hback).
  - unfold get_config. by erewrite bind_Raise by exact Hget.
  - unfold delete_association, ZNodeMap.delete.
    erewrite bind_Ok by (rewrite (znodemap_get_policy _ _ _ Hn'); fold amap;
                         subst n'; cbn [node_data]; rewrite Hback; reflexivity).
    unfold bind, lift. cbn [ZNodeMap.delitem]. by rewrite lookup_delete_eq.
  - intros other Hne.
    rewrite (znodemap_get_run _ _ _ _ _ Hn' Hback), (znodemap_get_run _ _ _ _ _ Hn Hread).
    cbn [fst ZNodeMap.getitem]. rewrite lookup_delete_ne; [done|congruence].
  - intros p Hp. subst s'. cbn [nodes]. by rewrite lookup_insert_ne.
Qed.

(** X6: after [assoc_host(host, env)] on a map that reads as a mapping,
    and when the structured form of the changed mapping reads back,
    [get_config(host)] is [get_view_by_env(env)]: the same result on the
    same store, and, the view node not being touched by the association,
    the result [get_view_by_env(env)] had before the call.  The
    association does not look at the environment: when its view node is
    missing the call succeeds all the same, and [get_config(host)] then
    raises [NoNodeError]. *)
Theorem assoc_host_then_get_config self host e s n zmap :
  let amap := associations self in
  let dest := _get_view_path self e in
  nodes s !! ZNodeMap.path amap = Some n →
  read_policy (node_data n) = Ok (PyDict zmap) →
  reads_back (PyDict (<[KStr host := PyStr dest]> zmap)) →
  ∃ s', assoc_host self host e s = (Ok tt, s') ∧
    get_config self host s' = get_view_by_env self e s' ∧
    (get_config self host s').1 = (get_view_by_env self e s).1 ∧
    (get_config self host s').2 = s' ∧
    (nodes s !! dest = None → get_config self host s' = (Raise NoNodeError, s')).
Proof.
  intros amap dest Hn Hread Hback%reads_back_policy.
  eexists. split; [by apply znodemap_set_run|].
  set (n' := mkZnode _ _). set (s' := mkZk _ _).
  assert (nodes s' !! ZNodeMap.path amap = Some n') as Hn' by apply lookup_insert_eq.
  assert (get_config self host s' = get_view_by_env self e s') as Heq.
  { unfold get_config.
    rewrite (bind_Ok _ _ s' (PyStr dest) s'); [reflexivity|].
    rewrite (znodemap_get_run _ _ _ _ _ Hn' Hback). cbn [ZNodeMap.getitem].
    by rewrite lookup_insert_eq. }
  assert (nodes s' !! dest = nodes s !! dest) as Hsame.
  { subst s'. cbn [nodes]. apply lookup_insert_ne. intros H.
    unfold amap, dest, _get_view_path, _get_path_by_env, view_path in H.
    change (ZNodeMap.path (associations self)) with (root self +:+ "/nodemaps") in H.
    rewrite join_pair in H. destruct (is_root e); rewrite ?app_assoc' in H;
      apply app_inv_head in H; cbv [String.append] in H; discriminate. }
  split_and!; [done| | |].
  - rewrite Heq. by apply get_view_fst_nodes.
  - rewrite Heq. apply get_view_state.
  - intros Hnone. rewrite Heq. unfold get_view_by_env, bind, _get, bind, zk_get.
    fold dest. by rewrite Hsame, Hnone.
Qed.


End hosts.

(** The theorem on the first association of the scenario. *)
Lemma znodemap_set_then_get_witness :
  nodes Scenario.configured !! ZNodeMap.path (associations Scenario.svc)
    = Some (mkZnode EmptyString 0) ∧
  reads_back (lib := RefJson.lib) (PyDict (<[KStr "h1" := PyStr "/x"]> ∅)) ∧
  ∃ s', ZNodeMap.set (lib := RefJson.lib) (associations Scenario.svc) "h1" "/x"
          Scenario.configured = (Ok tt, s') ∧
        ZNodeMap.get (lib := RefJson.lib) (associations Scenario.svc) "h1" s'
          = (Ok (PyStr "/x"), s').
Proof.
  assert (nodes Scenario.configured !! ZNodeMap.path (associations Scenario.svc)
          = Some (mkZnode EmptyString 0)) as Hn by (vm_compute; reflexivity).
  assert (reads_back (lib := RefJson.lib) (PyDict (<[KStr "h1" := PyStr "/x"]> ∅))) as Hback
    by (split_and!; [by vm_compute|vm_compute; reflexivity|vm_compute; reflexivity]).
  split_and!; [exact Hn|exact Hback|].
  destruct (znodemap_set_then_get (lib := RefJson.lib) (associations Scenario.svc)
              Scenario.configured _ ∅ "h1" "/x" Hn eq_refl Hback)
    as (s' & Hset & Hget & _).
  exists s'. split; [exact Hset|exact Hget].
Defined.

(** The theorem on a host the scenario does not know. *)
Lemma missing_association_is_a_key_error_witness :
  nodes Scenario.associated !! ZNodeMap.path (associations Scenario.svc)
    = Some (mkZnode (js "{'h1': '/services/svc/views/prod'}") 1) ∧
  get_config (lib := RefJson.lib) Scenario.svc "h2" Scenario.associated
    = (Raise KeyError, Scenario.associated).
Proof.
  assert (nodes Scenario.associated !! ZNodeMap.path (associations Scenario.svc)
          = Some (mkZnode (js "{'h1': '/services/svc/views/prod'}") 1)) as Hn
    by (vm_compute; reflexivity).
  split; [exact Hn|].
  destruct (missing_association_is_a_key_error (lib := RefJson.lib)
              Scenario.svc "h2" Scenario.associated) as [Hmiss _].
  apply (Hmiss _ (<[KStr "h1" := PyStr "/services/svc/views/prod"]> ∅) Hn);
    vm_compute; reflexivity.
Defined.

(** The theorem on the host of the scenario. *)
Lemma delete_association_forgets_host_witness :
  nodes Scenario.associated !! ZNodeMap.path (associations Scenario.svc)
    = Some (mkZnode (js "{'h1': '/services/svc/views/prod'}") 1) ∧
  ∃ s', delete_association (lib := RefJson.lib) Scenario.svc "h1" Scenario.associated
          = (Ok tt, s') ∧
        get_config (lib := RefJson.lib) Scenario.svc "h1" s' = (Raise KeyError, s').
Proof.
  assert (nodes Scenario.associated !! ZNodeMap.path (associations Scenario.svc)
          = Some (mkZnode (js "{'h1': '/services/svc/views/prod'}") 1)) as Hn
    by (vm_compute; reflexivity).
  split; [exact Hn|].
  destruct (delete_association_forgets_host (lib := RefJson.lib) Scenario.svc "h1"
              Scenario.associated _ (<[KStr "h1" := PyStr "/services/svc/views/prod"]> ∅) Hn)
    as (s' & Hdel & _ & Hget & _).
  - vm_compute; reflexivity.
  - by eexists; apply lookup_insert_eq.
  - split_and!; [by vm_compute|vm_compute; reflexivity|vm_compute; reflexivity].
  - exists s'. split; [exact Hdel|exact Hget].
Defined.

(** The theorem on [assoc_host(h1, prod)] in the scenario. *)
Lemma assoc_host_then_get_config_witness :
  nodes Scenario.configured !! ZNodeMap.path (associations Scenario.svc)
    = Some (mkZnode EmptyString 0) ∧
  ∃ s', assoc_host (lib := RefJson.lib) Scenario.svc "h1" (Scenario.env "prod")
          Scenario.configured = (Ok tt, s') ∧
        (get_config (lib := RefJson.lib) Scenario.svc "h1" s').1
        = (get_view_by_env (lib := RefJson.lib) Scenario.svc (Scenario.env "prod")
             Scenario.configured).1.
Proof.
  assert (nodes Scenario.configured !! ZNodeMap.path (associations Scenario.svc)
          = Some (mkZnode EmptyString 0)) as Hn by (vm_compute; reflexivity).
  split; [exact Hn|].
  destruct (assoc_host_then_get_config (lib := RefJson.lib) Scenario.svc "h1"
              (Scenario.env "prod") Scenario.configured _ ∅ Hn eq_refl)
    as (s' & Hset & _ & Hget & _).
  - split_and!; [by vm_compute|vm_compute; reflexivity|vm_compute; reflexivity].
  - exists s'. split; [exact Hset|exact Hget].
Defined.

Section listing.
Context `{lib : PyLib}.
Implicit Types (self : Jones) (s : zk) (e d : Env) (zmap : pydict).

Lemma py_eq_str_true v dest : py_eq_str v dest = true ↔ v = PyStr dest.
Proof.
  destruct v; simpl; try (split; [done|congruence]).
  rewrite bool_decide_eq_true. split; congruence.
Qed.

Lemma pyval_of_key_inj k1 k2 : pyval_of_key k1 = pyval_of_key k2 → k1 = k2.
Proof. destruct k1, k2; simpl; congruence. Qed.

Lemma hosts_of_dict zmap dest hosts :
  hosts_of (PyDict zmap) dest = Ok hosts →
  NoDup hosts ∧
  (∀ v, v ∈ hosts ↔ ∃ k, v = pyval_of_key k ∧ zmap !! k = Some (PyStr dest)).
Proof.
  intros [= <-]. split.
  - apply NoDup_fmap_2_strong.
    + intros [k1 v1] [k2 v2] [_ H1%elem_of_map_to_list]%list_elem_of_filter
        [_ H2%elem_of_map_to_list]%list_elem_of_filter Hk%pyval_of_key_inj.
      simpl in Hk. subst k2. congruence.
    + apply NoDup_filter, NoDup_map_to_list.
  - intros v. rewrite list_elem_of_fmap. split.
    + intros ([k w] & -> & [Hw%py_eq_str_true Hk%elem_of_map_to_list]%list_elem_of_filter).
      simpl in *. subst w. eauto.
    + intros (k & -> & Hk). exists (k, PyStr dest). split; [done|].
      apply list_elem_of_filter. split; [by apply py_eq_str_true|].
      by apply elem_of_map_to_list.
Qed.

(** X7: for an environment that is not the root and a map that reads as a
    mapping, [get_associations] succeeds without writing, and returns each
    key mapped to the view path of the environment, once, and nothing
    else.  The lists of two different environments share no host. *)
Theorem get_associations_lists_hosts_of_env self e s n zmap :
  is_root e = false →
  nodes s !! ZNodeMap.path (associations self) = Some n →
  read_policy (node_data n) = Ok (PyDict zmap) →
  ∃ hosts, get_associations self e s = (Ok (Some hosts), s) ∧
    NoDup hosts ∧
    (∀ v, v ∈ hosts ↔
       ∃ k, v = pyval_of_key k ∧ zmap !! k = Some (PyStr (_get_view_path self e))) ∧
    (∀ name1 name2 d hosts',
       Env_new name1 = Ok e → Env_new name2 = Ok d → d ≠ e →
       get_associations self d s = (Ok (Some hosts'), s) →
       ∀ v, v ∈ hosts → v ∉ hosts').
Proof.
  intros Hroot Hn Hread.
  assert (∀ d, is_root d = false →
            get_associations self d s
            = (Ok (Some (default [] (match hosts_of (PyDict zmap) (_get_view_path self d)
                                     with Ok l => Some l | Raise _ => None end))), s)) as Hrun.
  { intros d Hd. unfold get_associations. rewrite Hd.
    by erewrite bind_Ok by (by eapply znodemap_get_all_run). }
  eexists. split; [by apply Hrun|].
  cbn [hosts_of default].
  destruct (hosts_of_dict zmap (_get_view_path self e) _ eq_refl) as [Hnodup Hin].
  split_and!; [exact Hnodup|exact Hin|].
  intros name1 name2 d hosts' He Hd Hne Hget v Hv Hv'.
  destruct (is_root d) eqn:Hdroot.
  { unfold get_associations in Hget. rewrite Hdroot in Hget. discriminate. }
  rewrite (Hrun d Hdroot) in Hget. injection Hget as <-.
  cbn [hosts_of default] in Hv'.
  apply Hin in Hv as (k & -> & Hk).
  apply (hosts_of_dict zmap (_get_view_path self d) _ eq_refl) in Hv' as (k' & Hkk & Hk').
  apply pyval_of_key_inj in Hkk as <-.
  rewrite Hk in Hk'. injection Hk' as Hpath.
  apply Hne. symmetry. exact (path_by_env_inj (view_path self) _ _ _ _ He Hd Hpath).
Qed.

End listing.

(** The theorem on the host of [prod] in the scenario. *)
Lemma get_associations_lists_hosts_of_env_witness :
  is_root (Scenario.env "prod") = false ∧
  nodes Scenario.associated !! ZNodeMap.path (associations Scenario.svc)
    = Some (mkZnode (js "{'h1': '/services/svc/views/prod'}") 1) ∧
  ∃ hosts, get_associations (lib := RefJson.lib) Scenario.svc (Scenario.env "prod")
             Scenario.associated = (Ok (Some hosts), Scenario.associated) ∧
           PyStr "h1" ∈ hosts.
Proof.
  assert (nodes Scenario.associated !! ZNodeMap.path (associations Scenario.svc)
          = Some (mkZnode (js "{'h1': '/services/svc/views/prod'}") 1)) as Hn
    by (vm_compute; reflexivity).
  split_and!; [reflexivity|exact Hn|].
  destruct (get_associations_lists_hosts_of_env (lib := RefJson.lib) Scenario.svc
              (Scenario.env "prod") Scenario.associated _
              (<[KStr "h1" := PyStr "/services/svc/views/prod"]> ∅) eq_refl Hn)
    as (hosts & Hget & _ & Hin & _).
  - vm_compute; reflexivity.
  - exists hosts. split; [exact Hget|].
    apply Hin. exists (KStr "h1"). split; [reflexivity|]. apply lookup_insert_eq.
Defined.

(** ** Writing a configuration *)

Section writing.
Context `{lib : PyLib}.
Implicit Types (self : Jones) (s a b : zk) (e d : Env) (p : string).

Lemma version_matches_spec version actual :
  version_matches version actual = true ↔ version = -1 ∨ version = actual.
Proof.
  unfold version_matches. rewrite orb_true_iff, !bool_decide_eq_true. done.
Qed.

Lemma set_with_version path conf version :
  _set path conf (Some version) = zk_set path (json_dumps conf) version.
Proof. done. Qed.

(** The cascade of [set_config], finished or not, touches no node that is
    not a view node, and only adds to the requests. *)
Lemma cascade_keeps_any self l a r b p n :
  for_each l (λ child : string,
    let! env' := lift (Env_new (Some (Str.drop (String.length (conf_path self) + 1) child))) in
    _update_view self env') a = (r, b) →
  nodes a !! p = Some n →
  (∀ d, p ≠ _get_view_path self d) →
  nodes b !! p = Some n ∧ ∃ rest, requests b = requests a ++ rest.
Proof.
  intros Hrun Hp Hview. revert a r b Hrun Hp.
  induction l as [|k l IH]; intros a r b Hrun Hp.
  - injection Hrun as <- <-. split; [done|]. exists []. by rewrite app_nil_r.
  - cbn [for_each] in Hrun.
    apply bind_inv in Hrun as [(err & Hbody & ->)|([] & a1 & Hbody & Hrest)].
    + apply bind_inv in Hbody as [(err' & Henv & _)|(d & a0 & Henv & Hupd)].
      * unfold lift in Henv. injection Henv as _ <-. split; [done|].
        exists []. by rewrite app_nil_r.
      * unfold lift in Henv. injection Henv as _ <-.
        split; [by eapply update_view_keeps_any|].
        by eapply update_view_requests_any.
    + apply bind_inv in Hbody as [(err' & Henv & [=])|(d & a0 & Henv & Hupd)].
      unfold lift in Henv. injection Henv as _ <-.
      pose proof (update_view_keeps_any _ _ _ _ _ _ _ Hupd Hp (Hview d)) as Hp1.
      destruct (update_view_requests_any _ _ _ _ _ Hupd) as [rest1 Hreq1].
      destruct (IH _ _ _ Hrest Hp1) as [Hb [rest2 Hreq2]].
      split; [done|]. exists (rest1 ++ rest2). by rewrite Hreq2, Hreq1, <- app_assoc.
Qed.

(** X8: the version of a [set_config] is checked against the ConfigNode
    before anything is written.  For a mapping [conf], a missing ConfigNode
    gives [NoNodeError] and a version that is neither [-1] nor the node's
    gives [BadVersionError]; in both cases the write is the only request
    sent and no node has changed.  A call that succeeds found the node at
    the version given, or was given [-1]. *)
Theorem set_config_checks_version self e conf version s :
  is_mapping conf = true →
  let path := _get_env_path self e in
  let refused := mkZk (nodes s) (requests s ++ [ReqSet path (json_dumps conf) version]) in
  (nodes s !! path = None →
     set_config self e conf version s = (Raise NoNodeError, refused)) ∧
  (∀ n, nodes s !! path = Some n → version ≠ -1 → version ≠ node_version n →
     set_config self e conf version s = (Raise BadVersionError, refused)) ∧
  (∀ s', set_config self e conf version s = (Ok tt, s') →
     ∃ n, nodes s !! path = Some n ∧ (version = -1 ∨ version = node_version n)).
Proof.
  intros Hmap path refused. unfold set_config. rewrite Hmap. cbn [negb]. fold path.
  split_and!.
  - intros Hn. unfold bind at 1. rewrite set_with_version. unfold zk_set. by rewrite Hn.
  - intros n Hn H1 H2. unfold bind at 1. rewrite set_with_version. unfold zk_set. rewrite Hn.
    destruct (version_matches version (node_version n)) eqn:Hv; [|done].
    apply version_matches_spec in Hv as [?|?]; done.
  - intros s' Hrun. apply bind_Ok_inv in Hrun as ([] & s0 & Hset & _).
    rewrite set_with_version in Hset. unfold zk_set in Hset.
    destruct (nodes s !! path) as [n|]; [|done].
    destruct (version_matches version (node_version n)) eqn:Hv; [|done].
    exists n. split; [done|]. by apply version_matches_spec.
Qed.

(** X9: the write of the ConfigNode is not undone when the cascade fails.
    When the ConfigNode exists at the version given, [set_config] with a
    mapping leaves [conf] in it, one version further, whatever the call
    returns: an error raised while the views are recomputed (an ancestor
    that cannot be read, say) comes after the write, which stays, so that
    [get_config_by_env] returns [conf] at the next version when [conf]
    reads back.  The requests sent are the conditional write, then whatever
    the cascade got to send. *)
Theorem set_config_write_is_not_rolled_back self e conf version s n r s' :
  is_mapping conf = true →
  nodes s !! _get_env_path self e = Some n →
  version = -1 ∨ version = node_version n →
  set_config self e conf version s = (r, s') →
  nodes s' !! _get_env_path self e = Some (mkZnode (json_dumps conf) (node_version n + 1)) ∧
  (json_loads (json_dumps conf) = Ok conf →
     get_config_by_env self e s' = (Ok (node_version n + 1, conf), s')) ∧
  ∃ rest, requests s' =
            requests s ++ ReqSet (_get_env_path self e) (json_dumps conf) version :: rest.
Proof.
  intros Hmap Hn Hv%version_matches_spec Hrun.
  unfold set_config in Hrun. rewrite Hmap in Hrun. cbn [negb] in Hrun.
  set (path := _get_env_path self e) in *.
  set (s0 := mkZk (<[path := mkZnode (json_dumps conf) (node_version n + 1)]> (nodes s))
                  (requests s ++ [ReqSet path (json_dumps conf) version])).
  assert (_set path conf (Some version) s = (Ok tt, s0)) as Hset.
  { rewrite set_with_version. unfold zk_set. by rewrite Hn, Hv. }
  rewrite (bind_Ok _ _ _ _ _ Hset) in Hrun.
  unfold bind at 1 in Hrun. unfold zkutil_walk at 1 in Hrun.
  eapply (cascade_keeps_any self _ s0 r s' path) in Hrun as [Hnode [rest Hreq]].
  - split_and!; [exact Hnode| |].
    + intros Hback. unfold get_config_by_env. fold path.
      by apply (get_readable s' path (mkZnode (json_dumps conf) (node_version n + 1))).
    + exists rest. rewrite Hreq. unfold s0. cbn [requests]. by rewrite <- app_assoc.
  - unfold s0. cbn [nodes]. apply lookup_insert_eq.
  - intros d. apply env_path_not_view_path.
Qed.

End writing.

(** The theorem on a stale version in the scenario. *)
Lemma set_config_checks_version_witness :
  is_mapping (PyDict Scenario.cfg_prod_eu) = true ∧
  (set_config (lib := RefJson.lib) Scenario.svc (Scenario.env "prod")
     (PyDict Scenario.cfg_prod_eu) 7 Scenario.configured).1 = Raise BadVersionError ∧
  nodes (set_config (lib := RefJson.lib) Scenario.svc (Scenario.env "prod")
           (PyDict Scenario.cfg_prod_eu) 7 Scenario.configured).2
  = nodes Scenario.configured.
Proof.
  destruct (set_config_checks_version (lib := RefJson.lib) Scenario.svc (Scenario.env "prod")
              (PyDict Scenario.cfg_prod_eu) 7 Scenario.configured eq_refl)
    as (_ & Hstale & _).
  assert (nodes Scenario.configured !! _get_env_path Scenario.svc (Scenario.env "prod")
          = Some (mkZnode (js "{'region': 'na', 'timeout': 10}") 0)) as Hn
    by (vm_compute; reflexivity).
  specialize (Hstale _ Hn).
  split; [reflexivity|].
  rewrite Hstale; [split; reflexivity|done|done].
Defined.

(** The theorem on a root ConfigNode that cannot be read: the call fails
    and the ConfigNode of [prod] has the new payload. *)
Lemma set_config_write_is_not_rolled_back_witness :
  nodes Scenario.unreadable_root !! _get_env_path Scenario.svc (Scenario.env "prod")
    = Some (mkZnode (js "{'region': 'na', 'timeout': 10}") 0) ∧
  (set_config (lib := RefJson.lib) Scenario.svc (Scenario.env "prod")
     (PyDict Scenario.cfg_prod_eu) 0 Scenario.unreadable_root).1 = Raise ValueError ∧
  nodes (set_config (lib := RefJson.lib) Scenario.svc (Scenario.env "prod")
           (PyDict Scenario.cfg_prod_eu) 0 Scenario.unreadable_root).2
    !! _get_env_path Scenario.svc (Scenario.env "prod")
  = Some (mkZnode (js "{'region': 'eu'}") 1).
Proof.
  assert (nodes Scenario.unreadable_root !! _get_env_path Scenario.svc (Scenario.env "prod")
          = Some (mkZnode (js "{'region': 'na', 'timeout': 10}") 0)) as Hn
    by (vm_compute; reflexivity).
  split_and!; [exact Hn|vm_compute; reflexivity|].
  destruct (set_config (lib := RefJson.lib) Scenario.svc (Scenario.env "prod")
              (PyDict Scenario.cfg_prod_eu) 0 Scenario.unreadable_root) as [r s'] eqn:Hrun.
  apply (set_config_write_is_not_rolled_back (lib := RefJson.lib) Scenario.svc
           (Scenario.env "prod") (PyDict Scenario.cfg_prod_eu) 0 Scenario.unreadable_root
           _ r s' eq_refl Hn (or_intror eq_refl) Hrun).
Defined.

(** ** Creating a configuration *)

Section creating.
Context `{lib : PyLib}.
Implicit Types (self : Jones) (s : zk) (e d : Env) (cfg : pydict).

Lemma create_config_unfold self e conf s :
  is_mapping conf = true →
  create_config self e conf s
  = bind (zk_create (_get_env_path self e) (json_dumps conf)) (λ _, _update_view self e)
      (mkZk (ensure_chain (path_chain (view_path self)) (nodes s))
            (requests s ++ [ReqEnsurePath (view_path self)])).
Proof. intros Hmap. unfold create_config. by rewrite Hmap. Qed.

(** A view update, finished with success, leaves every ConfigNode as it
    was, present or absent. *)
Lemma update_view_keeps_conf self e d s s' :
  _update_view self e s = (Ok tt, s') →
  nodes s' !! _get_env_path self d = nodes s !! _get_env_path self d.
Proof.
  intros Hrun. destruct (nodes s !! _get_env_path self d) as [n|] eqn:Hn.
  - eapply update_view_keeps; [exact Hrun|exact Hn|apply env_path_not_view_path].
  - destruct (nodes s' !! _get_env_path self d) as [n|] eqn:Hn'; [|done].
    exfalso. eapply env_path_not_on_view_chain.
    eapply update_view_new; [exact Hrun|exact Hn|by rewrite Hn'].
Qed.

(** X10: [create_config(env, conf)] on a store in which the ConfigNode of
    [env] is absent, its parent exists, and the proper ancestors of [env]
    hold the mappings [cfgs], succeeds; when [conf] reads back,
    [get_config_by_env(env)] then returns [conf] at version 0, the view node
    of [env] holds the overlay of [cfgs] and [conf], and no other
    ConfigNode has been touched. *)
Theorem create_config_then_read self name e cfg s ancestors cfgs :
  Env_new name = Ok e →
  let path := _get_env_path self e in
  let merged := PyDict (overlay (cfgs ++ [cfg])) in
  nodes s !! path = None →
  is_Some (nodes s !! dirname path) →
  json_loads (json_dumps (PyDict cfg)) = Ok (PyDict cfg) →
  ancestor_chain e = ancestors ++ [e] →
  Forall2 (config_at self s) ancestors cfgs →
  ∃ s', create_config self e (PyDict cfg) s = (Ok tt, s') ∧
    get_config_by_env self e s' = (Ok (0, PyDict cfg), s') ∧
    (∃ v, nodes s' !! _get_view_path self e = Some (mkZnode (json_dumps merged) v)) ∧
    (json_loads (json_dumps merged) = Ok merged →
       get_view_by_env self e s' = (Ok merged, s')) ∧
    (∀ d, _get_env_path self d ≠ path →
       nodes s' !! _get_env_path self d = nodes s !! _get_env_path self d).
Proof.
  intros He path merged Habsent [m Hparent] Hback Hchain Hcfgs.
  rewrite create_config_unfold by done. fold path.
  set (s1 := mkZk (ensure_chain _ _) _).
  assert (∀ d, nodes s1 !! _get_env_path self d = nodes s !! _get_env_path self d) as Hconf
    by (intros d; apply ensure_view_root_keeps_conf).
  set (s2 := mkZk (<[path := mkZnode (json_dumps (PyDict cfg)) 0]> (nodes s1))
                  (requests s1 ++ [ReqCreate path (json_dumps (PyDict cfg))])).
  assert (zk_create path (json_dumps (PyDict cfg)) s1 = (Ok tt, s2)) as Hcreate.
  { unfold zk_create. rewrite bool_decide_false.
    2:{ intros [_ Hnone]. unfold s1 in Hnone. cbn [nodes] in Hnone.
        by rewrite (ensure_chain_lookup_Some _ _ _ _ Hparent) in Hnone. }
    assert (nodes s1 !! path = None) as -> by (unfold path; by rewrite Hconf).
    done. }
  rewrite (bind_Ok _ _ _ _ _ Hcreate).
  assert (Forall2 (config_at self s2) (ancestor_chain e) (cfgs ++ [cfg])) as Hall.
  { rewrite Hchain. apply Forall2_app.
    - eapply Forall2_impl; [exact Hcfgs|]. intros d c Hd.
      eapply config_at_nodes; [|exact Hd]. intros p n Hp.
      unfold s2, s1. cbn [nodes]. rewrite lookup_insert_ne by congruence.
      by apply ensure_chain_lookup_Some.
    - constructor; [|constructor]. eexists. split; [apply lookup_insert_eq|done]. }
  pose proof (update_view_run self name e s2 _ He Hall) as Hrun. cbv zeta in Hrun.
  eexists. split; [exact Hrun|].
  set (s' := match nodes s2 !! _get_view_path self e with Some _ => _ | None => _ end) in *.
  assert (∀ d, nodes s' !! _get_env_path self d = nodes s2 !! _get_env_path self d) as Hkeep
    by (intros d; by eapply update_view_keeps_conf).
  assert (∃ v, nodes s' !! _get_view_path self e = Some (mkZnode (json_dumps merged) v))
    as [v Hview].
  { unfold s'. destruct (nodes s2 !! _get_view_path self e);
      eexists; cbn [nodes]; apply lookup_insert_eq. }
  split_and!.
  - unfold get_config_by_env. fold path.
    apply (get_readable s' path (mkZnode (json_dumps (PyDict cfg)) 0)); [|done].
    unfold path. rewrite Hkeep. apply lookup_insert_eq.
  - by exists v.
  - intros Hmerged. unfold get_view_by_env.
    by erewrite bind_Ok by (by eapply get_readable).
  - intros d Hd. rewrite Hkeep. unfold s2. cbn [nodes].
    by rewrite lookup_insert_ne, Hconf by congruence.
Qed.

(** X11: [create_config] does not overwrite.  For a mapping [conf] and an
    environment whose ConfigNode exists (and with it its parent), the call
    raises [NodeExistsError] after the view root has been ensured and the
    create has been sent; the ConfigNode keeps its payload and version, and
    no view is recomputed. *)
Theorem create_config_refuses_existing_node self e conf s n :
  is_mapping conf = true →
  let path := _get_env_path self e in
  nodes s !! path = Some n →
  is_Some (nodes s !! dirname path) →
  let s' := mkZk (ensure_chain (path_chain (view_path self)) (nodes s))
                 (requests s ++ [ReqEnsurePath (view_path self);
                                 ReqCreate path (json_dumps conf)]) in
  create_config self e conf s = (Raise NodeExistsError, s') ∧
  nodes s' !! path = Some n ∧
  (∀ d, nodes s' !! _get_env_path self d = nodes s !! _get_env_path self d) ∧
  (∀ p m, nodes s !! p = Some m → nodes s' !! p = Some m).
Proof.
  intros Hmap path Hn [m Hparent] s'.
  rewrite create_config_unfold by done. fold path.
  assert (∀ d, nodes s' !! _get_env_path self d = nodes s !! _get_env_path self d) as Hconf
    by (intros d; apply ensure_view_root_keeps_conf).
  split_and!.
  - unfold bind, zk_create. cbn [nodes]. rewrite bool_decide_false.
    2:{ intros [_ Hnone]. by rewrite (ensure_chain_lookup_Some _ _ _ _ Hparent) in Hnone. }
    rewrite (ensure_chain_lookup_Some _ _ _ _ Hn).
    unfold sent, s'. cbn [nodes requests]. by rewrite <- app_assoc.
  - unfold path. by rewrite Hconf.
  - exact Hconf.
  - intros p k Hp. by apply ensure_chain_lookup_Some.
Qed.

End creating.

(** The theorem on a new environment [dev] of the scenario. *)
Lemma create_config_then_read_witness :
  Env_new (Some "dev") = Ok (Scenario.env "dev") ∧
  nodes Scenario.configured !! _get_env_path Scenario.svc (Scenario.env "dev") = None ∧
  ancestor_chain (Scenario.env "dev") = [Env_Root] ++ [Scenario.env "dev"] ∧
  ∃ s', create_config (lib := RefJson.lib) Scenario.svc (Scenario.env "dev")
          (PyDict Scenario.cfg_prod_eu) Scenario.configured = (Ok tt, s') ∧
        get_config_by_env (lib := RefJson.lib) Scenario.svc (Scenario.env "dev") s'
        = (Ok (0, PyDict Scenario.cfg_prod_eu), s').
Proof.
  assert (nodes Scenario.configured !! _get_env_path Scenario.svc (Scenario.env "dev") = None)
    as Habsent by (vm_compute; reflexivity).
  split_and!; [reflexivity|exact Habsent|reflexivity|].
  destruct (create_config_then_read (lib := RefJson.lib) Scenario.svc (Some "dev")
              (Scenario.env "dev") Scenario.cfg_prod_eu Scenario.configured
              [Env_Root] [Scenario.cfg_root] eq_refl Habsent)
    as (s' & Hcreate & Hget & _).
  - eexists. vm_compute. reflexivity.
  - vm_compute. reflexivity.
  - reflexivity.
  - constructor; [|constructor]. eexists. split; vm_compute; reflexivity.
  - exists s'. split; [exact Hcreate|exact Hget].
Defined.

(** The theorem on [prod], which the scenario has configured. *)
Lemma create_config_refuses_existing_node_witness :
  nodes Scenario.configured !! _get_env_path Scenario.svc (Scenario.env "prod")
    = Some (mkZnode (js "{'region': 'na', 'timeout': 10}") 0) ∧
  (create_config (lib := RefJson.lib) Scenario.svc (Scenario.env "prod")
     (PyDict Scenario.cfg_prod_eu) Scenario.configured).1 = Raise NodeExistsError.
Proof.
  assert (nodes Scenario.configured !! _get_env_path Scenario.svc (Scenario.env "prod")
          = Some (mkZnode (js "{'region': 'na', 'timeout': 10}") 0)) as Hn
    by (vm_compute; reflexivity).
  split; [exact Hn|].
  destruct (create_config_refuses_existing_node (lib := RefJson.lib) Scenario.svc
              (Scenario.env "prod") (PyDict Scenario.cfg_prod_eu) Scenario.configured _
              eq_refl Hn) as [Hrun _].
  - eexists. vm_compute. reflexivity.
  - by rewrite Hrun.
Defined.

(** ** Deleting *)

Section deleting.
Context `{lib : PyLib}.
Implicit Types (self : Jones) (s : zk) (e d : Env) (p k : string).

Lemma has_children_true ns p k :
  is_Some (ns !! k) → dirname k = p → has_children ns p = true.
Proof.
  intros Hk Hdir. unfold has_children. apply bool_decide_eq_true.
  exists k. split; [by apply elem_of_dom|done].
Qed.

(** X12: [delete_config] is two deletes with nothing to undo the first.
    With the ConfigNode present at the version given: when a node has the
    ConfigNode as its parent (a child environment is configured), the call
    raises [NotEmptyError] and no node changes; when the ConfigNode has no
    child and the view node is missing, the ConfigNode is deleted, the
    delete of the view node raises [NoNodeError], and the call ends with
    that error and the ConfigNode gone. *)
Theorem delete_config_is_not_atomic self e version s n :
  let path := _get_env_path self e in
  let view := _get_view_path self e in
  nodes s !! path = Some n →
  version = -1 ∨ version = node_version n →
  (∀ k, is_Some (nodes s !! k) → dirname k = path →
     delete_config self e version s
     = (Raise NotEmptyError, mkZk (nodes s) (requests s ++ [ReqDelete path version]))) ∧
  (has_children (nodes s) path = false → nodes s !! view = None →
     delete_config self e version s
     = (Raise NoNodeError,
        mkZk (delete path (nodes s))
             (requests s ++ [ReqDelete path version; ReqDelete view (-1)]))) ∧
  (∀ err s', has_children (nodes s) path = false →
     delete_config self e version s = (Raise err, s') →
     nodes s' = delete path (nodes s) ∧ nodes s' !! path = None ∧
     nodes s' !! view = nodes s !! view).
Proof.
  intros path view Hn Hv%version_matches_spec.
  assert (path ≠ view) as Hne by apply env_path_not_view_path.
  split_and!.
  - intros k Hk Hdir. unfold delete_config, bind, zk_delete. fold path.
    by rewrite Hn, Hv, (has_children_true _ _ _ Hk Hdir).
  - intros Hleaf Hview. unfold delete_config, bind, zk_delete. fold path view.
    rewrite Hn, Hv, Hleaf. cbn [negb]. unfold with_nodes, sent. cbn [nodes requests].
    rewrite lookup_delete_ne, Hview by done. by rewrite <- app_assoc.
  - intros err s' Hleaf Hrun. unfold delete_config in Hrun. fold path view in Hrun.
    assert (zk_delete path version s
            = (Ok tt, mkZk (delete path (nodes s)) (requests s ++ [ReqDelete path version])))
      as Hfirst by (unfold zk_delete; by rewrite Hn, Hv, Hleaf).
    rewrite (bind_Ok _ _ _ _ _ Hfirst) in Hrun.
    apply zk_delete_Raise in Hrun as ->. cbn [nodes].
    split_and!; [done|apply lookup_delete_eq|by apply lookup_delete_ne].
Qed.

(** X13: [delete_all] on a store that has the root node of the service
    succeeds and removes that node and everything below it: no ConfigNode,
    no view node and no association map is left, so [exists] answers false
    and an [assoc_host] on the same object raises [NoNodeError].  Every
    node that is not in the subtree of the service is as before. *)
Theorem delete_all_removes_service self s :
  is_Some (nodes s !! root self) →
  ∃ s', delete_all self s = (Ok tt, s') ∧
    nodes s' !! root self = None ∧
    (∀ p, below (root self) p = true → nodes s' !! p = None) ∧
    (∀ e, nodes s' !! _get_env_path self e = None ∧
          nodes s' !! _get_view_path self e = None) ∧
    nodes s' !! ZNodeMap.path (associations self) = None ∧
    (∀ p, p ≠ root self → below (root self) p = false →
       nodes s' !! p = nodes s !! p) ∧
    exists_ self s' = (Ok false, s') ∧
    (∀ host e, assoc_host self host e s' = (Raise NoNodeError, s')).
Proof.
  intros [m Hroot].
  set (ns := filter (λ kv : string * znode,
                       kv.1 ≠ root self ∧ below (root self) kv.1 = false) (nodes s)).
  exists (mkZk ns (requests s ++ [ReqDelete (root self) (-1)])). split.
  { unfold delete_all, zk_delete_recursive. by rewrite Hroot. }
  cbn [nodes requests].
  assert (ns !! root self = None) as Hgone.
  { apply map_lookup_filter_None. right. intros x _ [Hx _]. done. }
  assert (∀ p, below (root self) p = true → ns !! p = None) as Hbelow.
  { intros p Hp. apply map_lookup_filter_None. right. intros x _ [_ Hx].
    simpl in Hx. congruence. }
  assert (∀ e, below (root self) (_get_env_path self e) = true ∧
               below (root self) (_get_view_path self e) = true) as Hlayout.
  { intros e. unfold _get_env_path, _get_view_path, _get_path_by_env, conf_path, view_path.
    rewrite !join_pair. destruct (is_root e); rewrite ?app_assoc'; split;
      first [ apply (below_app_true (root self) "conf")
            | apply (below_app_true (root self) "views")
            | apply (below_app_true (root self) ("conf" +:+ "/" +:+ env_str e))
            | apply (below_app_true (root self) ("views" +:+ "/" +:+ env_str e)) ]. }
  assert (ns !! ZNodeMap.path (associations self) = None) as Hmap
    by apply Hbelow, (below_app_true (root self) "nodemaps").
  split_and!.
  - exact Hgone.
  - exact Hbelow.
  - intros e. split; apply Hbelow, Hlayout.
  - exact Hmap.
  - intros p Hp1 Hp2. apply option_eq. intros x. unfold ns.
    rewrite map_lookup_filter_Some. simpl. tauto.
  - unfold exists_, zk_exists. cbn [nodes]. rewrite bool_decide_false; [done|].
    rewrite (Hbelow (_get_env_path self Env_Root)) by apply Hlayout.
    by intros [? [=]].
  - intros host e. unfold assoc_host, ZNodeMap.set.
    by erewrite bind_Raise by (by apply znodemap_get_missing_node).
Qed.

End deleting.

(** The theorem on [prod], whose child [prod/us] is configured, and on
    [prod/us] when its view node is missing. *)
Lemma delete_config_is_not_atomic_witness :
  nodes Scenario.configured !! _get_env_path Scenario.svc (Scenario.env "prod")
    = Some (mkZnode (js "{'region': 'na', 'timeout': 10}") 0) ∧
  delete_config Scenario.svc (Scenario.env "prod") 0 Scenario.configured
  = (Raise NotEmptyError,
     mkZk (nodes Scenario.configured)
          (requests Scenario.configured
           ++ [ReqDelete (_get_env_path Scenario.svc (Scenario.env "prod")) 0])) ∧
  nodes Scenario.viewless !! _get_env_path Scenario.svc (Scenario.env "prod/us")
    = Some (mkZnode (js "{'region': 'us-east'}") 0) ∧
  (delete_config Scenario.svc (Scenario.env "prod/us") 0 Scenario.viewless).1
  = Raise NoNodeError ∧
  nodes (delete_config Scenario.svc (Scenario.env "prod/us") 0 Scenario.viewless).2
    !! _get_env_path Scenario.svc (Scenario.env "prod/us") = None.
Proof.
  assert (nodes Scenario.configured !! _get_env_path Scenario.svc (Scenario.env "prod")
          = Some (mkZnode (js "{'region': 'na', 'timeout': 10}") 0)) as Hn
    by (vm_compute; reflexivity).
  assert (nodes Scenario.viewless !! _get_env_path Scenario.svc (Scenario.env "prod/us")
          = Some (mkZnode (js "{'region': 'us-east'}") 0)) as Hn'
    by (vm_compute; reflexivity).
  destruct (delete_config_is_not_atomic Scenario.svc (Scenario.env "prod") 0
              Scenario.configured _ Hn (or_intror eq_refl)) as [Hfull _].
  destruct (delete_config_is_not_atomic Scenario.svc (Scenario.env "prod/us") 0
              Scenario.viewless _ Hn' (or_intror eq_refl)) as (_ & Hview & _).
  split_and!; [exact Hn| |exact Hn'| |].
  - apply (Hfull (_get_env_path Scenario.svc (Scenario.env "prod/us"))).
    + eexists. vm_compute. reflexivity.
    + vm_compute. reflexivity.
  - rewrite Hview; [reflexivity|vm_compute; reflexivity|vm_compute; reflexivity].
  - rewrite Hview; [|vm_compute; reflexivity|vm_compute; reflexivity].
    cbn [snd nodes]. apply lookup_delete_eq.
Defined.

(** The theorem on the scenario. *)
Lemma delete_all_removes_service_witness :
  is_Some (nodes Scenario.configured !! root Scenario.svc) ∧
  ∃ s', delete_all Scenario.svc Scenario.configured = (Ok tt, s') ∧
        exists_ Scenario.svc s' = (Ok false, s').
Proof.
  assert (is_Some (nodes Scenario.configured !! root Scenario.svc)) as Hroot
    by (eexists; vm_compute; reflexivity).
  split; [exact Hroot|].
  destruct (delete_all_removes_service (lib := RefJson.lib) Scenario.svc Scenario.configured
              Hroot) as (s' & Hrun & _ & _ & _ & _ & _ & Hexists & _).
  exists s'. split; [exact Hrun|exact Hexists].
Defined.

(** ** Constructing the object *)

Section constructing.
Context `{lib : PyLib}.
Implicit Types (self : Jones) (s : zk) (e d : Env) (p q : string).

Lemma ensure_chain_lookup_notin chain ns q :
  q ∉ chain → ensure_chain chain ns !! q = ns !! q.
Proof.
  intros Hq. destruct (ns !! q) as [n|] eqn:Hn.
  - by apply ensure_chain_lookup_Some.
  - destruct (ensure_chain chain ns !! q) as [n|] eqn:Hn'; [|done].
    apply ensure_chain_lookup_new in Hn' as [?|(_ & ? & _)]; [congruence|done].
Qed.

(** Neither a ConfigNode nor a view node lies on the way from the tree
    root to the association map. *)
Lemma layout_not_on_map_chain self e :
  (_get_env_path self e ∉ path_chain (ZNodeMap.path (associations self))) ∧
  (_get_view_path self e ∉ path_chain (ZNodeMap.path (associations self))).
Proof.
  change (ZNodeMap.path (associations self)) with (root self +:+ "/nodemaps").
  split; intros [t Ht]%path_chain_fuel_prefix; revert Ht;
    unfold _get_env_path, _get_view_path, _get_path_by_env, conf_path, view_path;
    rewrite ?join_pair; destruct (is_root e); rewrite ?app_assoc';
    intros Ht%app_inv_head; cbv [String.append] in Ht; discriminate.
Qed.

Lemma map_path_cons self : ∃ c p, ZNodeMap.path (associations self) = String c p.
Proof. unfold associations, root. eexists _, _. reflexivity. Qed.

(** X14: constructing the object ensures the path of the association map
    and does nothing else.  [Jones(service)] always succeeds and sends one
    [ensure_path]; afterwards the map's node exists; every node that was
    there is as it was, and a node that is new is empty, at version 0, and
    lies on the way from the tree root to the map.  No ConfigNode and no
    view node is made, so [exists] answers as before.  A map that had to be
    made reads as the empty mapping, and constructing the object a second
    time changes no node. *)
Theorem jones_init_only_ensures_the_map service s :
  let self := mkJones service in
  let amap := ZNodeMap.path (associations self) in
  ∃ s', Jones_init service s = (Ok self, s') ∧
    requests s' = requests s ++ [ReqEnsurePath amap] ∧
    is_Some (nodes s' !! amap) ∧
    (∀ p n, nodes s !! p = Some n → nodes s' !! p = Some n) ∧
    (∀ p n, nodes s !! p = None → nodes s' !! p = Some n →
       p ∈ path_chain amap ∧ n = mkZnode EmptyString 0) ∧
    (∀ e, nodes s' !! _get_env_path self e = nodes s !! _get_env_path self e ∧
          nodes s' !! _get_view_path self e = nodes s !! _get_view_path self e) ∧
    (exists_ self s').1 = (exists_ self s).1 ∧
    (nodes s !! amap = None →
       ZNodeMap.get_all (associations self) s' = (Ok (PyDict ∅), s')) ∧
    nodes (Jones_init service s').2 = nodes s'.
Proof.
  intros self amap.
  exists (mkZk (ensure_chain (path_chain amap) (nodes s)) (requests s ++ [ReqEnsurePath amap])).
  destruct (map_path_cons self) as (c & r & Hcr). fold amap in Hcr.
  assert (∀ ns, is_Some (ensure_chain (path_chain amap) ns !! amap)) as Hmade
    by (intros ns; rewrite Hcr; apply ensure_path_exists).
  assert (∀ p n, nodes s !! p = None →
            ensure_chain (path_chain amap) (nodes s) !! p = Some n →
            p ∈ path_chain amap ∧ n = mkZnode EmptyString 0) as Hnew.
  { intros p n Hp Hn. apply ensure_chain_lookup_new in Hn as [?|(_ & ? & ?)]; [congruence|done]. }
  cbn [nodes requests]. split_and!.
  - done.
  - done.
  - apply Hmade.
  - intros p n Hp. by apply ensure_chain_lookup_Some.
  - exact Hnew.
  - intros e. split; apply ensure_chain_lookup_notin, layout_not_on_map_chain.
  - unfold exists_, zk_exists. cbn [fst nodes].
    by rewrite (ensure_chain_lookup_notin _ _ _ (proj1 (layout_not_on_map_chain self Env_Root))).
  - intros Habsent. destruct (Hmade (nodes s)) as [n Hn].
    destruct (Hnew _ _ Habsent Hn) as [_ ->].
    by apply (znodemap_get_all_run (associations self)
                (mkZk (ensure_chain (path_chain amap) (nodes s))
                      (requests s ++ [ReqEnsurePath amap])) _ _ Hn).
  - change (nodes (Jones_init service _).2)
      with (ensure_chain (path_chain amap) (ensure_chain (path_chain amap) (nodes s))).
    destruct (Hmade (nodes s)) as [n Hn].
    set (ns := ensure_chain (path_chain amap) (nodes s)) in *.
    rewrite Hcr in *. destruct (path_chain_head c r) as [rest ->].
    cbn [ensure_chain]. by rewrite Hn.
Qed.

End constructing.

(** ** Reading *)

Section reading.
Context `{lib : PyLib}.
Implicit Types (self : Jones) (s : zk) (e d : Env) (p : string) (cfg : pydict).

(** The loop of the flattening stops at the first node it cannot read. *)
Lemma flatten_loop_fails pre p post cfgs data s err :
  Forall2 (λ q cfg, ∃ n, nodes s !! q = Some n ∧
                         json_loads (node_data n) = Ok (PyDict cfg)) pre cfgs →
  _get p s = (Raise err, s) →
  flatten_loop (pre ++ p :: post) data s = (Raise err, s).
Proof.
  intros Hpre Hp. revert data.
  induction Hpre as [|q cfg pre cfgs (n & Hn & Hcfg) _ IH]; intros data.
  - cbn [app flatten_loop]. by erewrite bind_Raise by exact Hp.
  - cbn [app flatten_loop].
    erewrite bind_Ok by (by eapply get_readable).
    unfold bind at 1, lift. cbn [dict_update]. apply IH.
Qed.

Lemma get_fails path s err :
  (_get path s).1 = Raise err → _get path s = (Raise err, s).
Proof.
  intros H. pose proof (get_state path s) as Hst.
  destruct (_get path s) as [r s1]. simpl in *. by subst.
Qed.

Lemma flatten_from_root_fails self name e s pre d post cfgs err :
  Env_new name = Ok e →
  ancestor_chain e = pre ++ d :: post →
  Forall2 (config_at self s) pre cfgs →
  (_get (_get_env_path self d) s).1 = Raise err →
  _flatten_from_root self e s = (Raise err, s).
Proof.
  intros He Hchain Hpre Hd%get_fails.
  assert (Forall2 (λ q cfg, ∃ n, nodes s !! q = Some n ∧
                     json_loads (node_data n) = Ok (PyDict cfg))
            (map (_get_env_path self) pre) cfgs) as Hpre'
    by (by apply Forall2_fmap_l).
  unfold _flatten_from_root.
  apply Env_new_inv in He as [[-> _]|(c & str & _ & Hc & ->)].
  - rewrite envs_of_components_root. unfold bind at 1, lift.
    change (ancestor_chain Env_Root) with [Env_Root] in Hchain.
    destruct pre as [|x pre]; [|injection Hchain as _ Hnil; by destruct pre].
    injection Hchain as <- <-. cbn [map flatten_loop].
    by erewrite bind_Raise by exact Hd.
  - rewrite (envs_of_components c str Hc). unfold bind at 1, lift.
    rewrite Hchain, map_app. cbn [map]. by apply (flatten_loop_fails _ _ _ cfgs).
Qed.

(** X15: the flattening needs every ancestor.  For a constructed
    environment whose chain has an environment [d] whose ConfigNode cannot
    be read, the environments before [d] holding mappings,
    [_flatten_from_root] raises the error of that read ([NoNodeError] when
    the node is missing, the decoder's error when the payload is refused)
    and leaves the store alone.  [_update_view] fails with the same error,
    and writes no view; but it has ensured the path of the view node by
    then, so a view node that was missing is left behind empty, at
    version 0. *)
Theorem flatten_needs_every_ancestor self name e s pre d post cfgs err :
  Env_new name = Ok e →
  ancestor_chain e = pre ++ d :: post →
  Forall2 (config_at self s) pre cfgs →
  (_get (_get_env_path self d) s).1 = Raise err →
  let dest := _get_view_path self e in
  _flatten_from_root self e s = (Raise err, s) ∧
  (nodes s !! _get_env_path self d = None → err = NoNodeError) ∧
  (∀ n, nodes s !! _get_env_path self d = Some n → json_loads (node_data n) = Raise err) ∧
  (is_Some (nodes s !! dest) → _update_view self e s = (Raise err, s)) ∧
  (nodes s !! dest = None →
     ∃ s', _update_view self e s = (Raise err, s') ∧
       requests s' = requests s ++ [ReqEnsurePath dest] ∧
       nodes s' !! dest = Some (mkZnode EmptyString 0) ∧
       (∀ p n, nodes s !! p = Some n → nodes s' !! p = Some n)).
Proof.
  intros He Hchain Hpre Hd dest.
  split_and!.
  - by eapply flatten_from_root_fails.
  - intros Hnone. unfold _get, bind, zk_get in Hd. rewrite Hnone in Hd.
    simpl in Hd. congruence.
  - intros n Hn. unfold _get, bind, zk_get in Hd. rewrite Hn in Hd.
    unfold lift in Hd. destruct (json_loads (node_data n)); simpl in Hd; congruence.
  - intros Hdest. unfold _update_view. fold dest.
    unfold bind at 1, zk_exists. rewrite bool_decide_true by done.
    unfold bind at 1, ret.
    by erewrite bind_Raise by (by eapply flatten_from_root_fails).
  - intros Hdest.
    set (s' := mkZk (ensure_chain (path_chain dest) (nodes s))
                    (requests s ++ [ReqEnsurePath dest])).
    assert (∀ p n, nodes s !! p = Some n → nodes s' !! p = Some n) as Hmono
      by (intros p n Hp; by apply ensure_chain_lookup_Some).
    exists s'. split_and!; [|done| |exact Hmono].
    + unfold _update_view. fold dest.
      unfold bind at 1, zk_exists. rewrite bool_decide_false by (rewrite Hdest; by intros [? [=]]).
      unfold bind at 1, zk_ensure_path. fold s'.
      erewrite bind_Raise; [reflexivity|].
      eapply flatten_from_root_fails; [exact He|exact Hchain| |].
      * eapply Forall2_impl; [exact Hpre|]. intros x c Hx.
        by eapply config_at_nodes.
      * rewrite <- Hd. apply get_fst_nodes. unfold s'. cbn [nodes].
        apply ensure_chain_lookup_notin, env_path_not_on_view_chain.
    + unfold s'. cbn [nodes].
      destruct (view_path_cons self e) as (c & r & Hcr). fold dest in Hcr.
      destruct (path_chain_head c r) as [rest Hchain'].
      rewrite Hcr in *. rewrite Hchain'. cbn [ensure_chain]. rewrite Hdest.
      apply lookup_insert_eq.
Qed.

(** X16: the queries never write.  [get_config], [get_config_by_env],
    [get_view_by_env], [get_associations] and [exists] leave every node as
    it is and send no request, whether they return or raise. *)
Theorem queries_never_write self s :
  (∀ host, (get_config self host s).2 = s) ∧
  (∀ e, (get_config_by_env self e s).2 = s) ∧
  (∀ e, (get_view_by_env self e s).2 = s) ∧
  (∀ e, (get_associations self e s).2 = s) ∧
  (exists_ self s).2 = s.
Proof.
  split_and!.
  - intros host. unfold get_config, bind.
    pose proof (znodemap_get_name_state (associations self) host s) as Hst.
    destruct (ZNodeMap.get (associations self) host s) as [[dest|err] s1];
      simpl in Hst; subst s1; [|done].
    destruct dest as [| | |p| |]; try done.
    pose proof (get_state p s) as Hst.
    by destruct (_get p s) as [[[ver v]|err] s1].
  - intros e. apply get_state.
  - intros e. apply get_view_state.
  - intros e. unfold get_associations. destruct (is_root e); [done|].
    unfold bind.
    pose proof (znodemap_get_all_state (associations self) s) as Hst.
    destruct (ZNodeMap.get_all (associations self) s) as [[v|err] s1];
      simpl in Hst; subst s1; [|done].
    unfold lift. by destruct (hosts_of v _).
  - done.
Qed.

End reading.

(** ** The legacy parser *)

Section legacy_parser.
Context `{lib : PyLib}.

Lemma dict_of_pairs_fails lines acc :
  forallb (λ l, bool_decide (List.length (Str.split ZNodeMap.OLD_SEPARATOR l) = 2%nat)) lines
    = false →
  ZNodeMap.dict_of_pairs (map (Str.split ZNodeMap.OLD_SEPARATOR) lines) acc
    = Raise ValueError.
Proof.
  revert acc. induction lines as [|l lines IH]; intros acc; [done|].
  cbn [forallb map]. intros [Hl|Hrest]%andb_false_iff.
  - apply bool_decide_eq_false in Hl.
    by destruct (Str.split ZNodeMap.OLD_SEPARATOR l) as [|k [|v [|]]].
  - destruct (Str.split ZNodeMap.OLD_SEPARATOR l) as [|k [|v [|]]]; try done.
    by apply IH.
Qed.

(** X17: the legacy parser accepts exactly the payloads of the legacy
    pattern.  A payload that is not empty is turned into a mapping when
    each of its lines is one name, the separator and one destination, and
    is refused with [ValueError] otherwise (a trailing newline, a blank
    line and a second separator in a line all do that).  A read of the
    association map whose payload contains the separator without being
    of the pattern therefore raises [ValueError], with the store as it
    was. *)
Theorem legacy_parser_accepts_exactly_the_pattern data :
  data ≠ EmptyString →
  (legacy_pattern data = true → ∃ d, ZNodeMap._deserialize data = Ok d) ∧
  (legacy_pattern data = false → ZNodeMap._deserialize data = Raise ValueError) ∧
  (∀ self s n,
     nodes s !! ZNodeMap.path self = Some n → node_data n = data →
     Str.contains ZNodeMap.OLD_SEPARATOR data = true →
     legacy_pattern data = false →
     ZNodeMap._get self s = (Raise ValueError, s) ∧
     ZNodeMap.get_all self s = (Raise ValueError, s) ∧
     ∀ name dest, ZNodeMap.set self name dest s = (Raise ValueError, s)).
Proof.
  intros Hdata.
  assert (legacy_pattern data = false → ZNodeMap._deserialize data = Raise ValueError)
    as Hrefused.
  { unfold legacy_pattern. rewrite bool_decide_false by done. cbn [negb andb].
    intros Hlines. unfold ZNodeMap._deserialize.
    rewrite bool_decide_false by (by destruct data).
    by apply dict_of_pairs_fails. }
  split_and!.
  - by intros (_ & _ & Hd)%legacy_pattern_read.
  - exact Hrefused.
  - intros self s n Hn Hnode Hsep Hpat.
    assert (ZNodeMap._get self s = (Raise ValueError, s)) as Hget.
    { rewrite (znodemap_get_policy _ _ _ Hn), Hnode. unfold read_policy.
      rewrite bool_decide_false by (by destruct data).
      by rewrite Hsep, (Hrefused Hpat). }
    split_and!; [done| |].
    + unfold ZNodeMap.get_all. by erewrite bind_Raise by exact Hget.
    + intros name dest. unfold ZNodeMap.set. by erewrite bind_Raise by exact Hget.
Qed.

End legacy_parser.

(** The theorem on a ConfigNode of the root that cannot be read. *)
Lemma flatten_needs_every_ancestor_witness :
  Env_new (Some "prod") = Ok (Scenario.env "prod") ∧
  ancestor_chain (Scenario.env "prod") = [] ++ Env_Root :: [Scenario.env "prod"] ∧
  (_get (lib := RefJson.lib) (_get_env_path Scenario.svc Env_Root)
     Scenario.unreadable_root).1 = Raise ValueError ∧
  _flatten_from_root (lib := RefJson.lib) Scenario.svc (Scenario.env "prod")
    Scenario.unreadable_root = (Raise ValueError, Scenario.unreadable_root).
Proof.
  assert ((_get (lib := RefJson.lib) (_get_env_path Scenario.svc Env_Root)
             Scenario.unreadable_root).1 = Raise ValueError) as Hd
    by (vm_compute; reflexivity).
  split_and!; [reflexivity|reflexivity|exact Hd|].
  apply (flatten_needs_every_ancestor (lib := RefJson.lib) Scenario.svc (Some "prod")
           (Scenario.env "prod") Scenario.unreadable_root [] Env_Root
           [Scenario.env "prod"] [] ValueError eq_refl eq_refl (Forall2_nil_2 _ _ _) Hd).
Defined.

(** The theorem on a payload that ends in a newline. *)
Lemma legacy_parser_accepts_exactly_the_pattern_witness :
  "a -> b" +:+ newline ≠ EmptyString ∧
  legacy_pattern ("a -> b" +:+ newline) = false ∧
  ZNodeMap._deserialize ("a -> b" +:+ newline) = Raise ValueError.
Proof.
  assert ("a -> b" +:+ newline ≠ EmptyString) as Hne by done.
  split_and!; [exact Hne|reflexivity|].
  destruct (legacy_parser_accepts_exactly_the_pattern (lib := RefJson.lib)
              ("a -> b" +:+ newline) Hne) as (_ & Hrefused & _).
  apply Hrefused. reflexivity.
Defined.
